(** * KPI Perforación y Tronadura: the Excel reader and the CSV exporter

    A shallow embedding of [leer_excel.py] (the extractor) and of
    [dashboard_csv.py] (the exporter), and the properties the
    specification states about them.

    Conventions of the embedding:
    - a Python [float] is an IEEE 754 binary64 number, [spec_float] with
      precision 53 and maximal exponent 1024;
    - a Python [str] is a [string]; its characters are the code points
      below 256, compared by code point as Python does (the messages
      printed are kept as the source file spells them);
    - a Python exception is a constructor of [exn]; code that can raise
      returns an [outcome];
    - code that prints, opens workbooks or writes files threads a [World]. *)

From Stdlib Require Import ZArith List Bool Ascii String Lia.
From Stdlib Require Import Floats.SpecFloat.
From stdpp Require Import base option list gmap strings pretty sorting.

Local Open Scope string_scope.
Local Open Scope Z_scope.

(** ** Floats *)

Module Float.

Definition prec : Z := 53.
Definition emax : Z := 1024.

Definition float : Type := spec_float.

Definition of_Z (z : Z) : float := binary_normalize prec emax z 0 false.

Definition zero : float := S754_zero false.
Definition one : float := Eval vm_compute in of_Z 1.
Definition hundred : float := Eval vm_compute in of_Z 100.

Definition mul : float -> float -> float := SFmul prec emax.
Definition add : float -> float -> float := SFadd prec emax.
Definition eqb : float -> float -> bool := SFeqb.

Definition is_finite (x : float) : bool :=
  match x with
  | S754_zero _ | S754_finite _ _ _ => true
  | _ => false
  end.

(** [bool(x)] of a float: [x != 0.0]; a NaN is true, both zeros are false. *)
Definition truthy (x : float) : bool := negb (eqb x zero).

(** The nearest integer to [a / b] for [0 < b], ties to the even one. *)
Definition div_half_even (a b : Z) : Z :=
  let q := a / b in
  match (2 * (a mod b)) ?= b with
  | Lt => q
  | Gt => q + 1
  | Eq => if Z.even q then q else q + 1
  end.

(** The binary64 number nearest to [n / d] ([0 <= n], [0 < d]), with
    sign [s]: what [strtod] returns on the decimal string of [n / d]. *)
Definition of_ratio (s : bool) (n d : Z) : float :=
  match n with
  | Z0 => S754_zero s
  | _ =>
    let '(mz, ez, lz) := SFdiv_core_binary prec emax n 0 d 0 in
    binary_round_aux prec emax s mz ez lz
  end.

(** The number of tenths nearest to a finite [m * 2^e]. *)
Definition tenths (m : positive) (e : Z) : Z :=
  if 0 <=? e then 10 * Zpos m * 2 ^ e
  else div_half_even (10 * Zpos m) (2 ^ (- e)).

(** [round(x, 1)]: CPython prints [x] with one digit after the point,
    correctly rounded with ties to even, and reads the string back.
    An infinity or a NaN rounds to itself. *)
Definition round1 (x : float) : float :=
  match x with
  | S754_finite s m e => of_ratio s (tenths m e) 10
  | _ => x
  end.

(** The float a decimal literal [n / 10^k] denotes. *)
Definition of_decimal (n : Z) (k : Z) : float :=
  of_ratio (n <? 0) (Z.abs n) (10 ^ k).

End Float.

Export Float(float).

(** ** Cell values and exceptions *)

(** What a cell of a workbook loaded with [data_only=True] holds: nothing,
    a boolean, an integer, a float, a text, or a date/time (kept as the
    text [str] gives for it). *)
Inductive value : Type :=
  | VNone
  | VBool (b : bool)
  | VInt (z : Z)
  | VFloat (x : float)
  | VStr (s : string)
  | VDateTime (iso : string).

Inductive exn : Type :=
  | ValueError
  | TypeError
  | OverflowError
  | KeyError (key : string)
  | FileNotFoundError (path : string)
  | PermissionError (path : string)
  | IsADirectoryError (path : string)
  | SystemExit (code : Z).

Inductive outcome (A : Type) : Type :=
  | Ok (a : A)
  | Raise (e : exn).
Arguments Ok {A} a.
Arguments Raise {A} e.

#[global] Instance outcome_ret : MRet outcome := fun A a => Ok a.

#[global] Instance outcome_bind : MBind outcome := fun A B k m =>
  match m with
  | Ok a => k a
  | Raise e => Raise e
  end.

#[global] Instance outcome_fmap : FMap outcome := fun A B f m =>
  match m with
  | Ok a => Ok (f a)
  | Raise e => Raise e
  end.

(** [try: m  except <the exceptions handled picks>: h] *)
Definition try_except {A} (m : outcome A) (handled : exn -> bool)
    (h : outcome A) : outcome A :=
  match m with
  | Ok a => Ok a
  | Raise e => if handled e then h else Raise e
  end.

(** ** Built-in conversions *)

(** [float(n)] of an integer: the nearest float, ties to even;
    [OverflowError] when that is beyond the largest finite float. *)
Definition float_of_int (z : Z) : outcome float :=
  let x := Float.of_Z z in
  if Float.is_finite x then Ok x else Raise OverflowError.

(** White space of [str.strip], among the code points below 256. *)
Definition isspace (c : ascii) : bool :=
  let n := Z.of_nat (nat_of_ascii c) in
  ((9 <=? n) && (n <=? 13)) || ((28 <=? n) && (n <=? 32))
  || (n =? 133) || (n =? 160).

Fixpoint lstrip (s : string) : string :=
  match s with
  | String c s' => if isspace c then lstrip s' else s
  | EmptyString => EmptyString
  end.

Fixpoint rstrip (s : string) : string :=
  match s with
  | String c s' =>
    match rstrip s' with
    | EmptyString => if isspace c then EmptyString else String c EmptyString
    | r => String c r
    end
  | EmptyString => EmptyString
  end.

Definition strip (s : string) : string := rstrip (lstrip s).

(** The conversions of the interpreter that the embedding leaves open:
    reading a float from a text ([None] is [ValueError]) and printing one. *)
Record Builtins : Type := {
  float_of_str : string -> option float;
  str_of_float : float -> string;
}.

Section Coercion.
Context (py : Builtins).

(** [float(value)] *)
Definition float_ (v : value) : outcome float :=
  match v with
  | VNone => Raise TypeError
  | VBool b => Ok (if b then Float.one else Float.zero)
  | VInt z => float_of_int z
  | VFloat x => Ok x
  | VStr s =>
    match float_of_str py s with
    | Some x => Ok x
    | None => Raise ValueError
    end
  | VDateTime _ => Raise TypeError
  end.

(** [str(value)] *)
Definition str_ (v : value) : string :=
  match v with
  | VNone => "None"
  | VBool b => if b then "True" else "False"
  | VInt z => pretty z
  | VFloat x => str_of_float py x
  | VStr s => s
  | VDateTime iso => iso
  end.

Definition is_ValueError_or_TypeError (e : exn) : bool :=
  match e with
  | ValueError | TypeError => true
  | _ => false
  end.

Definition _safe_float (v : value) : outcome float :=
  match v with
  | VNone => Ok Float.zero
  | _ => try_except (float_ v) is_ValueError_or_TypeError (Ok Float.zero)
  end.

Definition _safe_str (v : value) : string :=
  match v with
  | VNone => ""
  | _ => strip (str_ v)
  end.

End Coercion.

(** ** The data model of [leer_excel.py] *)

Module EquipoData.
Record t : Type := {
  equipo : string;
  turno_a : float;
  turno_b : float;
  total : float;
  plan : float;
  cumplimiento_ta : float;
  cumplimiento_tb : float;
  cumplimiento_diario : float;
  estado_ta : string;
  estado_tb : string;
}.
End EquipoData.

Module FaseData.
Record t : Type := {
  fase : string;
  equipos : list EquipoData.t;
  total_turno_a : float;
  total_turno_b : float;
  total : float;
  plan : float;
  cumplimiento_ta : float;
  cumplimiento_tb : float;
  cumplimiento_diario : float;
}.
End FaseData.

Module MetrosRocData.
Record t : Type := {
  fase_9 : float;
  fase_10 : float;
  fase_11 : float;
  fase_12 : float;
  plan_diario : float;
  turno_a : float;
  turno_b : float;
  total : float;
}.
End MetrosRocData.

Module DiaData.
Record t : Type := {
  fecha : string;
  fases : gmap string FaseData.t;
  total_turno_a : float;
  total_turno_b : float;
  total_metros : float;
  plan_total : float;
  cumplimiento_ta : float;
  cumplimiento_tb : float;
  cumplimiento_diario : float;
  metros_roc : MetrosRocData.t;
}.
End DiaData.

(** A sheet maps a coordinate (column letter, row) to what the cell holds;
    a cell never written holds [None]. *)
Definition Worksheet : Type := gmap (string * Z) value.

Definition cell (sheet : Worksheet) (col : string) (fila : Z) : value :=
  default VNone (sheet !! (col, fila)).

(** The sheets of a workbook, in the order of [wb.sheetnames]. *)
Definition Sheets : Type := list (string * Worksheet).

Definition sheetnames (sheets : Sheets) : list string := sheets.*1.

(** [wb[nombre_hoja]] *)
Fixpoint getitem (sheets : Sheets) (nombre_hoja : string) : outcome Worksheet :=
  match sheets with
  | [] => Raise (KeyError nombre_hoja)
  | (name, sheet) :: rest =>
    if String.eqb name nombre_hoja then Ok sheet else getitem rest nombre_hoja
  end.

Definition HOJAS_EXCLUIDAS : gset string := {[ "Datos"; "Patios" ]}.

Definition SECCIONES_FASES : list (string * Z * Z) :=
  [ ("F12", 6, 9); ("F10", 11, 15); ("F09", 17, 25); ("F11", 27, 31) ].

Definition FILA_TOTAL_METROS : Z := 34.

Definition FILAS_METROS_ROC : list (string * Z) :=
  [ ("Fase 9", 38); ("Fase 10", 39); ("Fase 11", 40); ("Fase 12", 41) ].

Definition FILA_PLAN_DIARIO_ROC : Z := 42.

(** [d[key]] on a dict given by its items *)
Fixpoint dict_getitem (d : list (string * Z)) (key : string) : outcome Z :=
  match d with
  | [] => Raise (KeyError key)
  | (k, v) :: rest => if String.eqb k key then Ok v else dict_getitem rest key
  end.

(** [range(a, b)] *)
Definition range (a b : Z) : list Z := seqZ a (b - a).

(** [for x in xs: body], the body updating the loop's state [s] *)
Fixpoint for_each {A S : Type} (xs : list A) (body : A -> S -> outcome S)
    (s : S) : outcome S :=
  match xs with
  | [] => Ok s
  | x :: rest => s' ← body x s; for_each rest body s'
  end.

Section Reader.
Context (py : Builtins).

Definition _leer_equipo (sheet : Worksheet) (fila : Z)
    : outcome (option EquipoData.t) :=
  let nombre := _safe_str py (cell sheet "C" fila) in
  if String.eqb nombre "" || String.eqb nombre "TOTAL" then Ok None
  else
    turno_a ← _safe_float py (cell sheet "D" fila);
    turno_b ← _safe_float py (cell sheet "E" fila);
    total ← _safe_float py (cell sheet "F" fila);
    plan ← _safe_float py (cell sheet "G" fila);
    cumplimiento_ta ← _safe_float py (cell sheet "H" fila);
    cumplimiento_tb ← _safe_float py (cell sheet "I" fila);
    cumplimiento_diario ← _safe_float py (cell sheet "K" fila);
    Ok (Some {|
      EquipoData.equipo := nombre;
      EquipoData.turno_a := turno_a;
      EquipoData.turno_b := turno_b;
      EquipoData.total := total;
      EquipoData.plan := plan;
      EquipoData.cumplimiento_ta := cumplimiento_ta;
      EquipoData.cumplimiento_tb := cumplimiento_tb;
      EquipoData.cumplimiento_diario := cumplimiento_diario;
      EquipoData.estado_ta := _safe_str py (cell sheet "M" fila);
      EquipoData.estado_tb := _safe_str py (cell sheet "N" fila);
    |}).

Definition _leer_fase (sheet : Worksheet) (fase_label : string)
    (fila_inicio fila_total : Z) : outcome FaseData.t :=
  equipos ← for_each (range fila_inicio fila_total)
    (fun fila equipos =>
       equipo ← _leer_equipo sheet fila;
       match equipo with
       | Some equipo => Ok (equipos ++ [equipo])%list
       | None => Ok equipos
       end) [];
  total_turno_a ← _safe_float py (cell sheet "D" fila_total);
  total_turno_b ← _safe_float py (cell sheet "E" fila_total);
  total ← _safe_float py (cell sheet "F" fila_total);
  plan ← _safe_float py (cell sheet "G" fila_total);
  cumplimiento_ta ← _safe_float py (cell sheet "H" fila_total);
  cumplimiento_tb ← _safe_float py (cell sheet "I" fila_total);
  cumplimiento_diario ← _safe_float py (cell sheet "K" fila_total);
  Ok {|
    FaseData.fase := fase_label;
    FaseData.equipos := equipos;
    FaseData.total_turno_a := total_turno_a;
    FaseData.total_turno_b := total_turno_b;
    FaseData.total := total;
    FaseData.plan := plan;
    FaseData.cumplimiento_ta := cumplimiento_ta;
    FaseData.cumplimiento_tb := cumplimiento_tb;
    FaseData.cumplimiento_diario := cumplimiento_diario;
  |}.

Definition _leer_metros_roc (sheet : Worksheet) : outcome MetrosRocData.t :=
  fila ← dict_getitem FILAS_METROS_ROC "Fase 9";
  fase_9 ← _safe_float py (cell sheet "F" fila);
  fila ← dict_getitem FILAS_METROS_ROC "Fase 10";
  fase_10 ← _safe_float py (cell sheet "F" fila);
  fila ← dict_getitem FILAS_METROS_ROC "Fase 11";
  fase_11 ← _safe_float py (cell sheet "F" fila);
  fila ← dict_getitem FILAS_METROS_ROC "Fase 12";
  fase_12 ← _safe_float py (cell sheet "F" fila);
  plan_diario ← _safe_float py (cell sheet "C" FILA_PLAN_DIARIO_ROC);
  turno_a ← _safe_float py (cell sheet "D" FILA_PLAN_DIARIO_ROC);
  turno_b ← _safe_float py (cell sheet "E" FILA_PLAN_DIARIO_ROC);
  total ← _safe_float py (cell sheet "F" FILA_PLAN_DIARIO_ROC);
  Ok {|
    MetrosRocData.fase_9 := fase_9;
    MetrosRocData.fase_10 := fase_10;
    MetrosRocData.fase_11 := fase_11;
    MetrosRocData.fase_12 := fase_12;
    MetrosRocData.plan_diario := plan_diario;
    MetrosRocData.turno_a := turno_a;
    MetrosRocData.turno_b := turno_b;
    MetrosRocData.total := total;
  |}.

Definition leer_dia (wb : Sheets) (nombre_hoja : string) : outcome DiaData.t :=
  sheet ← getitem wb nombre_hoja;
  let fecha := strip nombre_hoja in
  fases ← for_each SECCIONES_FASES
    (fun '(fase_label, fila_inicio, fila_total) (fases : gmap string FaseData.t) =>
       fase ← _leer_fase sheet fase_label fila_inicio fila_total;
       Ok (<[fase_label := fase]> fases)) ∅;
  total_turno_a ← _safe_float py (cell sheet "D" FILA_TOTAL_METROS);
  total_turno_b ← _safe_float py (cell sheet "E" FILA_TOTAL_METROS);
  total_metros ← _safe_float py (cell sheet "F" FILA_TOTAL_METROS);
  plan_total ← _safe_float py (cell sheet "G" FILA_TOTAL_METROS);
  cumplimiento_ta ← _safe_float py (cell sheet "H" FILA_TOTAL_METROS);
  cumplimiento_tb ← _safe_float py (cell sheet "I" FILA_TOTAL_METROS);
  cumplimiento_diario ← _safe_float py (cell sheet "K" FILA_TOTAL_METROS);
  metros_roc ← _leer_metros_roc sheet;
  Ok {|
    DiaData.fecha := fecha;
    DiaData.fases := fases;
    DiaData.total_turno_a := total_turno_a;
    DiaData.total_turno_b := total_turno_b;
    DiaData.total_metros := total_metros;
    DiaData.plan_total := plan_total;
    DiaData.cumplimiento_ta := cumplimiento_ta;
    DiaData.cumplimiento_tb := cumplimiento_tb;
    DiaData.cumplimiento_diario := cumplimiento_diario;
    DiaData.metros_roc := metros_roc;
  |}.

End Reader.

(** ** Workbooks, the console and the files written *)

Inductive field : Type :=
  | FStr (s : string)
  | FNum (x : float).

#[global] Instance spec_float_eq_dec : EqDecision spec_float.
Proof. solve_decision. Defined.

#[global] Instance field_eq_dec : EqDecision field.
Proof. solve_decision. Defined.

(** A text file written through [csv.DictWriter]: one list of fields per
    line, the header line first. *)
Record CsvFile : Type := {
  encoding : string;
  delimiter : string;
  lines : list (list field);
}.

(** Why [open(path, "w")] fails: a directory of the path is missing, the
    permission is denied, the path is a directory. *)
Inductive open_error : Type := ENOENT | EACCES | EISDIR.

(** The [OSError] that [open] raises for each. *)
Definition open_exn (err : open_error) (path : string) : exn :=
  match err with
  | ENOENT => FileNotFoundError path
  | EACCES => PermissionError path
  | EISDIR => IsADirectoryError path
  end.

(** A workbook object: its handle and the sheets it was loaded with. *)
Record Workbook : Type := {
  wb_handle : nat;
  wb_sheets : Sheets;
}.

(** [disk]: the spreadsheet documents by path. [handles]: one entry per
    workbook opened so far, [true] while it is open. [stdout]: the lines
    printed. [files]: the text files written, by name. [unwritable]: the
    paths that cannot be opened for writing, each with the reason. A file
    that was opened takes every line written to it. *)
Record World : Type := {
  disk : gmap string Sheets;
  handles : list bool;
  stdout : list string;
  files : gmap string CsvFile;
  unwritable : gmap string open_error;
}.

Definition IO (A : Type) : Type := World -> outcome A * World.

#[global] Instance IO_ret : MRet IO := fun A a w => (Ok a, w).

#[global] Instance IO_bind : MBind IO := fun A B k m w =>
  match m w with
  | (Ok a, w') => k a w'
  | (Raise e, w') => (Raise e, w')
  end.

Definition lift {A} (r : outcome A) : IO A := fun w => (r, w).

Definition raise {A} (e : exn) : IO A := lift (Raise e).

(** [for x in xs: body] for a body with effects *)
Fixpoint for_each_io {A S : Type} (xs : list A) (body : A -> S -> IO S)
    (s : S) : IO S :=
  match xs with
  | [] => mret s
  | x :: rest => s' ← body x s; for_each_io rest body s'
  end.

Definition con_handles (hs : list bool) (w : World) : World :=
  {| disk := disk w; handles := hs; stdout := stdout w; files := files w;
     unwritable := unwritable w |}.

Definition con_stdout (out : list string) (w : World) : World :=
  {| disk := disk w; handles := handles w; stdout := out; files := files w;
     unwritable := unwritable w |}.

Definition con_files (fs : gmap string CsvFile) (w : World) : World :=
  {| disk := disk w; handles := handles w; stdout := stdout w; files := fs;
     unwritable := unwritable w |}.

(** [openpyxl.load_workbook(ruta, data_only=True)] *)
Definition load_workbook (ruta : string) : IO Workbook := fun w =>
  match disk w !! ruta with
  | None => (Raise (FileNotFoundError ruta), w)
  | Some sheets =>
    (Ok {| wb_handle := length (handles w); wb_sheets := sheets |},
     con_handles (handles w ++ [true]) w)
  end.

(** [wb.close()] *)
Definition close (wb : Workbook) : IO unit := fun w =>
  (Ok tt, con_handles (<[wb_handle wb := false]> (handles w)) w).

(** The line feed. *)
Definition nl : string := String (ascii_of_nat 10) EmptyString.

(** [print(line)] *)
Definition print (line : string) : IO unit := fun w =>
  (Ok tt, con_stdout (stdout w ++ [line]) w).

(** [open(archivo, "w", newline="", encoding=...)] with a writer on it:
    on a path that cannot be opened it raises and creates nothing;
    otherwise the file is created, or emptied when it exists. *)
Definition open_w (archivo enc delim : string) : IO unit := fun w =>
  match unwritable w !! archivo with
  | Some err => (Raise (open_exn err archivo), w)
  | None =>
    (Ok tt,
     con_files (<[archivo := {| encoding := enc; delimiter := delim; lines := [] |}]>
                  (files w)) w)
  end.

Definition append_line (line : list field) (f : CsvFile) : CsvFile :=
  {| encoding := encoding f; delimiter := delimiter f; lines := lines f ++ [line] |}.

Definition write_line (archivo : string) (line : list field) : IO unit := fun w =>
  (Ok tt, con_files (alter (append_line line) archivo (files w)) w).

Definition EXCEL_PATH : string := "KPI PyT  Enero 2026 NO OFICIAL.xlsx".

Record Carga : Type := {
  dias : gmap string DiaData.t;
  hojas_fecha : list string;
  total_hojas : nat;
}.

(** [for name in names: if name.strip() == fecha.strip(): ...; break] *)
Fixpoint buscar_hoja (names : list string) (fecha : string) : option string :=
  match names with
  | [] => None
  | name :: rest =>
    if String.eqb (strip name) (strip fecha) then Some name
    else buscar_hoja rest fecha
  end.

Section Loader.
Context (py : Builtins).

Definition cargar_excel (ruta : string) : IO Carga :=
  wb ← load_workbook ruta;
  let hojas_fecha :=
    filter (fun name => strip name ∉ HOJAS_EXCLUIDAS) (sheetnames (wb_sheets wb)) in
  dias ← for_each_io hojas_fecha
    (fun nombre (dias : gmap string DiaData.t) =>
       dia ← lift (leer_dia py (wb_sheets wb) nombre);
       mret (<[strip nombre := dia]> dias)) ∅;
  _ ← close wb;
  mret {| dias := dias;
          hojas_fecha := strip <$> hojas_fecha;
          total_hojas := length hojas_fecha |}.

Definition obtener_dia (fecha : string) (ruta : string) : IO (option DiaData.t) :=
  wb ← load_workbook ruta;
  match buscar_hoja (sheetnames (wb_sheets wb)) fecha with
  | None =>
    _ ← close wb;
    mret None
  | Some nombre_hoja =>
    dia ← lift (leer_dia py (wb_sheets wb) nombre_hoja);
    _ ← close wb;
    mret (Some dia)
  end.

End Loader.

(** ** [dashboard_csv.py] *)

(** A row to export: a dict, as the list of its items in insertion order. *)
Definition Fila : Type := list (string * field).

(** [rowdict.get(key, restval)] *)
Definition fila_get (fila : Fila) (key : string) (restval : field) : field :=
  match List.find (fun kv => String.eqb kv.1 key) fila with
  | Some kv => kv.2
  | None => restval
  end.

(** [round(x * 100, 1) if x else 0.0] *)
Definition porcentaje (x : float) : float :=
  if Float.truthy x then Float.round1 (Float.mul x Float.hundred)
  else Float.zero.

Definition fila_equipo (fecha fase_label : string) (eq : EquipoData.t) : Fila :=
  [ ("Fecha", FStr fecha);
    ("Fase", FStr fase_label);
    ("Equipo", FStr (EquipoData.equipo eq));
    ("Turno_A", FNum (EquipoData.turno_a eq));
    ("Turno_B", FNum (EquipoData.turno_b eq));
    ("Total", FNum (EquipoData.total eq));
    ("Plan", FNum (EquipoData.plan eq));
    ("Cumplimiento_TA", FNum (porcentaje (EquipoData.cumplimiento_ta eq)));
    ("Cumplimiento_TB", FNum (porcentaje (EquipoData.cumplimiento_tb eq)));
    ("Cumplimiento_Diario", FNum (porcentaje (EquipoData.cumplimiento_diario eq)));
    ("Estado_TA", FStr (EquipoData.estado_ta eq));
    ("Estado_TB", FStr (EquipoData.estado_tb eq));
    ("Tipo", FStr "Equipo") ].

Definition fila_total_fase (fecha fase_label : string) (fase : FaseData.t) : Fila :=
  [ ("Fecha", FStr fecha);
    ("Fase", FStr fase_label);
    ("Equipo", FStr "TOTAL_FASE");
    ("Turno_A", FNum (FaseData.total_turno_a fase));
    ("Turno_B", FNum (FaseData.total_turno_b fase));
    ("Total", FNum (FaseData.total fase));
    ("Plan", FNum (FaseData.plan fase));
    ("Cumplimiento_TA", FNum (porcentaje (FaseData.cumplimiento_ta fase)));
    ("Cumplimiento_TB", FNum (porcentaje (FaseData.cumplimiento_tb fase)));
    ("Cumplimiento_Diario", FNum (porcentaje (FaseData.cumplimiento_diario fase)));
    ("Estado_TA", FStr "");
    ("Estado_TB", FStr "");
    ("Tipo", FStr "Total_Fase") ].

Definition fila_total_dia (dia : DiaData.t) : Fila :=
  [ ("Fecha", FStr (DiaData.fecha dia));
    ("Fase", FStr "TODAS");
    ("Equipo", FStr "TOTAL_DIA");
    ("Turno_A", FNum (DiaData.total_turno_a dia));
    ("Turno_B", FNum (DiaData.total_turno_b dia));
    ("Total", FNum (DiaData.total_metros dia));
    ("Plan", FNum (DiaData.plan_total dia));
    ("Cumplimiento_TA", FNum (porcentaje (DiaData.cumplimiento_ta dia)));
    ("Cumplimiento_TB", FNum (porcentaje (DiaData.cumplimiento_tb dia)));
    ("Cumplimiento_Diario", FNum (porcentaje (DiaData.cumplimiento_diario dia)));
    ("Estado_TA", FStr "");
    ("Estado_TB", FStr "");
    ("Tipo", FStr "Total_Dia") ].

(** The order in which [dia_a_filas] visits the phases. *)
Definition ORDEN_FASES : list string := [ "F12"; "F10"; "F09"; "F11" ].

Definition dia_a_filas (dia : DiaData.t) : list Fila :=
  let filas :=
    foldl (fun (filas : list Fila) fase_label =>
        match DiaData.fases dia !! fase_label with
        | None => filas
        | Some fase =>
          let filas :=
            foldl (fun (filas : list Fila) eq =>
                     (filas ++ [fila_equipo (DiaData.fecha dia) fase_label eq])%list)
                  filas (FaseData.equipos fase) in
          (filas ++ [fila_total_fase (DiaData.fecha dia) fase_label fase])%list
        end)
      [] ORDEN_FASES in
  (filas ++ [fila_total_dia dia])%list.

Definition dia_a_filas_roc (dia : DiaData.t) : list Fila :=
  let roc := DiaData.metros_roc dia in
  let filas :=
    foldl (fun (filas : list Fila) '(fase_nombre, valor) =>
        (filas ++ [[ ("Fecha", FStr (DiaData.fecha dia));
                     ("Fase", FStr fase_nombre);
                     ("Metros_ROC", FNum valor) ]])%list)
      []
      [ ("F09", MetrosRocData.fase_9 roc);
        ("F10", MetrosRocData.fase_10 roc);
        ("F11", MetrosRocData.fase_11 roc);
        ("F12", MetrosRocData.fase_12 roc) ] in
  (filas ++ [[ ("Fecha", FStr (DiaData.fecha dia));
               ("Fase", FStr "TOTAL_ROC");
               ("Metros_ROC", FNum (MetrosRocData.total roc));
               ("Turno_A_ROC", FNum (MetrosRocData.turno_a roc));
               ("Turno_B_ROC", FNum (MetrosRocData.turno_b roc));
               ("Plan_Diario_ROC", FNum (MetrosRocData.plan_diario roc)) ]])%list.

(** Strings in ascending order of code points, as [sorted] compares them. *)
Definition str_le (s1 s2 : string) : Prop := String.leb s1 s2 = true.

#[global] Instance str_le_dec : RelDecision str_le.
Proof. intros s1 s2. unfold str_le. apply _. Defined.

(** [sorted(dias.keys())] *)
Definition sorted_keys {V} (d : gmap string V) : list string :=
  merge_sort str_le (map_to_list d).*1.

(** [d[key]] *)
Definition dias_getitem {V} (d : gmap string V) (key : string) : outcome V :=
  match d !! key with
  | Some v => Ok v
  | None => Raise (KeyError key)
  end.

(** [csv.DictWriter(f, fieldnames, delimiter=";", extrasaction=...)]:
    [writerow] raises [ValueError] on a key that is no field name unless
    extras are ignored, and writes [""] for a field name the row lacks. *)
Definition _dict_to_list (fieldnames : list string) (fila : Fila) : list field :=
  (fun key => fila_get fila key (FStr "")) <$> fieldnames.

Definition writerow (archivo : string) (fieldnames : list string)
    (ignore_extras : bool) (fila : Fila) : IO unit :=
  if ignore_extras || forallb (fun kv => bool_decide (kv.1 ∈ fieldnames)) fila
  then write_line archivo (_dict_to_list fieldnames fila)
  else raise ValueError.

Definition writeheader (archivo : string) (fieldnames : list string) : IO unit :=
  write_line archivo (FStr <$> fieldnames).

Definition writerows (archivo : string) (fieldnames : list string)
    (ignore_extras : bool) (filas : list Fila) : IO unit :=
  for_each_io filas (fun fila _ => writerow archivo fieldnames ignore_extras fila) tt.

Definition COLUMNAS_METROS : list string :=
  [ "Fecha"; "Fase"; "Equipo"; "Turno_A"; "Turno_B"; "Total";
    "Plan"; "Cumplimiento_TA"; "Cumplimiento_TB"; "Cumplimiento_Diario";
    "Estado_TA"; "Estado_TB"; "Tipo" ].

Definition COLUMNAS_ROC : list string :=
  [ "Fecha"; "Fase"; "Metros_ROC"; "Turno_A_ROC"; "Turno_B_ROC"; "Plan_Diario_ROC" ].

(** The rows of the equipment view, before they are written. *)
Definition todas_filas_metros (dias : gmap string DiaData.t) : outcome (list Fila) :=
  for_each (sorted_keys dias)
    (fun fecha (todas_filas : list Fila) =>
       dia ← dias_getitem dias fecha;
       Ok (todas_filas ++ dia_a_filas dia)%list) [].

Definition exportar_metros_csv (dias : gmap string DiaData.t) (output : string)
    : IO (option string) :=
  let archivo := output +:+ ".csv" in
  todas_filas ← lift (todas_filas_metros dias);
  match todas_filas with
  | [] =>
    _ ← print "No hay datos para exportar.";
    mret None
  | _ =>
    _ ← open_w archivo "utf-8-sig" ";";
    _ ← writeheader archivo COLUMNAS_METROS;
    _ ← writerows archivo COLUMNAS_METROS false todas_filas;
    _ ← print ("  Metros exportados: " +:+ archivo +:+ " ("
               +:+ pretty (length todas_filas) +:+ " filas)");
    mret (Some archivo)
  end.

Definition todas_filas_roc (dias : gmap string DiaData.t) : outcome (list Fila) :=
  for_each (sorted_keys dias)
    (fun fecha (todas_filas : list Fila) =>
       dia ← dias_getitem dias fecha;
       Ok (todas_filas ++ dia_a_filas_roc dia)%list) [].

Definition exportar_roc_csv (dias : gmap string DiaData.t) (output : string)
    : IO (option string) :=
  let archivo := output +:+ ".csv" in
  todas_filas ← lift (todas_filas_roc dias);
  match todas_filas with
  | [] =>
    _ ← print "No hay datos ROC para exportar.";
    mret None
  | _ =>
    _ ← open_w archivo "utf-8-sig" ";";
    _ ← writeheader archivo COLUMNAS_ROC;
    _ ← writerows archivo COLUMNAS_ROC true todas_filas;
    _ ← print ("  ROC exportados:   " +:+ archivo +:+ " ("
               +:+ pretty (length todas_filas) +:+ " filas)");
    mret (Some archivo)
  end.

(** The order in which the daily summary visits the phases. *)
Definition ORDEN_FASES_RESUMEN : list string := [ "F09"; "F10"; "F11"; "F12" ].

(** [fila[key] = v] *)
Fixpoint fila_set (fila : Fila) (key : string) (v : field) : Fila :=
  match fila with
  | [] => [(key, v)]
  | (k, v0) :: rest =>
    if String.eqb k key then (k, v) :: rest else (k, v0) :: fila_set rest key v
  end.

(** The three columns the daily summary adds to [fila] for one phase. *)
Definition agregar_fase (dia : DiaData.t) (fila : Fila) (fase_label : string) : Fila :=
  match DiaData.fases dia !! fase_label with
  | Some fase =>
    let fila := fila_set fila (fase_label +:+ "_Total") (FNum (FaseData.total fase)) in
    let fila := fila_set fila (fase_label +:+ "_Plan") (FNum (FaseData.plan fase)) in
    fila_set fila (fase_label +:+ "_Cump_%")
             (FNum (porcentaje (FaseData.cumplimiento_diario fase)))
  | None =>
    let fila := fila_set fila (fase_label +:+ "_Total") (FNum Float.zero) in
    let fila := fila_set fila (fase_label +:+ "_Plan") (FNum Float.zero) in
    fila_set fila (fase_label +:+ "_Cump_%") (FNum Float.zero)
  end.

Definition fila_resumen (dia : DiaData.t) : Fila :=
  let fila :=
    [ ("Fecha", FStr (DiaData.fecha dia));
      ("Total_Turno_A", FNum (DiaData.total_turno_a dia));
      ("Total_Turno_B", FNum (DiaData.total_turno_b dia));
      ("Total_Metros", FNum (DiaData.total_metros dia));
      ("Plan_Total", FNum (DiaData.plan_total dia));
      ("Cumplimiento_Diario_%", FNum (porcentaje (DiaData.cumplimiento_diario dia)));
      ("ROC_Total", FNum (MetrosRocData.total (DiaData.metros_roc dia)));
      ("ROC_Plan", FNum (MetrosRocData.plan_diario (DiaData.metros_roc dia))) ] in
  foldl (agregar_fase dia) fila ORDEN_FASES_RESUMEN.

Definition filas_resumen (dias : gmap string DiaData.t) : outcome (list Fila) :=
  for_each (sorted_keys dias)
    (fun fecha (filas : list Fila) =>
       dia ← dias_getitem dias fecha;
       Ok (filas ++ [fila_resumen dia])%list) [].

Definition exportar_resumen_diario_csv (dias : gmap string DiaData.t)
    (output : string) : IO (option string) :=
  let archivo := output +:+ ".csv" in
  filas ← lift (filas_resumen dias);
  match filas with
  | [] =>
    _ ← print "No hay datos para resumen.";
    mret None
  | fila0 :: _ =>
    let columnas := fila0.*1 in
    _ ← open_w archivo "utf-8-sig" ";";
    _ ← writeheader archivo columnas;
    _ ← writerows archivo columnas false filas;
    _ ← print ("  Resumen diario:   " +:+ archivo +:+ " ("
               +:+ pretty (length filas) +:+ " filas)");
    mret (Some archivo)
  end.

(** [args.index(x)] for an [x] that is in [args] *)
Fixpoint index (args : list string) (x : string) : nat :=
  match args with
  | [] => 0%nat
  | a :: rest => if String.eqb a x then 0%nat else S (index rest x)
  end.

(** The [--output] option: the base name and the arguments left. *)
Definition parse_output (args : list string) : string * list string :=
  if bool_decide ("--output" ∈ args) then
    let idx := index args "--output" in
    match args !! (idx + 1)%nat with
    | Some output_base => (output_base, (take idx args ++ drop (idx + 2) args)%list)
    | None => ("kpi", take idx args)
    end
  else ("kpi", args).

(** The three exports at the end of [main]; the files written. *)
Definition exportar (dias : gmap string DiaData.t) (output_base : string)
    : IO (list string) :=
  let archivos : list string := [] in
  a ← exportar_metros_csv dias (output_base +:+ "_metros");
  let archivos := match a with Some a => (archivos ++ [a])%list | None => archivos end in
  a ← exportar_roc_csv dias (output_base +:+ "_roc");
  let archivos := match a with Some a => (archivos ++ [a])%list | None => archivos end in
  a ← exportar_resumen_diario_csv dias (output_base +:+ "_resumen_diario");
  let archivos := match a with Some a => (archivos ++ [a])%list | None => archivos end in
  mret archivos.

Section Command.
Context (py : Builtins).

(** The loop of [main] over the dates asked for. *)
Definition cargar_fechas (fechas : list string) : IO (gmap string DiaData.t) :=
  for_each_io fechas
    (fun fecha (dias : gmap string DiaData.t) =>
       dia ← obtener_dia py fecha EXCEL_PATH;
       match dia with
       | Some dia => mret (<[fecha := dia]> dias)
       | None =>
         _ ← print ("  AVISO: No se encontró la hoja '" +:+ fecha +:+ "'")%string;
         mret dias
       end) ∅.

Definition main (argv : list string) : IO unit :=
  let args := drop 1 argv in
  let '(output_base, args) := parse_output args in
  let fechas := filter (fun a => String.prefix "--" a = false) args in
  _ ← print ("Leyendo Excel: " +:+ EXCEL_PATH);
  dias ← match fechas with
         | _ :: _ => cargar_fechas fechas
         | [] =>
           data ← cargar_excel py EXCEL_PATH;
           _ ← print ("Hojas encontradas: " +:+ pretty (total_hojas data));
           mret (dias data)
         end;
  if decide (dias = ∅) then
    _ ← print "No se encontraron datos. Verifica las fechas.";
    raise (SystemExit 1)
  else
    _ ← print (nl +:+ "Exportando " +:+ pretty (size dias) +:+ " día(s)..." +:+ nl);
    archivos ← exportar dias output_base;
    _ ← print (nl +:+ "Listo. " +:+ pretty (length archivos)
               +:+ " archivo(s) CSV generados.");
    _ ← print "Separador: punto y coma (;) | Encoding: UTF-8 con BOM";
    print "Listos para importar en Power BI, Excel, o cualquier herramienta.".

End Command.

(** The exit status of the command: 0 on a normal return, the code of
    [sys.exit], 1 on any other exception. *)
Definition exit_status {A} (r : outcome A) : Z :=
  match r with
  | Ok _ => 0
  | Raise (SystemExit code) => code
  | Raise _ => 1
  end.

(** ** What the reader is expected to produce *)

(** An integer cell is in range when [float] accepts it; every other
    cell value is. *)
Definition en_rango (v : value) : Prop :=
  match v with
  | VInt z => Float.is_finite (Float.of_Z z) = true
  | _ => True
  end.

Definition hoja_en_rango (sheet : Worksheet) : Prop :=
  forall col fila, en_rango (cell sheet col fila).

(** [lee sheet r a]: reading from [sheet], the computation [r] returns [a],
    unless an integer cell out of range made it raise [OverflowError]. *)
Definition lee {A} (sheet : Worksheet) (r : outcome A) (a : A) : Prop :=
  r = Ok a \/ (r = Raise OverflowError /\ ~ hoja_en_rango sheet).

Section Expected.
Context (py : Builtins).

(** The number a cell stands for: 0.0 for an empty cell and for a value
    that is no number, the number parsed otherwise. *)
Definition numero (v : value) : float :=
  match v with
  | VNone => Float.zero
  | VBool b => if b then Float.one else Float.zero
  | VInt z => Float.of_Z z
  | VFloat x => x
  | VStr s => default Float.zero (float_of_str py s)
  | VDateTime _ => Float.zero
  end.

Definition nombre_equipo (sheet : Worksheet) (fila : Z) : string :=
  _safe_str py (cell sheet "C" fila).

(** The rows that stand for an equipment. *)
Definition es_equipo (sheet : Worksheet) (fila : Z) : Prop :=
  nombre_equipo sheet fila <> "" /\ nombre_equipo sheet fila <> "TOTAL".

#[global] Instance es_equipo_dec sheet fila : Decision (es_equipo sheet fila).
Proof. unfold es_equipo. apply _. Defined.

Definition equipo_de_fila (sheet : Worksheet) (fila : Z) : EquipoData.t := {|
  EquipoData.equipo := nombre_equipo sheet fila;
  EquipoData.turno_a := numero (cell sheet "D" fila);
  EquipoData.turno_b := numero (cell sheet "E" fila);
  EquipoData.total := numero (cell sheet "F" fila);
  EquipoData.plan := numero (cell sheet "G" fila);
  EquipoData.cumplimiento_ta := numero (cell sheet "H" fila);
  EquipoData.cumplimiento_tb := numero (cell sheet "I" fila);
  EquipoData.cumplimiento_diario := numero (cell sheet "K" fila);
  EquipoData.estado_ta := _safe_str py (cell sheet "M" fila);
  EquipoData.estado_tb := _safe_str py (cell sheet "N" fila);
|}.

Definition equipos_de_hoja (sheet : Worksheet) (fila_inicio fila_total : Z)
    : list EquipoData.t :=
  equipo_de_fila sheet <$> filter (es_equipo sheet) (range fila_inicio fila_total).

Definition fase_de_hoja (sheet : Worksheet) (fase_label : string)
    (fila_inicio fila_total : Z) : FaseData.t := {|
  FaseData.fase := fase_label;
  FaseData.equipos := equipos_de_hoja sheet fila_inicio fila_total;
  FaseData.total_turno_a := numero (cell sheet "D" fila_total);
  FaseData.total_turno_b := numero (cell sheet "E" fila_total);
  FaseData.total := numero (cell sheet "F" fila_total);
  FaseData.plan := numero (cell sheet "G" fila_total);
  FaseData.cumplimiento_ta := numero (cell sheet "H" fila_total);
  FaseData.cumplimiento_tb := numero (cell sheet "I" fila_total);
  FaseData.cumplimiento_diario := numero (cell sheet "K" fila_total);
|}.

Definition roc_de_hoja (sheet : Worksheet) : MetrosRocData.t := {|
  MetrosRocData.fase_9 := numero (cell sheet "F" 38);
  MetrosRocData.fase_10 := numero (cell sheet "F" 39);
  MetrosRocData.fase_11 := numero (cell sheet "F" 40);
  MetrosRocData.fase_12 := numero (cell sheet "F" 41);
  MetrosRocData.plan_diario := numero (cell sheet "C" 42);
  MetrosRocData.turno_a := numero (cell sheet "D" 42);
  MetrosRocData.turno_b := numero (cell sheet "E" 42);
  MetrosRocData.total := numero (cell sheet "F" 42);
|}.

Definition fases_de_hoja (sheet : Worksheet) : gmap string FaseData.t :=
  <["F11" := fase_de_hoja sheet "F11" 27 31]>
  (<["F09" := fase_de_hoja sheet "F09" 17 25]>
  (<["F10" := fase_de_hoja sheet "F10" 11 15]>
  (<["F12" := fase_de_hoja sheet "F12" 6 9]> ∅))).

Definition dia_de_hoja (sheet : Worksheet) (nombre_hoja : string) : DiaData.t := {|
  DiaData.fecha := strip nombre_hoja;
  DiaData.fases := fases_de_hoja sheet;
  DiaData.total_turno_a := numero (cell sheet "D" 34);
  DiaData.total_turno_b := numero (cell sheet "E" 34);
  DiaData.total_metros := numero (cell sheet "F" 34);
  DiaData.plan_total := numero (cell sheet "G" 34);
  DiaData.cumplimiento_ta := numero (cell sheet "H" 34);
  DiaData.cumplimiento_tb := numero (cell sheet "I" 34);
  DiaData.cumplimiento_diario := numero (cell sheet "K" 34);
  DiaData.metros_roc := roc_de_hoja sheet;
|}.

End Expected.

(** The rows one phase of a day gives in the equipment view. *)
Definition bloque_fase (dia : DiaData.t) (fase_label : string) : list Fila :=
  match DiaData.fases dia !! fase_label with
  | Some fase =>
    (fila_equipo (DiaData.fecha dia) fase_label <$> FaseData.equipos fase)
    ++ [fila_total_fase (DiaData.fecha dia) fase_label fase]
  | None => []
  end.

(** The sum of the four phase totals of a day, a missing phase counting 0. *)
Definition suma_fases (dia : DiaData.t) : float :=
  foldl (fun acc fase_label =>
           Float.add acc (from_option FaseData.total Float.zero
                            (DiaData.fases dia !! fase_label)))
        Float.zero ORDEN_FASES.

(** The rows of [filas] whose field [key] is the text [v]. *)
Definition filas_con (key v : string) (filas : list Fila) : list Fila :=
  filter (fun fila => fila_get fila key (FStr "") = FStr v) filas.

(** A date token matches a sheet when they are equal once trimmed. *)
Definition coincide (sheets : Sheets) (fecha : string) : Prop :=
  exists name, name ∈ sheetnames sheets /\ strip name = strip fecha.

(** The warning [main] prints for a date with no sheet. *)
Definition aviso (fecha : string) : string :=
  "  AVISO: No se encontró la hoja '" +:+ fecha +:+ "'".

(** The dates [main] takes from its arguments. *)
Definition fechas_de (argv : list string) : list string :=
  filter (fun a => String.prefix "--" a = false) (parse_output (drop 1 argv)).2.

(** Every sheet of the workbook has its integer cells in range. *)
Definition libro_en_rango (sheets : Sheets) : Prop :=
  forall name sheet, (name, sheet) ∈ sheets -> hoja_en_rango sheet.

(** The columns of the daily summary: the keys of each of its rows. *)
Definition COLUMNAS_RESUMEN : list string :=
  [ "Fecha"; "Total_Turno_A"; "Total_Turno_B"; "Total_Metros"; "Plan_Total";
    "Cumplimiento_Diario_%"; "ROC_Total"; "ROC_Plan";
    "F09_Total"; "F09_Plan"; "F09_Cump_%";
    "F10_Total"; "F10_Plan"; "F10_Cump_%";
    "F11_Total"; "F11_Plan"; "F11_Cump_%";
    "F12_Total"; "F12_Plan"; "F12_Cump_%" ].

(** The three files the command writes for a base name. *)
Definition archivos_de (output_base : string) : list string :=
  [ (output_base +:+ "_metros") +:+ ".csv";
    (output_base +:+ "_roc") +:+ ".csv";
    (output_base +:+ "_resumen_diario") +:+ ".csv" ].

(** Every file of the list can be opened for writing. *)
Definition escribibles (w : World) (archivos : list string) : Prop :=
  Forall (fun archivo => unwritable w !! archivo = None) archivos.

(** The files after the lines [ls] are appended to [archivo]. *)
Definition escribir (archivo : string) (ls : list (list field))
    (fs : gmap string CsvFile) : gmap string CsvFile :=
  foldl (fun fs line => alter (append_line line) archivo fs) fs ls.

(** The file an export leaves: the header, then one line per row. *)
Definition archivo_csv (fieldnames : list string) (filas : list Fila) : CsvFile := {|
  encoding := "utf-8-sig";
  delimiter := ";";
  lines := (FStr <$> fieldnames) :: (_dict_to_list fieldnames <$> filas);
|}.

(** ** A small workbook, for the examples *)

Module Ejemplo.

(** Conversions that read the text ["12.5"] and no other. *)
Definition py : Builtins := {|
  float_of_str := fun s =>
    if String.eqb (strip s) "12.5" then Some (Float.of_decimal 125 1) else None;
  str_of_float := fun _ => "0.0";
|}.

Definition f (n : Z) : value := VFloat (Float.of_Z n).

(** Phase F09 with two equipments, a spacer row and a row named TOTAL
    inside the range; the day total (100) is not the sum of the phases. *)
Definition hoja : Worksheet :=
  list_to_map
    [ (("C", 17), VStr "PF03"); (("F", 17), f 10); (("G", 17), f 12);
      (("K", 17), VFloat (Float.of_decimal 873 3)); (("M", 17), VStr " OPERATIVA ");
      (("C", 18), VStr "  ");
      (("C", 19), VStr " PF07 "); (("F", 19), f 15); (("G", 19), f 12);
      (("D", 19), VStr "12.5"); (("E", 19), VStr "n/a");
      (("C", 20), VStr "TOTAL"); (("F", 20), f 25);
      (("C", 25), VStr "TOTAL"); (("F", 25), f 25); (("G", 25), f 24);
      (("F", 34), f 100) ].

(** A sheet with an integer cell that [float] does not accept. *)
Definition hoja_mala : Worksheet :=
  list_to_map [ (("C", 6), VStr "PF03"); (("D", 6), VInt (10 ^ 400)) ].

Definition libro : Sheets :=
  [ ("Datos ", ∅); ("15-01 ", hoja); ("Patios", ∅) ].

Definition libro_malo : Sheets :=
  [ ("15-01", hoja_mala) ].

Definition mundo : World := {|
  disk := {[ EXCEL_PATH := libro ]};
  handles := [];
  stdout := [];
  files := ∅;
  unwritable := ∅;
|}.

Definition mundo_malo : World := {|
  disk := {[ EXCEL_PATH := libro_malo ]};
  handles := [];
  stdout := [];
  files := ∅;
  unwritable := ∅;
|}.

End Ejemplo.

(** ** The cells a day is read from *)

(** The columns read in an equipment row and in a totals row. *)
Definition COLUMNAS_EQUIPO : list string :=
  [ "C"; "D"; "E"; "F"; "G"; "H"; "I"; "K"; "M"; "N" ].

Definition COLUMNAS_TOTAL : list string :=
  [ "D"; "E"; "F"; "G"; "H"; "I"; "K" ].

Definition celdas_fila (columnas : list string) (fila : Z) : list (string * Z) :=
  (fun col => (col, fila)) <$> columnas.

(** The coordinates [leer_dia] looks at. *)
Definition celdas_leidas : list (string * Z) :=
  ((SECCIONES_FASES ≫= fun '(_, fila_inicio, fila_total) =>
      ((range fila_inicio fila_total ≫= celdas_fila COLUMNAS_EQUIPO)
       ++ celdas_fila COLUMNAS_TOTAL fila_total)%list)
   ++ celdas_fila COLUMNAS_TOTAL FILA_TOTAL_METROS
   ++ [ ("F", 38); ("F", 39); ("F", 40); ("F", 41);
        ("C", 42); ("D", 42); ("E", 42); ("F", 42) ])%list.

(** Two sheets hold the same values at the coordinates [celdas]. *)
Definition coinciden_en (celdas : list (string * Z)) (s1 s2 : Worksheet) : Prop :=
  forall col fila, (col, fila) ∈ celdas -> cell s1 col fila = cell s2 col fila.

(** The sheets [cargar_excel] reads: those whose trimmed name is not excluded. *)
Definition hojas_de_fecha (sheets : Sheets) : list string :=
  filter (fun name => strip name ∉ HOJAS_EXCLUIDAS) (sheetnames sheets).

(** ** Printing a day: [imprimir_dia_plano], [imprimir_dia] and the script *)

(** [format(x, spec)] of a float, which the embedding leaves open. *)
Record Formato : Type := {
  format_float : string -> float -> string;
}.

(** [s * n] *)
Fixpoint str_repeat (s : string) (n : nat) : string :=
  match n with
  | O => ""
  | S n' => s +:+ str_repeat s n'
  end.

(** [f"{s:<n}"] (and [f"{s:n}"]) of a text *)
Definition ljust (n : nat) (s : string) : string :=
  s +:+ str_repeat " " (n - String.length s).

(** [f"{s:>n}"] of a text *)
Definition rjust (n : nat) (s : string) : string :=
  str_repeat " " (n - String.length s) +:+ s.

(** [sep.join(l)] *)
Fixpoint join (sep : string) (l : list string) : string :=
  match l with
  | [] => ""
  | [s] => s
  | s :: rest => s +:+ sep +:+ join sep rest
  end.

(** [enumerate(l)] *)
Definition enumerate {A} (l : list A) : list (nat * A) :=
  zip (seq 0 (length l)) l.

(** [bool(s)] of a text *)
Definition str_truthy (s : string) : bool := negb (String.eqb s "").

Section Printing.
Context (fmt : Formato).

Definition linea_equipo_plano (fecha fase_label : string) (eq : EquipoData.t)
    : string :=
  ljust 8 fecha +:+ " " +:+ ljust 6 fase_label +:+ " "
  +:+ ljust 8 (EquipoData.equipo eq) +:+ " "
  +:+ format_float fmt ">9.1f" (EquipoData.turno_a eq) +:+ " "
  +:+ format_float fmt ">9.1f" (EquipoData.turno_b eq) +:+ " "
  +:+ format_float fmt ">9.1f" (EquipoData.total eq) +:+ " "
  +:+ format_float fmt ">9.1f" (EquipoData.plan eq) +:+ " "
  +:+ format_float fmt ">9.1%" (EquipoData.cumplimiento_diario eq).

Definition imprimir_dia_plano (dia : DiaData.t) : IO unit :=
  _ ← print (nl +:+ str_repeat "=" 90);
  _ ← print ("  METROS DE PERFORACION (Tabla Plana) - " +:+ DiaData.fecha dia);
  _ ← print (str_repeat "=" 90);
  _ ← print (ljust 8 "Fecha" +:+ " " +:+ ljust 6 "Fase" +:+ " "
             +:+ ljust 8 "Equipo" +:+ " "
             +:+ rjust 9 "Turno A" +:+ " " +:+ rjust 9 "Turno B" +:+ " "
             +:+ rjust 9 "Total" +:+ " "
             +:+ rjust 9 "Plan" +:+ " " +:+ rjust 10 "Cump.Dia");
  _ ← print (str_repeat "-" 90);
  _ ← for_each_io [ "F12"; "F10"; "F09"; "F11" ]
        (fun fase_label _ =>
           match DiaData.fases dia !! fase_label with
           | None => mret tt
           | Some fase =>
             for_each_io (FaseData.equipos fase)
               (fun eq _ =>
                  print (linea_equipo_plano (DiaData.fecha dia) fase_label eq)) tt
           end) tt;
  _ ← print (str_repeat "-" 90);
  print (ljust 8 (DiaData.fecha dia) +:+ " " +:+ ljust 6 "TOTAL" +:+ " "
         +:+ ljust 8 "" +:+ " "
         +:+ format_float fmt ">9.1f" (DiaData.total_turno_a dia) +:+ " "
         +:+ format_float fmt ">9.1f" (DiaData.total_turno_b dia) +:+ " "
         +:+ format_float fmt ">9.1f" (DiaData.total_metros dia) +:+ " "
         +:+ format_float fmt ">9.1f" (DiaData.plan_total dia) +:+ " "
         +:+ format_float fmt ">9.1%" (DiaData.cumplimiento_diario dia)).

Definition linea_equipo (fase_col : string) (eq : EquipoData.t) : string :=
  ljust 6 fase_col +:+ " " +:+ ljust 8 (EquipoData.equipo eq) +:+ " "
  +:+ format_float fmt ">9.1f" (EquipoData.turno_a eq) +:+ " "
  +:+ format_float fmt ">9.1f" (EquipoData.turno_b eq) +:+ " "
  +:+ format_float fmt ">9.1f" (EquipoData.total eq) +:+ " "
  +:+ format_float fmt ">9.1f" (EquipoData.plan eq) +:+ " "
  +:+ format_float fmt ">8.1%" (EquipoData.cumplimiento_ta eq) +:+ " "
  +:+ format_float fmt ">8.1%" (EquipoData.cumplimiento_tb eq) +:+ " "
  +:+ format_float fmt ">8.1%" (EquipoData.cumplimiento_diario eq).

Definition linea_estados (eq : EquipoData.t) : string :=
  rjust 15 "" +:+ "Estado TA: " +:+ EquipoData.estado_ta eq
  +:+ "  |  Estado TB: " +:+ EquipoData.estado_tb eq.

Definition linea_total_fase (fase : FaseData.t) : string :=
  rjust 6 "" +:+ ljust 8 "TOTAL" +:+ " "
  +:+ format_float fmt ">9.1f" (FaseData.total_turno_a fase) +:+ " "
  +:+ format_float fmt ">9.1f" (FaseData.total_turno_b fase) +:+ " "
  +:+ format_float fmt ">9.1f" (FaseData.total fase) +:+ " "
  +:+ format_float fmt ">9.1f" (FaseData.plan fase) +:+ " "
  +:+ format_float fmt ">8.1%" (FaseData.cumplimiento_ta fase) +:+ " "
  +:+ format_float fmt ">8.1%" (FaseData.cumplimiento_tb fase) +:+ " "
  +:+ format_float fmt ">8.1%" (FaseData.cumplimiento_diario fase).

Definition imprimir_dia (dia : DiaData.t) : IO unit :=
  _ ← print (nl +:+ str_repeat "=" 70);
  _ ← print ("  METROS DE PERFORACION - " +:+ DiaData.fecha dia);
  _ ← print (str_repeat "=" 70);
  _ ← print (ljust 6 "Fase" +:+ " " +:+ ljust 8 "Equipo" +:+ " "
             +:+ rjust 9 "Turno A" +:+ " " +:+ rjust 9 "Turno B" +:+ " "
             +:+ rjust 9 "Total" +:+ " " +:+ rjust 9 "Plan" +:+ " "
             +:+ rjust 9 "Cump.TA" +:+ " " +:+ rjust 9 "Cump.TB" +:+ " "
             +:+ rjust 9 "Cump.Dia");
  _ ← print (str_repeat "-" 70);
  _ ← for_each_io [ "F12"; "F10"; "F09"; "F11" ]
        (fun fase_label _ =>
           match DiaData.fases dia !! fase_label with
           | None => mret tt
           | Some fase =>
             _ ← for_each_io (enumerate (FaseData.equipos fase))
                   (fun '(i, eq) _ =>
                      let fase_col := if Nat.eqb i 0 then fase_label else "" in
                      _ ← print (linea_equipo fase_col eq);
                      if str_truthy (EquipoData.estado_ta eq)
                         || str_truthy (EquipoData.estado_tb eq)
                      then print (linea_estados eq)
                      else mret tt) tt;
             _ ← match FaseData.equipos fase with
                 | [] => print (ljust 6 fase_label +:+ " " +:+ ljust 8 "(sin equipos)")
                 | _ :: _ => mret tt
                 end;
             _ ← print (linea_total_fase fase);
             print ""
           end) tt;
  _ ← print (str_repeat "-" 70);
  _ ← print (ljust 15 "TOTAL METROS"
             +:+ format_float fmt ">9.1f" (DiaData.total_turno_a dia) +:+ " "
             +:+ format_float fmt ">9.1f" (DiaData.total_turno_b dia) +:+ " "
             +:+ format_float fmt ">9.1f" (DiaData.total_metros dia) +:+ " "
             +:+ format_float fmt ">9.1f" (DiaData.plan_total dia) +:+ " "
             +:+ format_float fmt ">8.1%" (DiaData.cumplimiento_ta dia) +:+ " "
             +:+ format_float fmt ">8.1%" (DiaData.cumplimiento_tb dia) +:+ " "
             +:+ format_float fmt ">8.1%" (DiaData.cumplimiento_diario dia));
  let roc := DiaData.metros_roc dia in
  _ ← print (nl +:+ "  METROS ROC:");
  _ ← print ("    Fase 9:  " +:+ format_float fmt ">9.1f" (MetrosRocData.fase_9 roc));
  _ ← print ("    Fase 10: " +:+ format_float fmt ">9.1f" (MetrosRocData.fase_10 roc));
  _ ← print ("    Fase 11: " +:+ format_float fmt ">9.1f" (MetrosRocData.fase_11 roc));
  _ ← print ("    Fase 12: " +:+ format_float fmt ">9.1f" (MetrosRocData.fase_12 roc));
  _ ← print ("    Plan Diario ROC: "
             +:+ format_float fmt ">9.1f" (MetrosRocData.plan_diario roc));
  print ("    ROC Total (TA:" +:+ format_float fmt ".1f" (MetrosRocData.turno_a roc)
         +:+ " TB:" +:+ format_float fmt ".1f" (MetrosRocData.turno_b roc)
         +:+ "): " +:+ format_float fmt ".1f" (MetrosRocData.total roc)).

Context (py : Builtins).

(** The sheets the script lists when a date is not found. *)
Definition listar_hojas : IO unit :=
  _ ← print "Hojas disponibles:";
  wb ← load_workbook EXCEL_PATH;
  _ ← for_each_io (sheetnames (wb_sheets wb))
        (fun name _ =>
           if decide (strip name ∉ HOJAS_EXCLUIDAS)
           then print ("  - " +:+ strip name)
           else mret tt) tt;
  close wb.

(** The script of [leer_excel.py], run directly with the arguments [argv]. *)
Definition leer_excel_main (argv : list string) : IO unit :=
  let args := drop 1 argv in
  let modo_plano := bool_decide ("--plano" ∈ args) in
  let fechas := filter (fun a => String.prefix "--" a = false) args in
  match fechas with
  | _ :: _ =>
    for_each_io fechas
      (fun fecha _ =>
         dia ← obtener_dia py fecha EXCEL_PATH;
         match dia with
         | Some dia =>
           if modo_plano then imprimir_dia_plano dia else imprimir_dia dia
         | None =>
           _ ← print ("No se encontró la hoja '" +:+ fecha +:+ "' en el Excel.");
           listar_hojas
         end) tt
  | [] =>
    _ ← print "Cargando todas las hojas...";
    data ← cargar_excel py EXCEL_PATH;
    _ ← print ("Total hojas procesadas: " +:+ pretty (total_hojas data));
    _ ← print ("Fechas disponibles: " +:+ join ", " (take 10 (hojas_fecha data))
               +:+ "... (y más)");
    let ultimas := drop (length (hojas_fecha data) - 3) (hojas_fecha data) in
    for_each_io ultimas
      (fun fecha _ =>
         dia ← lift (dias_getitem (dias data) fecha);
         imprimir_dia dia) tt
  end.

End Printing.

(** ** Vocabulary of the statements on printing *)

(** [m] only prints: it returns, having appended [lineas] to the output. *)
Definition imprime (m : IO unit) (lineas : list string) : Prop :=
  forall w, m w = (Ok tt, con_stdout (stdout w ++ lineas) w).

(** The equipments of a day with the label of their phase, in the order of
    presentation. *)
Definition equipos_presentados (dia : DiaData.t)
    : list (string * EquipoData.t) :=
  fase_label ← ORDEN_FASES;
  match DiaData.fases dia !! fase_label with
  | Some fase => pair fase_label <$> FaseData.equipos fase
  | None => []
  end.

(** An equipment with a state noted in some shift. *)
Definition con_estado (eq : EquipoData.t) : bool :=
  str_truthy (EquipoData.estado_ta eq) || str_truthy (EquipoData.estado_tb eq).

(** The lines of one equipment in the detailed table. *)
Definition lineas_equipo (fmt : Formato) (fase_col : string)
    (eq : EquipoData.t) : list string :=
  linea_equipo fmt fase_col eq
  :: (if con_estado eq then [linea_estados eq] else []).

(** The lines of one phase in the detailed table. *)
Definition seccion_fase (fmt : Formato) (dia : DiaData.t)
    (fase_label : string) : list string :=
  match DiaData.fases dia !! fase_label with
  | None => []
  | Some fase =>
    match FaseData.equipos fase with
    | [] => [ljust 6 fase_label +:+ " (sin equipos)"]
    | eq :: rest =>
      lineas_equipo fmt fase_label eq ++ (rest ≫= lineas_equipo fmt "")
    end ++ [linea_total_fase fmt fase; ""]
  end.

(** The dates of the script: its arguments that are no option. *)
Definition fechas_script (argv : list string) : list string :=
  filter (fun a => String.prefix "--" a = false) (drop 1 argv).

(** A format for the examples: the number is not shown. *)
Definition formato_ejemplo : Formato := {|
  format_float := fun spec _ => "<" +:+ spec +:+ ">";
|}.

(** The world after [k] workbooks were opened and closed and [lineas]
    were printed. *)
Definition tras_leer (k : nat) (lineas : list string) (w : World) : World :=
  {| disk := disk w; handles := handles w ++ replicate k false;
     stdout := stdout w ++ lineas; files := files w;
     unwritable := unwritable w |}.

(** With the workbook [sheets] as the document, [m] returns [a], having
    opened and closed [k] workbooks and printed [lineas]. *)
Definition corre {A} (sheets : Sheets) (m : IO A) (k : nat)
    (lineas : list string) (a : A) : Prop :=
  forall w, disk w !! EXCEL_PATH = Some sheets ->
            m w = (Ok a, tras_leer k lineas w).

(** The lines the script prints for a date with no sheet. *)
Definition lineas_sin_hoja (sheets : Sheets) (fecha : string) : list string :=
  ("No se encontró la hoja '" +:+ fecha +:+ "' en el Excel.")
  :: "Hojas disponibles:"
  :: ((fun name => "  - " +:+ strip name) <$> hojas_de_fecha sheets).

(** What the script prints for one date: the table of the first sheet whose
    trimmed name is the trimmed date, or the note and the list of sheets. *)
Definition salida_fecha (fmt : Formato) (py : Builtins) (sheets : Sheets)
    (plano : bool) (fecha : string) (salida : list string) : Prop :=
  match buscar_hoja (sheetnames sheets) fecha with
  | None => salida = lineas_sin_hoja sheets fecha
  | Some n =>
    exists sheet,
      getitem sheets n = Ok sheet
      /\ imprime (if plano
                  then imprimir_dia_plano fmt (dia_de_hoja py sheet n)
                  else imprimir_dia fmt (dia_de_hoja py sheet n)) salida
  end.

(** ** Texts, in the words of the specification *)




(** Compliance ratios and their exported percentages, as binary64 numbers
    [m * 2^e] written out: 0.873, 0.5, 1.0, 0.125, 0.0025, 0.0035, 0.9999,
    1.2345, -0.873, 1e-05, -1e-05, 0.0005, 0.00049999, 1e+300, 1e+308,
    2.675, 0.3, 1/3 and 5e-324, with 87.3, 50.0, 100.0, 12.5, 0.2, 0.4,
    100.0, 123.4, -87.3, 0.0, -0.0, 0.1, 0.0, 1e+302, inf, 267.5, 30.0,
    33.3 and 0.0. *)
Definition casos_porcentaje : list (float * float) :=
  [ (S754_finite false 7863284949388886 (-53), S754_finite false 6143191366710067 (-46));
    (S754_finite false 4503599627370496 (-53), S754_finite false 7036874417766400 (-47));
    (S754_finite false 4503599627370496 (-52), S754_finite false 7036874417766400 (-46));
    (S754_finite false 4503599627370496 (-55), S754_finite false 7036874417766400 (-49));
    (S754_finite false 5764607523034235 (-61), S754_finite false 7205759403792794 (-55));
    (S754_finite false 8070450532247929 (-61), S754_finite false 7205759403792794 (-54));
    (S754_finite false 9006298534815518 (-53), S754_finite false 7036874417766400 (-46));
    (S754_finite false 5559693739988877 (-52), S754_finite false 8683503031523738 (-46));
    (S754_finite true 7863284949388886 (-53), S754_finite true 6143191366710067 (-46));
    (S754_finite false 5902958103587057 (-69), S754_zero false);
    (S754_finite true 5902958103587057 (-69), S754_zero true);
    (S754_finite false 4611686018427388 (-63), S754_finite false 7205759403792794 (-56));
    (S754_finite false 4611593784707019 (-63), S754_zero false);
    (S754_finite false 6724873095247260 944, S754_finite false 5253807105661922 951);
    (S754_finite false 5010420900022432 971, S754_infinity false);
    (S754_finite false 6023564501608038 (-51), S754_finite false 4705909766881280 (-44));
    (S754_finite false 5404319552844595 (-54), S754_finite false 8444249301319680 (-48));
    (S754_finite false 6004799503160661 (-54), S754_finite false 4686558362232422 (-47));
    (S754_finite false 1 (-1074), S754_zero false) ].

(** * Properties *)

(** ** The exception monad *)

Lemma bind_Ok {A B} (a : A) (k : A -> outcome B) : Ok a ≫= k = k a.
Proof. reflexivity. Qed.

Lemma bind_Raise {A B} e (k : A -> outcome B) : Raise e ≫= k = Raise e.
Proof. reflexivity. Qed.

Lemma bind_Ok_inv {A B} (m : outcome A) (k : A -> outcome B) b :
  m ≫= k = Ok b -> exists a, m = Ok a /\ k a = Ok b.
Proof. destruct m as [a|e]; [eauto | discriminate]. Qed.

Lemma lee_ret {A} sheet (a : A) : lee sheet (Ok a) a.
Proof. by left. Qed.

Lemma lee_bind {A B} sheet (m : outcome A) (k : A -> outcome B) a b :
  lee sheet m a -> lee sheet (k a) b -> lee sheet (m ≫= k) b.
Proof.
  intros [-> | [-> Hno]] Hk; [exact Hk |].
  right. split; [reflexivity | exact Hno].
Qed.

Lemma lee_en_rango {A} sheet (r : outcome A) a :
  lee sheet r a -> hoja_en_rango sheet -> r = Ok a.
Proof. intros [H | [_ Hno]] Hs; [exact H | contradiction]. Qed.

Lemma lee_Ok {A} sheet (r : outcome A) a x : lee sheet r a -> r = Ok x -> x = a.
Proof. intros [H | [H _]] Hx; congruence. Qed.


(** ** Numeric coercion *)

Section CoercionFacts.
Context (py : Builtins).

Lemma safe_float_en_rango v : en_rango v -> _safe_float py v = Ok (numero py v).
Proof.
  destruct v as [|b|z|x|s|iso]; simpl; intros Hv; try reflexivity.
  - unfold float_of_int. by rewrite Hv.
  - by destruct (float_of_str py s).
Qed.

Lemma safe_float_fuera_de_rango v :
  ~ en_rango v -> _safe_float py v = Raise OverflowError.
Proof.
  destruct v as [|b|z|x|s|iso]; simpl; intros Hv; try (by destruct Hv).
  unfold float_of_int. destruct (Float.is_finite (Float.of_Z z)); [by destruct Hv | done].
Qed.

Lemma en_rango_dec v : {en_rango v} + {~ en_rango v}.
Proof. destruct v; simpl; try (by left). apply bool_dec. Qed.

Lemma safe_float_cases v :
  _safe_float py v = Ok (numero py v)
  \/ (_safe_float py v = Raise OverflowError /\ ~ en_rango v).
Proof.
  destruct (en_rango_dec v) as [H | H].
  - left. by apply safe_float_en_rango.
  - right. split; [by apply safe_float_fuera_de_rango | exact H].
Qed.

Lemma lee_safe_float sheet col fila :
  lee sheet (_safe_float py (cell sheet col fila)) (numero py (cell sheet col fila)).
Proof.
  destruct (safe_float_cases (cell sheet col fila)) as [H | [H Hno]].
  - by left.
  - right. split; [exact H |]. intros Hs. apply Hno, Hs.
Qed.

(** The coercion returns 0.0 on an empty cell and on a value that is no
    number, whatever the interpreter's conversions are. *)
Lemma safe_float_None : _safe_float py VNone = Ok Float.zero.
Proof. reflexivity. Qed.

Lemma safe_float_no_numero s :
  float_of_str py s = None -> _safe_float py (VStr s) = Ok Float.zero.
Proof. intros H. simpl. by rewrite H. Qed.

Lemma safe_float_fecha iso : _safe_float py (VDateTime iso) = Ok Float.zero.
Proof. reflexivity. Qed.

End CoercionFacts.

(** C1, at the input where the code departs from the claim: the integer
    10^400 is a cell value on which [_safe_float] raises [OverflowError],
    which its [except (ValueError, TypeError)] does not catch; the claim
    says the coercion never raises. *)
Theorem safe_float_raises_on_huge_int (py : Builtins) :
  _safe_float py (VInt (10 ^ 400)) = Raise OverflowError.
Proof. vm_compute. reflexivity. Qed.

(** ** Reading a sheet *)

Ltac lee_step :=
  first
    [ eapply lee_bind; [apply lee_safe_float |]
    | apply lee_ret ].

Section ReaderFacts.
Context (py : Builtins).

Lemma lee_leer_equipo sheet fila :
  lee sheet (_leer_equipo py sheet fila)
      (if decide (es_equipo py sheet fila)
       then Some (equipo_de_fila py sheet fila) else None).
Proof.
  unfold _leer_equipo, es_equipo, nombre_equipo.
  set (nombre := _safe_str py (cell sheet "C" fila)).
  destruct (String.eqb_spec nombre "") as [He | He]; simpl.
  { rewrite decide_False; [apply lee_ret | tauto]. }
  destruct (String.eqb_spec nombre "TOTAL") as [Ht | Ht]; simpl.
  { rewrite decide_False; [apply lee_ret | tauto]. }
  rewrite decide_True by tauto.
  repeat lee_step.
Qed.

Lemma lee_equipos_loop sheet filas acc :
  lee sheet
    (for_each filas
       (fun fila equipos =>
          equipo ← _leer_equipo py sheet fila;
          match equipo with
          | Some equipo => Ok (equipos ++ [equipo])%list
          | None => Ok equipos
          end) acc)
    (acc ++ (equipo_de_fila py sheet <$> filter (es_equipo py sheet) filas))%list.
Proof.
  revert acc. induction filas as [| fila filas IH]; intros acc; simpl.
  - rewrite app_nil_r. apply lee_ret.
  - eapply lee_bind.
    + eapply lee_bind; [apply lee_leer_equipo |].
      instantiate (1 := if decide (es_equipo py sheet fila)
                        then (acc ++ [equipo_de_fila py sheet fila])%list else acc).
      destruct (decide (es_equipo py sheet fila)); apply lee_ret.
    + rewrite filter_cons.
      destruct (decide (es_equipo py sheet fila)).
      * rewrite fmap_cons.
        specialize (IH (acc ++ [equipo_de_fila py sheet fila])%list).
        by rewrite <- app_assoc in IH.
      * apply IH.
Qed.

Lemma lee_leer_fase sheet fase_label fila_inicio fila_total :
  lee sheet (_leer_fase py sheet fase_label fila_inicio fila_total)
      (fase_de_hoja py sheet fase_label fila_inicio fila_total).
Proof.
  unfold _leer_fase.
  eapply lee_bind; [apply (lee_equipos_loop sheet _ []) |].
  repeat lee_step.
Qed.

Lemma lee_leer_metros_roc sheet :
  lee sheet (_leer_metros_roc py sheet) (roc_de_hoja py sheet).
Proof. unfold _leer_metros_roc. simpl. repeat lee_step. Qed.

Lemma lee_fases sheet :
  lee sheet
    (for_each SECCIONES_FASES
       (fun '(fase_label, fila_inicio, fila_total) (fases : gmap string FaseData.t) =>
          fase ← _leer_fase py sheet fase_label fila_inicio fila_total;
          Ok (<[fase_label := fase]> fases)) ∅)
    (fases_de_hoja py sheet).
Proof.
  unfold SECCIONES_FASES, fases_de_hoja. simpl.
  repeat (eapply lee_bind; [eapply lee_bind; [apply lee_leer_fase | apply lee_ret] |]).
  apply lee_ret.
Qed.

Lemma lee_leer_dia wb nombre_hoja sheet :
  getitem wb nombre_hoja = Ok sheet ->
  lee sheet (leer_dia py wb nombre_hoja) (dia_de_hoja py sheet nombre_hoja).
Proof.
  intros Hs. unfold leer_dia. rewrite Hs, bind_Ok.
  eapply lee_bind; [apply lee_fases |].
  unfold FILA_TOTAL_METROS.
  do 7 lee_step.
  eapply lee_bind; [apply lee_leer_metros_roc |].
  apply lee_ret.
Qed.

(** A sheet whose integer cells are in range is read to the end. *)
Lemma leer_dia_en_rango wb nombre_hoja sheet :
  getitem wb nombre_hoja = Ok sheet -> hoja_en_rango sheet ->
  leer_dia py wb nombre_hoja = Ok (dia_de_hoja py sheet nombre_hoja).
Proof. intros Hs Hr. eapply lee_en_rango; [by apply lee_leer_dia | exact Hr]. Qed.

(** The day record the reader returns is the expected one, whole. *)
Lemma leer_dia_Ok wb nombre_hoja dia :
  leer_dia py wb nombre_hoja = Ok dia ->
  exists sheet, getitem wb nombre_hoja = Ok sheet
                /\ dia = dia_de_hoja py sheet nombre_hoja.
Proof.
  intros H. destruct (getitem wb nombre_hoja) as [sheet | e] eqn:Hs.
  - exists sheet. split; [reflexivity |].
    eapply lee_Ok; [by apply lee_leer_dia | exact H].
  - unfold leer_dia in H. rewrite Hs in H. discriminate.
Qed.

End ReaderFacts.

(** ** C2: the equipment rows of a phase *)



(** Trimming, as the code does it. *)

Lemma rstrip_cons_no_space c s :
  isspace c = false -> rstrip (String c s) = String c (rstrip s).
Proof. intros Hc. simpl. destruct (rstrip s); [by rewrite Hc | reflexivity]. Qed.

Lemma rstrip_idemp s : rstrip (rstrip s) = rstrip s.
Proof.
  induction s as [| c s IH]; [reflexivity |]. simpl.
  destruct (rstrip s) as [| c' r] eqn:E.
  - destruct (isspace c) eqn:Hc; [reflexivity |]. simpl. by rewrite Hc.
  - change (rstrip (String c (String c' r)) = String c (String c' r)).
    simpl. simpl in IH. destruct (rstrip r) eqn:Er.
    + destruct (isspace c'); [discriminate | by rewrite IH].
    + by rewrite IH.
Qed.

Lemma lstrip_head s :
  match lstrip s with
  | String c _ => isspace c = false
  | EmptyString => True
  end.
Proof.
  induction s as [| c s IH]; [exact I |]. simpl.
  destruct (isspace c) eqn:Hc; [exact IH | exact Hc].
Qed.

Lemma lstrip_no_space c s : isspace c = false -> lstrip (String c s) = String c s.
Proof. intros Hc. simpl. by rewrite Hc. Qed.

Lemma strip_head s :
  match strip s with
  | String c _ => isspace c = false
  | EmptyString => True
  end.
Proof.
  unfold strip. pose proof (lstrip_head s) as H.
  destruct (lstrip s) as [| c t]; [exact I |].
  by rewrite (rstrip_cons_no_space c t H).
Qed.

Lemma lstrip_strip s : lstrip (strip s) = strip s.
Proof.
  pose proof (strip_head s) as H. destruct (strip s) as [| c t]; [reflexivity |].
  by apply lstrip_no_space.
Qed.

Lemma rstrip_strip s : rstrip (strip s) = strip s.
Proof. unfold strip. apply rstrip_idemp. Qed.

Lemma strip_idemp s : strip (strip s) = strip s.
Proof. unfold strip at 1. by rewrite lstrip_strip, rstrip_strip. Qed.

(** The last character of a text, if it has one. *)
Lemma rstrip_last s c :
  last (list_ascii_of_string (rstrip s)) = Some c -> isspace c = false.
Proof.
  induction s as [| a s IH]; [discriminate |]. simpl.
  destruct (rstrip s) as [| c' r] eqn:E.
  - destruct (isspace a) eqn:Ha; [discriminate |]. simpl. by intros [= <-].
  - intros H. apply IH. exact H.
Qed.

(** ** Trimming, against its description *)















Example leer_fase_ejemplo :
  FaseData.equipos <$> _leer_fase Ejemplo.py Ejemplo.hoja "F09" 17 25
  = Ok [ equipo_de_fila Ejemplo.py Ejemplo.hoja 17;
         equipo_de_fila Ejemplo.py Ejemplo.hoja 19 ].
Proof. vm_compute. reflexivity. Qed.

(** ** C3: the day total *)

Lemma hoja_en_rango_list (l : list (string * Z * value)) :
  Forall (fun kv => en_rango kv.2) l -> hoja_en_rango (list_to_map l).
Proof.
  intros Hl col fila. unfold cell.
  destruct (_ !! (col, fila)) as [v |] eqn:E; simpl; [| exact I].
  apply elem_of_list_to_map_2 in E.
  rewrite Forall_forall in Hl. apply (Hl _ E).
Qed.

Lemma Ejemplo_hoja_en_rango : hoja_en_rango Ejemplo.hoja.
Proof. apply hoja_en_rango_list. repeat (constructor; [exact I |]). constructor. Qed.

Lemma hoja_vacia_en_rango : hoja_en_rango ∅.
Proof. intros col fila. exact I. Qed.

Ltac bind_inv H :=
  repeat
    (let x := fresh "x" in
     let Hx := fresh "Hx" in
     apply bind_Ok_inv in H as (x & Hx & H)).

Lemma leer_dia_lee_fila_34 py wb nombre_hoja dia sheet :
  getitem wb nombre_hoja = Ok sheet ->
  leer_dia py wb nombre_hoja = Ok dia ->
  _safe_float py (cell sheet "F" FILA_TOTAL_METROS) = Ok (DiaData.total_metros dia).
Proof.
  intros Hs H. unfold leer_dia in H. rewrite Hs, bind_Ok in H.
  apply bind_Ok_inv in H as (fases & _ & H).
  apply bind_Ok_inv in H as (ta & _ & H).
  apply bind_Ok_inv in H as (tb & _ & H).
  apply bind_Ok_inv in H as (tm & Htm & H).
  bind_inv H. injection H as <-. exact Htm.
Qed.

(** C3. The total meters of a day record the reader returns is what the
    numeric coercion gives on cell F34 of the sheet, as it is; it depends
    on no other cell, and there is a day whose total is not the sum of
    its four phase totals. *)
Theorem leer_dia_total_metros (py : Builtins) (wb : Sheets)
    (nombre_hoja : string) (dia : DiaData.t) :
  leer_dia py wb nombre_hoja = Ok dia ->
  exists sheet,
    getitem wb nombre_hoja = Ok sheet
    /\ _safe_float py (cell sheet "F" 34) = Ok (DiaData.total_metros dia)
    /\ (forall wb' nombre' sheet' dia',
          getitem wb' nombre' = Ok sheet' ->
          leer_dia py wb' nombre' = Ok dia' ->
          cell sheet' "F" 34 = cell sheet "F" 34 ->
          DiaData.total_metros dia' = DiaData.total_metros dia)
    /\ (exists dia0,
          leer_dia py Ejemplo.libro "15-01 " = Ok dia0
          /\ DiaData.total_metros dia0 = Float.of_Z 100
          /\ suma_fases dia0 = Float.of_Z 25).
Proof.
  intros H. destruct (leer_dia_Ok py _ _ _ H) as (sheet & Hs & Hd).
  exists sheet. split; [exact Hs |].
  split; [by apply (leer_dia_lee_fila_34 py wb nombre_hoja) |].
  split.
  - intros wb' nombre' sheet' dia' Hs' H' Hc.
    destruct (leer_dia_Ok py _ _ _ H') as (sheet2 & Hs2 & Hd').
    assert (sheet2 = sheet') as -> by congruence.
    rewrite Hd, Hd'. simpl. by rewrite Hc.
  - eexists. split; [apply (leer_dia_en_rango py _ _ Ejemplo.hoja) |].
    + reflexivity.
    + apply Ejemplo_hoja_en_rango.
    + split; vm_compute; reflexivity.
Qed.

Lemma leer_dia_total_metros_witness :
  exists dia, leer_dia Ejemplo.py Ejemplo.libro "15-01 " = Ok dia
              /\ _safe_float Ejemplo.py (cell Ejemplo.hoja "F" 34)
                 = Ok (DiaData.total_metros dia).
Proof.
  eexists. split; [vm_compute; reflexivity |].
  destruct (leer_dia_total_metros Ejemplo.py Ejemplo.libro "15-01 " _
              ltac:(vm_compute; reflexivity)) as (sheet & Hs & Hf & _).
  injection Hs as <-. exact Hf.
Defined.

(** ** C10: the phases of a day record *)

Lemma dom_fases_de_hoja py sheet :
  dom (fases_de_hoja py sheet) = ({[ "F12"; "F10"; "F09"; "F11" ]} : gset string).
Proof.
  unfold fases_de_hoja. rewrite !dom_insert_L, dom_empty_L. set_solver.
Qed.

(** C10. A day record the reader returns has exactly the four phases F12,
    F10, F09 and F11; so every label the exporters look up is there, and
    the daily summary adds to a row the total, the plan and the compliance
    of the phase read, never the 0.0 of its branch for a missing phase. *)
Theorem leer_dia_fases (py : Builtins) (wb : Sheets) (nombre_hoja : string)
    (dia : DiaData.t) :
  leer_dia py wb nombre_hoja = Ok dia ->
  dom (DiaData.fases dia) = ({[ "F12"; "F10"; "F09"; "F11" ]} : gset string)
  /\ (forall fase_label,
        fase_label ∈ ORDEN_FASES \/ fase_label ∈ ORDEN_FASES_RESUMEN ->
        is_Some (DiaData.fases dia !! fase_label))
  /\ (forall fila fase_label,
        fase_label ∈ ORDEN_FASES_RESUMEN ->
        exists fase,
          DiaData.fases dia !! fase_label = Some fase
          /\ agregar_fase dia fila fase_label
             = fila_set
                 (fila_set
                    (fila_set fila (fase_label +:+ "_Total")
                              (FNum (FaseData.total fase)))
                    (fase_label +:+ "_Plan") (FNum (FaseData.plan fase)))
                 (fase_label +:+ "_Cump_%")
                 (FNum (porcentaje (FaseData.cumplimiento_diario fase)))).
Proof.
  intros H. destruct (leer_dia_Ok py _ _ _ H) as (sheet & _ & ->). simpl.
  assert (Hdom := dom_fases_de_hoja py sheet).
  assert (Hsome : forall l, l ∈ ORDEN_FASES \/ l ∈ ORDEN_FASES_RESUMEN ->
                            is_Some (fases_de_hoja py sheet !! l)).
  { intros l Hl. apply elem_of_dom. rewrite Hdom.
    unfold ORDEN_FASES, ORDEN_FASES_RESUMEN in Hl.
    rewrite !elem_of_cons, !elem_of_nil in Hl.
    rewrite !elem_of_union, !elem_of_singleton. tauto. }
  split; [exact Hdom |]. split; [exact Hsome |].
  intros fila l Hl. destruct (Hsome l (or_intror Hl)) as [fase Hf].
  exists fase. split; [exact Hf |].
  unfold agregar_fase. simpl. by rewrite Hf.
Qed.

Lemma leer_dia_fases_witness :
  exists dia, leer_dia Ejemplo.py Ejemplo.libro "15-01 " = Ok dia
              /\ dom (DiaData.fases dia)
                 = ({[ "F12"; "F10"; "F09"; "F11" ]} : gset string).
Proof.
  eexists. split; [vm_compute; reflexivity |].
  apply (leer_dia_fases Ejemplo.py Ejemplo.libro "15-01 " _
           ltac:(vm_compute; reflexivity)).
Defined.

(** ** C5: compliance as a percentage *)

Lemma div_half_even_nearest a b :
  0 < b -> 2 * Z.abs (b * Float.div_half_even a b - a) <= b.
Proof.
  intros Hb. unfold Float.div_half_even.
  pose proof (Z.div_mod a b ltac:(lia)) as Hd.
  pose proof (Z.mod_pos_bound a b Hb) as Hm.
  destruct (Z.compare_spec (2 * (a mod b)) b) as [He | Hl | Hg];
    [destruct (Z.even (a / b)) | |]; nia.
Qed.

(** The tenths [round1] picks are the nearest to the number rounded. *)
Lemma tenths_nearest m e :
  if 0 <=? e then Float.tenths m e = 10 * (Zpos m * 2 ^ e)
  else 2 * Z.abs (2 ^ (- e) * Float.tenths m e - 10 * Zpos m) <= 2 ^ (- e).
Proof.
  unfold Float.tenths. destruct (Z.leb_spec 0 e) as [He | He]; [lia |].
  apply div_half_even_nearest. apply Z.pow_pos_nonneg; lia.
Qed.

Lemma truthy_eqb x : Float.truthy x = negb (Float.eqb x Float.zero).
Proof. reflexivity. Qed.

(** C5. A compliance ratio is exported as the ratio times 100 rounded to one
    decimal when it is not zero, and as 0.0 when it is zero (or the cell
    was empty): 0.873 gives 87.3. The rounding takes the number of tenths
    nearest to the product. Each compliance field of each row of the
    equipment view holds that number, never a blank. The numbers are
    binary64: the ratio 0.873 is 7863284949388886 * 2^-53, its percentage
    87.3 is 6143191366710067 * 2^-46, and the table [casos_porcentaje]
    (ties, negative ratios, ratios that round to zero, overflow) holds
    ratio by ratio. *)
Theorem porcentaje_spec (x : float) :
  porcentaje x
  = (if Float.eqb x Float.zero then Float.zero
     else Float.round1 (Float.mul x Float.hundred))
  /\ (forall s m e,
        Float.eqb x Float.zero = false ->
        Float.mul x Float.hundred = S754_finite s m e ->
        porcentaje x = Float.of_ratio s (Float.tenths m e) 10
        /\ if 0 <=? e then Float.tenths m e = 10 * (Zpos m * 2 ^ e)
           else 2 * Z.abs (2 ^ (- e) * Float.tenths m e - 10 * Zpos m) <= 2 ^ (- e))
  /\ porcentaje (Float.of_decimal 873 3) = Float.of_decimal 873 1
  /\ porcentaje Float.zero = Float.zero
  /\ (forall py, porcentaje <$> _safe_float py VNone = Ok Float.zero)
  /\ (forall fecha fase_label eq,
        let fila := fila_equipo fecha fase_label eq in
        fila_get fila "Cumplimiento_TA" (FStr "")
        = FNum (porcentaje (EquipoData.cumplimiento_ta eq))
        /\ fila_get fila "Cumplimiento_TB" (FStr "")
           = FNum (porcentaje (EquipoData.cumplimiento_tb eq))
        /\ fila_get fila "Cumplimiento_Diario" (FStr "")
           = FNum (porcentaje (EquipoData.cumplimiento_diario eq)))
  /\ (forall fecha fase_label fase,
        let fila := fila_total_fase fecha fase_label fase in
        fila_get fila "Cumplimiento_TA" (FStr "")
        = FNum (porcentaje (FaseData.cumplimiento_ta fase))
        /\ fila_get fila "Cumplimiento_TB" (FStr "")
           = FNum (porcentaje (FaseData.cumplimiento_tb fase))
        /\ fila_get fila "Cumplimiento_Diario" (FStr "")
           = FNum (porcentaje (FaseData.cumplimiento_diario fase)))
  /\ (forall dia,
        let fila := fila_total_dia dia in
        fila_get fila "Cumplimiento_TA" (FStr "")
        = FNum (porcentaje (DiaData.cumplimiento_ta dia))
        /\ fila_get fila "Cumplimiento_TB" (FStr "")
           = FNum (porcentaje (DiaData.cumplimiento_tb dia))
        /\ fila_get fila "Cumplimiento_Diario" (FStr "")
           = FNum (porcentaje (DiaData.cumplimiento_diario dia)))
  /\ Float.of_decimal 873 3 = S754_finite false 7863284949388886 (-53)
  /\ porcentaje (S754_finite false 7863284949388886 (-53))
     = S754_finite false 6143191366710067 (-46)
  /\ Forall (fun caso => porcentaje caso.1 = caso.2) casos_porcentaje.
Proof.
  split.
  { unfold porcentaje. rewrite truthy_eqb. by destruct (Float.eqb x Float.zero). }
  split.
  { intros s m e Hx Hm. split; [| apply tenths_nearest].
    unfold porcentaje. rewrite truthy_eqb, Hx. simpl. by rewrite Hm. }
  split; [vm_compute; reflexivity |].
  split; [reflexivity |].
  split; [reflexivity |].
  split; [repeat split; reflexivity |].
  split; [repeat split; reflexivity |].
  split; [repeat split; reflexivity |].
  split; [vm_compute; reflexivity |].
  split; [vm_compute; reflexivity |].
  unfold casos_porcentaje. repeat (constructor; [vm_compute; reflexivity |]).
  constructor.
Qed.

Example porcentaje_menos_cero : porcentaje (S754_zero true) = Float.zero.
Proof. reflexivity. Qed.

Example porcentaje_un_cuarto :
  porcentaje (Float.of_decimal 25 4) = Float.of_decimal 2 1.
Proof. vm_compute. reflexivity. Qed.

(** ** The order of the keys *)

Lemma ascii_compare_refl c : Ascii.compare c c = Eq.
Proof. unfold Ascii.compare. apply N.compare_refl. Qed.

Lemma ascii_compare_lt_trans a b c :
  Ascii.compare a b = Lt -> Ascii.compare b c = Lt -> Ascii.compare a c = Lt.
Proof.
  unfold Ascii.compare. rewrite !N.compare_lt_iff. apply N.lt_trans.
Qed.

Lemma string_compare_lt_trans s1 s2 s3 :
  String.compare s1 s2 = Lt -> String.compare s2 s3 = Lt ->
  String.compare s1 s3 = Lt.
Proof.
  revert s2 s3. induction s1 as [| a s1 IH]; intros [| b s2] [| c s3];
    simpl; try done.
  destruct (Ascii.compare a b) eqn:Eab; try done;
    destruct (Ascii.compare b c) eqn:Ebc; try done; intros H12 H23.
  - apply Ascii.compare_eq_iff in Eab as ->.
    apply Ascii.compare_eq_iff in Ebc as ->.
    rewrite ascii_compare_refl. by eapply IH.
  - apply Ascii.compare_eq_iff in Eab as ->. by rewrite Ebc.
  - apply Ascii.compare_eq_iff in Ebc as <-. by rewrite Eab.
  - by rewrite (ascii_compare_lt_trans a b c).
Qed.

Lemma str_le_alt s1 s2 : str_le s1 s2 <-> s1 = s2 \/ String.compare s1 s2 = Lt.
Proof.
  unfold str_le, String.leb. destruct (String.compare s1 s2) eqn:E.
  - apply String.compare_eq_iff in E. tauto.
  - tauto.
  - split; [done |]. intros [-> | ?]; [| done].
    assert (String.compare s2 s2 = Eq) as Hr; [| congruence].
    clear. induction s2 as [| c s IH]; simpl; [done |].
    by rewrite ascii_compare_refl.
Qed.

#[global] Instance str_le_trans : Transitive str_le.
Proof.
  intros s1 s2 s3. rewrite !str_le_alt.
  intros [-> | H12] [-> | H23]; eauto using string_compare_lt_trans.
Qed.

#[global] Instance str_le_total : Total str_le.
Proof. intros s1 s2. apply String.leb_total. Qed.

#[global] Instance str_le_antisym : AntiSymm (=) str_le.
Proof. intros s1 s2. apply String.leb_antisym. Qed.

Section Keys.
Context {V : Type}.
Implicit Types d : gmap string V.

Lemma sorted_keys_sorted d : StronglySorted str_le (sorted_keys d).
Proof. apply StronglySorted_merge_sort; apply _. Qed.

Lemma sorted_keys_perm d : sorted_keys d ≡ₚ (map_to_list d).*1.
Proof. apply merge_sort_Permutation. Qed.

Lemma sorted_keys_NoDup d : NoDup (sorted_keys d).
Proof. rewrite sorted_keys_perm. apply NoDup_fst_map_to_list. Qed.

Lemma elem_of_sorted_keys d k : k ∈ sorted_keys d <-> is_Some (d !! k).
Proof.
  rewrite sorted_keys_perm, list_elem_of_fmap. split.
  - intros ([k' v] & -> & Hkv). apply elem_of_map_to_list in Hkv. by eexists.
  - intros [v Hv]. exists (k, v). split; [done |]. by apply elem_of_map_to_list.
Qed.

Lemma sorted_keys_empty : sorted_keys (∅ : gmap string V) = [].
Proof. unfold sorted_keys. by rewrite map_to_list_empty. Qed.

Lemma sorted_keys_nil d : sorted_keys d = [] -> d = ∅.
Proof.
  intros H. apply map_empty. intros k.
  destruct (d !! k) as [v |] eqn:E; [| done].
  assert (k ∈ sorted_keys d) as Hk by (apply elem_of_sorted_keys; eauto).
  rewrite H in Hk. by apply elem_of_nil in Hk.
Qed.

Lemma length_sorted_keys d : length (sorted_keys d) = size d.
Proof.
  by rewrite sorted_keys_perm, length_fmap, length_map_to_list.
Qed.

End Keys.

(** ** The rows of the views *)

Lemma foldl_snoc_fmap {A B} (g : A -> B) (l : list A) (acc : list B) :
  foldl (fun acc x => (acc ++ [g x])%list) acc l = (acc ++ (g <$> l))%list.
Proof.
  revert acc. induction l as [| x l IH]; intros acc; simpl.
  - by rewrite app_nil_r.
  - rewrite IH. by rewrite <- app_assoc.
Qed.

Lemma foldl_app_bind {A B} (h : A -> list B) (l : list A) (acc : list B) :
  foldl (fun acc x => (acc ++ h x)%list) acc l = (acc ++ (l ≫= h))%list.
Proof.
  revert acc. induction l as [| x l IH]; intros acc; simpl.
  - by rewrite app_nil_r.
  - rewrite IH. by rewrite <- app_assoc.
Qed.

Lemma dia_a_filas_bloques dia :
  dia_a_filas dia
  = ((ORDEN_FASES ≫= bloque_fase dia) ++ [fila_total_dia dia])%list.
Proof.
  unfold dia_a_filas. f_equal.
  transitivity (foldl (fun acc l => (acc ++ bloque_fase dia l)%list) [] ORDEN_FASES);
    [| by rewrite foldl_app_bind].
  generalize ORDEN_FASES. intros ls.
  enough (forall acc : list Fila,
    foldl (fun (filas : list Fila) fase_label =>
        match DiaData.fases dia !! fase_label with
        | None => filas
        | Some fase =>
          (foldl (fun (filas : list Fila) eq =>
                    (filas ++ [fila_equipo (DiaData.fecha dia) fase_label eq])%list)
                 filas (FaseData.equipos fase)
           ++ [fila_total_fase (DiaData.fecha dia) fase_label fase])%list
        end) acc ls
    = foldl (fun acc l => (acc ++ bloque_fase dia l)%list) acc ls) as H by apply H.
  induction ls as [| l ls IH]; intros acc; simpl; [reflexivity |].
  rewrite IH. f_equal. unfold bloque_fase.
  destruct (DiaData.fases dia !! l) as [fase |].
  - by rewrite foldl_snoc_fmap, app_assoc.
  - by rewrite app_nil_r.
Qed.

Lemma for_each_dias {B} (dias : gmap string DiaData.t) (h : DiaData.t -> list B)
    (keys : list string) (acc : list B) :
  (forall k, k ∈ keys -> is_Some (dias !! k)) ->
  exists ds,
    Forall2 (fun k dia => dias !! k = Some dia) keys ds
    /\ for_each keys
         (fun fecha (filas : list B) =>
            dia ← dias_getitem dias fecha;
            Ok (filas ++ h dia)%list) acc
       = Ok (acc ++ (ds ≫= h))%list.
Proof.
  revert acc. induction keys as [| k keys IH]; intros acc Hk.
  - exists []. split; [constructor |]. simpl. by rewrite app_nil_r.
  - destruct (Hk k) as [dia Hd]; [left |].
    destruct (IH (acc ++ h dia)%list) as (ds & Hds & Hfor).
    { intros k' Hk'. apply Hk. by right. }
    exists (dia :: ds). split; [by constructor |].
    assert (dias_getitem dias k = Ok dia) as Hg
      by (unfold dias_getitem; by rewrite Hd).
    cbn [for_each]. rewrite Hg, !bind_Ok, Hfor.
    by rewrite bind_cons, <- app_assoc.
Qed.

Lemma todas_filas_metros_spec dias :
  exists ds,
    Forall2 (fun k dia => dias !! k = Some dia) (sorted_keys dias) ds
    /\ todas_filas_metros dias = Ok (ds ≫= dia_a_filas).
Proof.
  destruct (for_each_dias dias dia_a_filas (sorted_keys dias) [])
    as (ds & Hds & H); [intros k; apply elem_of_sorted_keys |].
  exists ds. split; [exact Hds | exact H].
Qed.

Lemma todas_filas_roc_spec dias :
  exists ds,
    Forall2 (fun k dia => dias !! k = Some dia) (sorted_keys dias) ds
    /\ todas_filas_roc dias = Ok (ds ≫= dia_a_filas_roc).
Proof.
  destruct (for_each_dias dias dia_a_filas_roc (sorted_keys dias) [])
    as (ds & Hds & H); [intros k; apply elem_of_sorted_keys |].
  exists ds. split; [exact Hds | exact H].
Qed.

Lemma filas_resumen_spec dias :
  exists ds,
    Forall2 (fun k dia => dias !! k = Some dia) (sorted_keys dias) ds
    /\ filas_resumen dias = Ok (fila_resumen <$> ds).
Proof.
  destruct (for_each_dias dias (fun dia => [fila_resumen dia]) (sorted_keys dias) [])
    as (ds & Hds & H); [intros k; apply elem_of_sorted_keys |].
  exists ds. split; [exact Hds |].
  unfold filas_resumen. rewrite H. reflexivity.
Qed.

Lemma filter_const {A} (P : A -> Prop) `{!forall x, Decision (P x)}
    (Q : Prop) `{!Decision Q} (l : list A) :
  (forall x, x ∈ l -> (P x <-> Q)) ->
  filter P l = if decide Q then l else [].
Proof.
  induction l as [| x l IH]; intros Hl; [by destruct (decide Q) |].
  rewrite filter_cons, IH by (intros y Hy; apply Hl; by right).
  pose proof (Hl x ltac:(left)) as Hx.
  destruct (decide Q) as [HQ | HQ].
  - rewrite decide_True; [done | tauto].
  - rewrite decide_False; [done | tauto].
Qed.

Lemma fase_de_bloque dia l fila :
  fila ∈ bloque_fase dia l -> fila_get fila "Fase" (FStr "") = FStr l.
Proof.
  unfold bloque_fase. destruct (DiaData.fases dia !! l) as [fase |].
  - rewrite elem_of_app, list_elem_of_fmap, list_elem_of_singleton.
    intros [(eq & -> & _) | ->]; reflexivity.
  - intros H. by apply elem_of_nil in H.
Qed.

(** The rows of the phase [l] among those of the phase [l']. *)
Lemma filas_con_fase_bloque dia l l' :
  filas_con "Fase" l (bloque_fase dia l')
  = if decide (l' = l) then bloque_fase dia l' else [].
Proof.
  unfold filas_con. apply filter_const. intros fila Hf.
  rewrite (fase_de_bloque _ _ _ Hf). split; congruence.
Qed.

Lemma filas_con_fase_dia dia l :
  l ∈ ORDEN_FASES -> filas_con "Fase" l (dia_a_filas dia) = bloque_fase dia l.
Proof.
  intros Hl. rewrite dia_a_filas_bloques. unfold ORDEN_FASES in *.
  change ([ "F12"; "F10"; "F09"; "F11" ] ≫= bloque_fase dia)
    with (bloque_fase dia "F12" ++ bloque_fase dia "F10" ++ bloque_fase dia "F09"
          ++ bloque_fase dia "F11" ++ [])%list.
  rewrite app_nil_r.
  pose proof (fun l' => filas_con_fase_bloque dia l l') as Hb.
  unfold filas_con in *. rewrite !filter_app, !Hb.
  rewrite filter_singleton; [| exact []].
  rewrite (decide_False (P := fila_get (fila_total_dia dia) "Fase" (FStr "") = FStr l)).
  2:{ change (FStr "TODAS" <> FStr l). intros [= <-].
      rewrite !elem_of_cons, elem_of_nil in Hl.
      destruct Hl as [? | [? | [? | [? | []]]]]; discriminate. }
  rewrite !elem_of_cons, elem_of_nil in Hl.
  destruct Hl as [-> | [-> | [-> | [-> | []]]]]; simpl; by rewrite ?app_nil_r.
Qed.

Lemma filas_con_total_dia dia :
  filas_con "Tipo" "Total_Dia" (dia_a_filas dia) = [fila_total_dia dia].
Proof.
  rewrite dia_a_filas_bloques. unfold filas_con. rewrite filter_app.
  rewrite filter_singleton; [| exact []]. rewrite decide_True by reflexivity.
  rewrite (filter_const _ False); [done |].
  intros fila Hf. split; [| done].
  apply list_elem_of_bind in Hf as (l & Hf & _).
  unfold bloque_fase in Hf. destruct (DiaData.fases dia !! l) as [fase |].
  - apply elem_of_app in Hf as [Hf | Hf].
    + apply list_elem_of_fmap in Hf as (eq & -> & _). discriminate.
    + apply list_elem_of_singleton in Hf as ->. discriminate.
  - by apply elem_of_nil in Hf.
Qed.

(** ** Writing the files *)

Lemma io_bind {A B} (m : IO A) (k : A -> IO B) w :
  (m ≫= k) w
  = match m w with
    | (Ok a, w') => k a w'
    | (Raise e, w') => (Raise e, w')
    end.
Proof. reflexivity. Qed.

Lemma claves_en_columnas (fieldnames : list string) (fila : Fila) :
  fila.*1 = fieldnames ->
  forallb (fun kv => bool_decide (kv.1 ∈ fieldnames)) fila = true.
Proof.
  intros <-. apply forallb_forall. intros kv Hkv.
  apply bool_decide_eq_true. apply list_elem_of_fmap. exists kv.
  split; [done | by apply list_elem_of_In].
Qed.

Lemma writerows_ok archivo fieldnames ignore_extras filas w :
  Forall (fun fila =>
            ignore_extras
            || forallb (fun kv => bool_decide (kv.1 ∈ fieldnames)) fila = true)
         filas ->
  writerows archivo fieldnames ignore_extras filas w
  = (Ok tt,
     con_files (escribir archivo (_dict_to_list fieldnames <$> filas) (files w)) w).
Proof.
  unfold writerows. revert w.
  induction filas as [| fila filas IH]; intros w Hf.
  - by destruct w.
  - apply Forall_cons in Hf as [Hfila Hf].
    cbn [for_each_io]. rewrite io_bind. unfold writerow at 1. rewrite Hfila.
    unfold write_line at 1. rewrite IH by exact Hf. reflexivity.
Qed.

Lemma escribir_lookup archivo ls fs f :
  fs !! archivo = Some f ->
  escribir archivo ls fs !! archivo
  = Some {| encoding := encoding f; delimiter := delimiter f;
            lines := lines f ++ ls |}.
Proof.
  unfold escribir. revert fs f. induction ls as [| l ls IH]; intros fs f Hf; simpl.
  - rewrite Hf, app_nil_r. by destruct f.
  - erewrite IH; [| by rewrite lookup_alter_eq, Hf].
    simpl. by rewrite <- app_assoc.
Qed.

Lemma escribir_lookup_ne archivo ls fs otro :
  otro <> archivo -> escribir archivo ls fs !! otro = fs !! otro.
Proof.
  unfold escribir. revert fs. induction ls as [| l ls IH]; intros fs Hne; simpl.
  - reflexivity.
  - rewrite IH by exact Hne. by rewrite lookup_alter_ne.
Qed.

Lemma csv_escrito archivo fieldnames filas (fs : gmap string CsvFile) :
  escribir archivo (_dict_to_list fieldnames <$> filas)
    (alter (append_line (FStr <$> fieldnames)) archivo
       (<[archivo := {| encoding := "utf-8-sig"; delimiter := ";"; lines := [] |}]> fs))
  = <[archivo := archivo_csv fieldnames filas]> fs.
Proof.
  apply map_eq. intros otro. destruct (decide (otro = archivo)) as [-> | Hne].
  - erewrite escribir_lookup; [| by rewrite lookup_alter_eq, lookup_insert_eq].
    by rewrite lookup_insert_eq.
  - rewrite escribir_lookup_ne, lookup_alter_ne, !lookup_insert_ne by done.
    reflexivity.
Qed.

Lemma claves_dia_a_filas dia fila :
  fila ∈ dia_a_filas dia -> fila.*1 = COLUMNAS_METROS.
Proof.
  rewrite dia_a_filas_bloques, elem_of_app, list_elem_of_singleton.
  intros [H | ->]; [| reflexivity].
  apply list_elem_of_bind in H as (l & H & _).
  unfold bloque_fase in H. destruct (DiaData.fases dia !! l) as [fase |].
  - apply elem_of_app in H as [H | H].
    + by apply list_elem_of_fmap in H as (eq & -> & _).
    + by apply list_elem_of_singleton in H as ->.
  - by apply elem_of_nil in H.
Qed.

Lemma claves_fila_resumen dia : (fila_resumen dia).*1 = COLUMNAS_RESUMEN.
Proof.
  unfold fila_resumen, ORDEN_FASES_RESUMEN. cbn [foldl]. unfold agregar_fase.
  destruct (DiaData.fases dia !! "F09"), (DiaData.fases dia !! "F10"),
    (DiaData.fases dia !! "F11"), (DiaData.fases dia !! "F12"); reflexivity.
Qed.

Lemma dia_a_filas_no_vacio dia : dia_a_filas dia <> [].
Proof.
  rewrite dia_a_filas_bloques. intros H. by apply app_eq_nil in H as [_ H].
Qed.

Lemma dia_a_filas_roc_no_vacio dia : dia_a_filas_roc dia <> [].
Proof. discriminate. Qed.

Lemma dias_ordenados_no_vacio (dias : gmap string DiaData.t) ds :
  dias <> ∅ ->
  Forall2 (fun k dia => dias !! k = Some dia) (sorted_keys dias) ds ->
  exists dia ds', ds = dia :: ds'.
Proof.
  intros Hne H. destruct ds as [| dia ds']; [| eauto].
  apply Forall2_nil_inv_r in H. by apply sorted_keys_nil in H.
Qed.

(** With no day, an export prints its note and writes nothing. *)
Lemma exportar_metros_csv_vacio output w :
  exportar_metros_csv ∅ output w
  = (Ok None, con_stdout (stdout w ++ ["No hay datos para exportar."]) w).
Proof.
  unfold exportar_metros_csv, todas_filas_metros. by rewrite sorted_keys_empty.
Qed.

Lemma exportar_roc_csv_vacio output w :
  exportar_roc_csv ∅ output w
  = (Ok None, con_stdout (stdout w ++ ["No hay datos ROC para exportar."]) w).
Proof.
  unfold exportar_roc_csv, todas_filas_roc. by rewrite sorted_keys_empty.
Qed.

Lemma exportar_resumen_diario_csv_vacio output w :
  exportar_resumen_diario_csv ∅ output w
  = (Ok None, con_stdout (stdout w ++ ["No hay datos para resumen."]) w).
Proof.
  unfold exportar_resumen_diario_csv, filas_resumen. by rewrite sorted_keys_empty.
Qed.

(** With a day or more, an export writes its file and returns its name,
    when the file can be opened. *)
Lemma exportar_metros_csv_ok dias output w :
  dias <> ∅ ->
  unwritable w !! (output +:+ ".csv") = None ->
  exists filas,
    todas_filas_metros dias = Ok filas
    /\ exportar_metros_csv dias output w
       = (Ok (Some (output +:+ ".csv")),
          con_stdout
            (stdout w ++ ["  Metros exportados: " +:+ (output +:+ ".csv") +:+ " ("
                          +:+ pretty (length filas) +:+ " filas)"])
            (con_files (<[output +:+ ".csv" := archivo_csv COLUMNAS_METROS filas]>
                          (files w)) w)).
Proof.
  intros Hne Hw. destruct (todas_filas_metros_spec dias) as (ds & Hds & Hfilas).
  destruct (dias_ordenados_no_vacio dias ds Hne Hds) as (dia & ds' & ->).
  exists ((dia :: ds') ≫= dia_a_filas). split; [exact Hfilas |].
  assert (Hkeys : Forall (fun fila =>
            false || forallb (fun kv => bool_decide (kv.1 ∈ COLUMNAS_METROS)) fila = true)
            ((dia :: ds') ≫= dia_a_filas)).
  { apply Forall_forall. intros fila Hf. simpl. apply claves_en_columnas.
    apply list_elem_of_bind in Hf as (d & Hf & _). by eapply claves_dia_a_filas. }
  unfold exportar_metros_csv. rewrite io_bind, Hfilas. unfold lift.
  destruct ((dia :: ds') ≫= dia_a_filas) as [| fila filas] eqn:E.
  { rewrite bind_cons in E. apply app_eq_nil in E as [E _].
    by apply dia_a_filas_no_vacio in E. }
  rewrite io_bind. unfold open_w at 1. rewrite Hw.
  rewrite io_bind. unfold writeheader, write_line at 1.
  rewrite io_bind, writerows_ok by exact Hkeys.
  rewrite io_bind. unfold print at 1. unfold mret, IO_ret.
  rewrite <- (csv_escrito (output +:+ ".csv") COLUMNAS_METROS (fila :: filas) (files w)).
  reflexivity.
Qed.

Lemma exportar_roc_csv_ok dias output w :
  dias <> ∅ ->
  unwritable w !! (output +:+ ".csv") = None ->
  exists filas,
    todas_filas_roc dias = Ok filas
    /\ exportar_roc_csv dias output w
       = (Ok (Some (output +:+ ".csv")),
          con_stdout
            (stdout w ++ ["  ROC exportados:   " +:+ (output +:+ ".csv") +:+ " ("
                          +:+ pretty (length filas) +:+ " filas)"])
            (con_files (<[output +:+ ".csv" := archivo_csv COLUMNAS_ROC filas]>
                          (files w)) w)).
Proof.
  intros Hne Hw. destruct (todas_filas_roc_spec dias) as (ds & Hds & Hfilas).
  destruct (dias_ordenados_no_vacio dias ds Hne Hds) as (dia & ds' & ->).
  exists ((dia :: ds') ≫= dia_a_filas_roc). split; [exact Hfilas |].
  unfold exportar_roc_csv. rewrite io_bind, Hfilas. unfold lift.
  destruct ((dia :: ds') ≫= dia_a_filas_roc) as [| fila filas] eqn:E.
  { rewrite bind_cons in E. by apply app_eq_nil in E as [E _]. }
  rewrite io_bind. unfold open_w at 1. rewrite Hw.
  rewrite io_bind. unfold writeheader, write_line at 1.
  rewrite io_bind, writerows_ok by (by apply Forall_forall).
  rewrite io_bind. unfold print at 1. unfold mret, IO_ret.
  rewrite <- (csv_escrito (output +:+ ".csv") COLUMNAS_ROC (fila :: filas) (files w)).
  reflexivity.
Qed.

Lemma exportar_resumen_diario_csv_ok dias output w :
  dias <> ∅ ->
  unwritable w !! (output +:+ ".csv") = None ->
  exists filas,
    filas_resumen dias = Ok filas
    /\ exportar_resumen_diario_csv dias output w
       = (Ok (Some (output +:+ ".csv")),
          con_stdout
            (stdout w ++ ["  Resumen diario:   " +:+ (output +:+ ".csv") +:+ " ("
                          +:+ pretty (length filas) +:+ " filas)"])
            (con_files (<[output +:+ ".csv" := archivo_csv COLUMNAS_RESUMEN filas]>
                          (files w)) w)).
Proof.
  intros Hne Hw. destruct (filas_resumen_spec dias) as (ds & Hds & Hfilas).
  destruct (dias_ordenados_no_vacio dias ds Hne Hds) as (dia & ds' & ->).
  exists (fila_resumen <$> dia :: ds'). split; [exact Hfilas |].
  assert (Hkeys : Forall (fun fila =>
            false || forallb (fun kv => bool_decide (kv.1 ∈ COLUMNAS_RESUMEN)) fila = true)
            (fila_resumen <$> dia :: ds')).
  { apply Forall_forall. intros fila Hf. simpl. apply claves_en_columnas.
    apply list_elem_of_fmap in Hf as (d & -> & _). apply claves_fila_resumen. }
  unfold exportar_resumen_diario_csv. rewrite io_bind, Hfilas. unfold lift.
  rewrite fmap_cons in *. rewrite claves_fila_resumen.
  rewrite io_bind. unfold open_w at 1. rewrite Hw.
  rewrite io_bind. unfold writeheader, write_line at 1.
  rewrite io_bind, writerows_ok by exact Hkeys.
  rewrite io_bind. unfold print at 1. unfold mret, IO_ret.
  rewrite <- (csv_escrito (output +:+ ".csv") COLUMNAS_RESUMEN
                (fila_resumen dia :: (fila_resumen <$> ds')) (files w)).
  reflexivity.
Qed.

(** With a day or more, an export whose file cannot be opened ends with the
    exception of [open], before it writes or prints anything. *)
Lemma exportar_metros_csv_bloqueado dias output w err :
  dias <> ∅ ->
  unwritable w !! (output +:+ ".csv") = Some err ->
  exportar_metros_csv dias output w = (Raise (open_exn err (output +:+ ".csv")), w).
Proof.
  intros Hne Hw. destruct (todas_filas_metros_spec dias) as (ds & Hds & Hfilas).
  destruct (dias_ordenados_no_vacio dias ds Hne Hds) as (dia & ds' & ->).
  unfold exportar_metros_csv. rewrite io_bind, Hfilas. unfold lift.
  destruct ((dia :: ds') ≫= dia_a_filas) as [| fila filas] eqn:E.
  { rewrite bind_cons in E. apply app_eq_nil in E as [E _].
    by apply dia_a_filas_no_vacio in E. }
  rewrite io_bind. unfold open_w at 1. by rewrite Hw.
Qed.

Lemma exportar_roc_csv_bloqueado dias output w err :
  dias <> ∅ ->
  unwritable w !! (output +:+ ".csv") = Some err ->
  exportar_roc_csv dias output w = (Raise (open_exn err (output +:+ ".csv")), w).
Proof.
  intros Hne Hw. destruct (todas_filas_roc_spec dias) as (ds & Hds & Hfilas).
  destruct (dias_ordenados_no_vacio dias ds Hne Hds) as (dia & ds' & ->).
  unfold exportar_roc_csv. rewrite io_bind, Hfilas. unfold lift.
  destruct ((dia :: ds') ≫= dia_a_filas_roc) as [| fila filas] eqn:E.
  { rewrite bind_cons in E. by apply app_eq_nil in E as [E _]. }
  rewrite io_bind. unfold open_w at 1. by rewrite Hw.
Qed.

Lemma exportar_resumen_diario_csv_bloqueado dias output w err :
  dias <> ∅ ->
  unwritable w !! (output +:+ ".csv") = Some err ->
  exportar_resumen_diario_csv dias output w = (Raise (open_exn err (output +:+ ".csv")), w).
Proof.
  intros Hne Hw. destruct (filas_resumen_spec dias) as (ds & Hds & Hfilas).
  destruct (dias_ordenados_no_vacio dias ds Hne Hds) as (dia & ds' & ->).
  unfold exportar_resumen_diario_csv. rewrite io_bind, Hfilas. unfold lift.
  rewrite fmap_cons in *.
  rewrite io_bind. unfold open_w at 1. by rewrite Hw.
Qed.

Lemma exportar_vacio output_base w :
  exportar ∅ output_base w
  = (Ok [],
     con_stdout (stdout w ++ [ "No hay datos para exportar.";
                               "No hay datos ROC para exportar.";
                               "No hay datos para resumen." ]) w).
Proof.
  unfold exportar.
  rewrite io_bind, exportar_metros_csv_vacio.
  rewrite io_bind, exportar_roc_csv_vacio.
  rewrite io_bind, exportar_resumen_diario_csv_vacio.
  unfold mret, IO_ret, con_stdout. simpl. by rewrite <- !app_assoc.
Qed.

Lemma exportar_ok dias output_base w :
  dias <> ∅ ->
  unwritable w !! ((output_base +:+ "_metros") +:+ ".csv") = None ->
  unwritable w !! ((output_base +:+ "_roc") +:+ ".csv") = None ->
  unwritable w !! ((output_base +:+ "_resumen_diario") +:+ ".csv") = None ->
  exists w',
    exportar dias output_base w
    = (Ok [ (output_base +:+ "_metros") +:+ ".csv";
            (output_base +:+ "_roc") +:+ ".csv";
            (output_base +:+ "_resumen_diario") +:+ ".csv" ], w')
    /\ handles w' = handles w /\ disk w' = disk w.
Proof.
  intros Hne Hm Hr Hs. unfold exportar.
  destruct (exportar_metros_csv_ok dias (output_base +:+ "_metros") w Hne Hm)
    as (f1 & _ & H1).
  rewrite io_bind, H1. cbv beta iota. rewrite io_bind.
  match goal with |- context [exportar_roc_csv _ _ ?w1] =>
    destruct (exportar_roc_csv_ok dias (output_base +:+ "_roc") w1 Hne Hr)
      as (f2 & _ & H2) end.
  rewrite H2. cbv beta iota. rewrite io_bind.
  match goal with |- context [exportar_resumen_diario_csv _ _ ?w2] =>
    destruct (exportar_resumen_diario_csv_ok dias
                (output_base +:+ "_resumen_diario") w2 Hne Hs)
      as (f3 & _ & H3) end.
  rewrite H3.
  eexists. split; [reflexivity |]. split; reflexivity.
Qed.

(** ** C4: the equipment view *)

(** C4. The equipment view takes the days in ascending order of their keys;
    a day gives, for F12, F10, F09 and F11 in that order, one row per
    equipment of the phase followed by one phase-total row that carries
    the totals of the phase as they were read, and then one day-total row.
    So a day whose phase F09 has two equipments and a total of 25 has, for
    F09, two equipment rows and one Total_Fase row whose Total is 25.
    These rows, under the header, are the lines of the file the export
    writes, when the file can be opened; when it cannot, the export ends
    with the exception of [open]. *)
Theorem vista_equipos (dias : gmap string DiaData.t) (output : string)
    (w : World) :
  StronglySorted str_le (sorted_keys dias)
  /\ NoDup (sorted_keys dias)
  /\ (forall fecha, fecha ∈ sorted_keys dias <-> is_Some (dias !! fecha))
  /\ (exists ds,
        Forall2 (fun fecha dia => dias !! fecha = Some dia) (sorted_keys dias) ds
        /\ todas_filas_metros dias = Ok (ds ≫= dia_a_filas))
  /\ ORDEN_FASES = [ "F12"; "F10"; "F09"; "F11" ]
  /\ (forall dia,
        dia_a_filas dia
        = ((ORDEN_FASES ≫= bloque_fase dia) ++ [fila_total_dia dia])%list
        /\ filas_con "Tipo" "Total_Dia" (dia_a_filas dia) = [fila_total_dia dia])
  /\ (forall dia fase_label,
        fase_label ∈ ORDEN_FASES ->
        filas_con "Fase" fase_label (dia_a_filas dia) = bloque_fase dia fase_label)
  /\ (forall dia fase_label fase,
        DiaData.fases dia !! fase_label = Some fase ->
        bloque_fase dia fase_label
        = ((fila_equipo (DiaData.fecha dia) fase_label <$> FaseData.equipos fase)
           ++ [fila_total_fase (DiaData.fecha dia) fase_label fase])%list)
  /\ (forall fecha fase_label eq,
        fila_get (fila_equipo fecha fase_label eq) "Tipo" (FStr "") = FStr "Equipo")
  /\ (forall fecha fase_label fase,
        let fila := fila_total_fase fecha fase_label fase in
        fila_get fila "Tipo" (FStr "") = FStr "Total_Fase"
        /\ fila_get fila "Turno_A" (FStr "") = FNum (FaseData.total_turno_a fase)
        /\ fila_get fila "Turno_B" (FStr "") = FNum (FaseData.total_turno_b fase)
        /\ fila_get fila "Total" (FStr "") = FNum (FaseData.total fase)
        /\ fila_get fila "Plan" (FStr "") = FNum (FaseData.plan fase))
  /\ (forall dia fase eq1 eq2,
        DiaData.fases dia !! "F09" = Some fase ->
        FaseData.equipos fase = [eq1; eq2] ->
        FaseData.total fase = Float.of_Z 25 ->
        filas_con "Fase" "F09" (dia_a_filas dia)
        = [ fila_equipo (DiaData.fecha dia) "F09" eq1;
            fila_equipo (DiaData.fecha dia) "F09" eq2;
            fila_total_fase (DiaData.fecha dia) "F09" fase ]
        /\ fila_get (fila_total_fase (DiaData.fecha dia) "F09" fase) "Total" (FStr "")
           = FNum (Float.of_Z 25))
  /\ (dias <> ∅ ->
      exists filas,
        todas_filas_metros dias = Ok filas
        /\ match unwritable w !! (output +:+ ".csv") with
           | None =>
             exists w',
               exportar_metros_csv dias output w
               = (Ok (Some (output +:+ ".csv")), w')
               /\ files w' !! (output +:+ ".csv")
                  = Some (archivo_csv COLUMNAS_METROS filas)
           | Some err =>
             exportar_metros_csv dias output w
             = (Raise (open_exn err (output +:+ ".csv")), w)
           end).
Proof.
  split; [apply sorted_keys_sorted |].
  split; [apply sorted_keys_NoDup |].
  split; [apply elem_of_sorted_keys |].
  split; [apply todas_filas_metros_spec |].
  split; [reflexivity |].
  split; [intros dia; split; [apply dia_a_filas_bloques | apply filas_con_total_dia] |].
  split; [intros dia l; apply filas_con_fase_dia |].
  split; [intros dia l fase H; unfold bloque_fase; by rewrite H |].
  split; [reflexivity |].
  split; [intros; repeat split; reflexivity |].
  split.
  { intros dia fase eq1 eq2 Hf He Ht.
    rewrite filas_con_fase_dia by (apply list_elem_of_In; simpl; tauto).
    unfold bloque_fase. rewrite Hf, He. split; [reflexivity |].
    change (FNum (FaseData.total fase) = FNum (Float.of_Z 25)). by rewrite Ht. }
  intros Hne. destruct (unwritable w !! (output +:+ ".csv")) as [err |] eqn:Hw.
  - destruct (todas_filas_metros_spec dias) as (ds & _ & Hf).
    eexists. split; [exact Hf |].
    by apply exportar_metros_csv_bloqueado.
  - destruct (exportar_metros_csv_ok dias output w Hne Hw) as (filas & Hf & He).
    exists filas. split; [exact Hf |]. eexists. split; [exact He |].
    apply lookup_insert_eq.
Qed.

(** ** C8: exporting no day *)

(** C8. For an empty collection of days each of the three exports returns
    the no-file indication without raising, prints its note and leaves the
    files as they were; run one after the other, as the command does, all
    three run and no file is written. *)
Theorem exportar_sin_dias (output output_base : string) (w : World) :
  (exists w1, exportar_metros_csv ∅ output w = (Ok None, w1)
              /\ files w1 = files w
              /\ stdout w1 = (stdout w ++ ["No hay datos para exportar."])%list)
  /\ (exists w2, exportar_roc_csv ∅ output w = (Ok None, w2)
                 /\ files w2 = files w
                 /\ stdout w2 = (stdout w ++ ["No hay datos ROC para exportar."])%list)
  /\ (exists w3, exportar_resumen_diario_csv ∅ output w = (Ok None, w3)
                 /\ files w3 = files w
                 /\ stdout w3 = (stdout w ++ ["No hay datos para resumen."])%list)
  /\ (exists w', exportar ∅ output_base w = (Ok [], w')
                 /\ files w' = files w
                 /\ stdout w' = (stdout w ++ [ "No hay datos para exportar.";
                                               "No hay datos ROC para exportar.";
                                               "No hay datos para resumen." ])%list).
Proof.
  split; [rewrite exportar_metros_csv_vacio; by eexists |].
  split; [rewrite exportar_roc_csv_vacio; by eexists |].
  split; [rewrite exportar_resumen_diario_csv_vacio; by eexists |].
  rewrite exportar_vacio. by eexists.
Qed.

(** ** Looking a sheet up *)

Lemma buscar_hoja_None names fecha :
  buscar_hoja names fecha = None
  <-> forall name, name ∈ names -> strip name <> strip fecha.
Proof.
  induction names as [| n names IH]; simpl.
  - split; [| done]. intros _ name H. by apply elem_of_nil in H.
  - destruct (String.eqb_spec (strip n) (strip fecha)) as [He | He].
    + split; [done |]. intros H. exfalso. apply (H n); [left | exact He].
    + rewrite IH. split.
      * intros H name Hn. apply elem_of_cons in Hn as [-> | Hn]; [exact He | by apply H].
      * intros H name Hn. apply H. by right.
Qed.

Lemma buscar_hoja_Some names fecha nombre_hoja :
  buscar_hoja names fecha = Some nombre_hoja ->
  nombre_hoja ∈ names /\ strip nombre_hoja = strip fecha.
Proof.
  induction names as [| n names IH]; simpl; [done |].
  destruct (String.eqb_spec (strip n) (strip fecha)) as [He | He].
  - intros [= <-]. split; [left | exact He].
  - intros H. destruct (IH H) as [Hin Hs]. split; [by right | exact Hs].
Qed.

Lemma buscar_hoja_coincide sheets fecha :
  coincide sheets fecha <-> is_Some (buscar_hoja (sheetnames sheets) fecha).
Proof.
  unfold coincide. split.
  - intros (name & Hin & Hs).
    destruct (buscar_hoja (sheetnames sheets) fecha) as [n |] eqn:E; [by eexists |].
    exfalso. by apply (proj1 (buscar_hoja_None _ _) E name).
  - intros [n Hn]. exists n. by apply buscar_hoja_Some.
Qed.

#[global] Instance coincide_dec sheets fecha : Decision (coincide sheets fecha).
Proof.
  destruct (buscar_hoja (sheetnames sheets) fecha) as [n |] eqn:E.
  - left. apply buscar_hoja_coincide. rewrite E. by eexists.
  - right. intros H. apply buscar_hoja_coincide in H. rewrite E in H.
    by destruct H.
Defined.

Lemma getitem_sheetnames sheets name :
  name ∈ sheetnames sheets ->
  exists sheet, getitem sheets name = Ok sheet /\ (name, sheet) ∈ sheets.
Proof.
  unfold sheetnames. induction sheets as [| [n sh] sheets IH]; simpl.
  - intros H. by apply elem_of_nil in H.
  - intros H. destruct (String.eqb_spec n name) as [-> | Hne].
    + exists sh. split; [done | left].
    + apply elem_of_cons in H as [-> | H]; [done |].
      destruct (IH H) as (sheet & Hg & Hin). exists sheet. split; [done | by right].
Qed.

Lemma insert_last_false (hs : list bool) :
  <[length hs := false]> (hs ++ [true])%list = (hs ++ [false])%list.
Proof.
  induction hs as [| h hs IH]; simpl; [reflexivity |]. by rewrite IH.
Qed.

Section LoaderFacts.
Context (py : Builtins).

(** What [obtener_dia] does in a world that has the document. *)
Lemma obtener_dia_eval fecha ruta w sheets :
  disk w !! ruta = Some sheets ->
  obtener_dia py fecha ruta w
  = match buscar_hoja (sheetnames sheets) fecha with
    | None => (Ok None, con_handles (handles w ++ [false]) w)
    | Some nombre_hoja =>
      match leer_dia py sheets nombre_hoja with
      | Ok dia => (Ok (Some dia), con_handles (handles w ++ [false]) w)
      | Raise e => (Raise e, con_handles (handles w ++ [true]) w)
      end
    end.
Proof.
  intros Hd. unfold obtener_dia. rewrite io_bind. unfold load_workbook. rewrite Hd.
  cbn [wb_sheets].
  destruct (buscar_hoja (sheetnames sheets) fecha) as [nombre_hoja |].
  - rewrite io_bind. unfold lift at 1.
    destruct (leer_dia py sheets nombre_hoja) as [dia | e]; [| reflexivity].
    rewrite io_bind. unfold close, con_handles. simpl.
    by rewrite insert_last_false.
  - rewrite io_bind. unfold close, con_handles. simpl.
    by rewrite insert_last_false.
Qed.

Lemma obtener_dia_sin_documento fecha ruta w :
  disk w !! ruta = None ->
  obtener_dia py fecha ruta w = (Raise (FileNotFoundError ruta), w).
Proof.
  intros Hd. unfold obtener_dia. rewrite io_bind. unfold load_workbook.
  by rewrite Hd.
Qed.

Lemma for_each_io_lift {A S B} (f : A -> outcome B) (g : A -> S -> B -> S)
    (xs : list A) (s : S) (w : World) :
  for_each_io xs (fun x s => b ← lift (f x); mret (g x s b)) s w
  = (for_each xs (fun x s => b ← f x; Ok (g x s b)) s, w).
Proof.
  revert s. induction xs as [| x xs IH]; intros s; [reflexivity |].
  cbn [for_each_io for_each]. rewrite io_bind, io_bind. unfold lift at 1.
  destruct (f x) as [b | e]; [| reflexivity].
  rewrite bind_Ok. cbn. apply IH.
Qed.

(** What [cargar_excel] does in a world that has the document. *)
Lemma cargar_excel_eval ruta w sheets :
  disk w !! ruta = Some sheets ->
  let hojas := filter (fun name => strip name ∉ HOJAS_EXCLUIDAS) (sheetnames sheets) in
  cargar_excel py ruta w
  = match for_each hojas
            (fun nombre (dias : gmap string DiaData.t) =>
               dia ← leer_dia py sheets nombre;
               Ok (<[strip nombre := dia]> dias)) ∅ with
    | Ok dias =>
      (Ok {| dias := dias; hojas_fecha := strip <$> hojas;
             total_hojas := length hojas |},
       con_handles (handles w ++ [false]) w)
    | Raise e => (Raise e, con_handles (handles w ++ [true]) w)
    end.
Proof.
  intros Hd hojas. unfold cargar_excel. rewrite io_bind. unfold load_workbook.
  rewrite Hd. cbn [wb_sheets]. fold hojas. rewrite io_bind.
  rewrite (for_each_io_lift (leer_dia py sheets)
             (fun nombre (dias : gmap string DiaData.t) dia => <[strip nombre := dia]> dias)).
  destruct (for_each hojas _ ∅) as [dias | e]; [| reflexivity].
  rewrite io_bind. unfold close, con_handles. simpl.
  by rewrite insert_last_false.
Qed.

End LoaderFacts.

(** ** C6: one day by its date *)

(** C6, at the input where the code departs from the claim: on a workbook
    whose sheet 15-01 holds the integer 10^400 in a cell that is read, a
    sheet name equals the date asked for, so the claim promises the day
    record of that sheet; the read raises [OverflowError] (the slip of C1)
    and [obtener_dia] returns neither a record nor the not-found
    result. *)
Theorem obtener_dia_raises_on_huge_int (py : Builtins) :
  coincide Ejemplo.libro_malo "15-01"
  /\ disk Ejemplo.mundo_malo !! EXCEL_PATH = Some Ejemplo.libro_malo
  /\ (obtener_dia py "15-01" EXCEL_PATH Ejemplo.mundo_malo).1 = Raise OverflowError
  /\ (forall r, (obtener_dia py "15-01" EXCEL_PATH Ejemplo.mundo_malo).1 <> Ok r).
Proof.
  assert (H : (obtener_dia py "15-01" EXCEL_PATH Ejemplo.mundo_malo).1
              = Raise OverflowError) by (vm_compute; reflexivity).
  split; [| split; [reflexivity | split; [exact H |]]].
  - exists "15-01". split; [| reflexivity]. apply list_elem_of_In. simpl. tauto.
  - intros r. rewrite H. discriminate.
Qed.

(** On every workbook: in a world that has the document, [obtener_dia]
    returns the not-found result exactly when no sheet name equals the date once both
    are trimmed. When some sheet matches, it reads the first such sheet
    and returns what [leer_dia] returns for it: the whole day record of
    that sheet (the only other outcome of the read being the
    [OverflowError] of an integer cell out of range, which is returned by
    no record). A record it returns is never partial: it is the record of
    a matching sheet, with every field read. *)
Theorem obtener_dia_spec (py : Builtins) (fecha ruta : string) (w : World)
    (sheets : Sheets) :
  disk w !! ruta = Some sheets ->
  ((obtener_dia py fecha ruta w).1 = Ok None
   <-> forall name, name ∈ sheetnames sheets -> strip name <> strip fecha)
  /\ ((exists name, name ∈ sheetnames sheets /\ strip name = strip fecha) ->
      exists nombre_hoja sheet,
        buscar_hoja (sheetnames sheets) fecha = Some nombre_hoja
        /\ nombre_hoja ∈ sheetnames sheets
        /\ strip nombre_hoja = strip fecha
        /\ getitem sheets nombre_hoja = Ok sheet
        /\ (obtener_dia py fecha ruta w).1 = Some <$> leer_dia py sheets nombre_hoja
        /\ lee sheet (leer_dia py sheets nombre_hoja)
               (dia_de_hoja py sheet nombre_hoja)
        /\ (hoja_en_rango sheet ->
            (obtener_dia py fecha ruta w).1
            = Ok (Some (dia_de_hoja py sheet nombre_hoja))))
  /\ (forall dia,
        (obtener_dia py fecha ruta w).1 = Ok (Some dia) ->
        exists nombre_hoja sheet,
          nombre_hoja ∈ sheetnames sheets
          /\ strip nombre_hoja = strip fecha
          /\ getitem sheets nombre_hoja = Ok sheet
          /\ dia = dia_de_hoja py sheet nombre_hoja).
Proof.
  intros Hd. rewrite (obtener_dia_eval py fecha ruta w sheets Hd).
  destruct (buscar_hoja (sheetnames sheets) fecha) as [n |] eqn:E.
  - destruct (buscar_hoja_Some _ _ _ E) as [Hin Hs].
    destruct (getitem_sheetnames sheets n Hin) as (sheet & Hg & _).
    pose proof (lee_leer_dia py sheets n sheet Hg) as Hlee.
    split; [| split].
    + split.
      * destruct (leer_dia py sheets n); discriminate.
      * intros H. exfalso. by apply (H n).
    + intros _. exists n, sheet. repeat split; try done.
      * by destruct (leer_dia py sheets n).
      * intros Hr. by rewrite (lee_en_rango _ _ _ Hlee Hr).
    + intros dia H. exists n, sheet. repeat split; try done.
      destruct (leer_dia py sheets n) as [d |] eqn:El; [| discriminate].
      injection H as <-. by eapply lee_Ok.
  - split; [| split].
    + split; [intros _; by apply buscar_hoja_None | done].
    + intros (name & Hin & Hs). exfalso.
      by apply (proj1 (buscar_hoja_None _ _) E name).
    + discriminate.
Qed.

Lemma obtener_dia_spec_witness :
  (obtener_dia Ejemplo.py " 15-01" EXCEL_PATH Ejemplo.mundo).1
  = Ok (Some (dia_de_hoja Ejemplo.py Ejemplo.hoja "15-01 "))
  /\ (obtener_dia Ejemplo.py "15-02" EXCEL_PATH Ejemplo.mundo).1 = Ok None.
Proof.
  split.
  - destruct (obtener_dia_spec Ejemplo.py " 15-01" EXCEL_PATH Ejemplo.mundo
                Ejemplo.libro eq_refl) as (_ & Hfound & _).
    destruct Hfound as (n & sheet & Hb & _ & _ & Hg & _ & _ & Hr).
    { exists "15-01 ". split; [| reflexivity]. apply list_elem_of_In. simpl. tauto. }
    injection Hb as <-. injection Hg as <-.
    apply Hr, Ejemplo_hoja_en_rango.
  - apply (obtener_dia_spec Ejemplo.py "15-02" EXCEL_PATH Ejemplo.mundo
             Ejemplo.libro eq_refl).
    intros name Hn. apply list_elem_of_In in Hn. simpl in Hn.
    destruct Hn as [<- | [<- | [<- | []]]]; discriminate.
Defined.

(** ** C7: the workbook handle *)




(** ** C9: the command, given dates *)

Lemma parse_output_sin_opcion args :
  "--output" ∉ args -> parse_output args = ("kpi", args).
Proof. intros H. unfold parse_output. by rewrite bool_decide_eq_false_2. Qed.

Lemma fechas_de_tokens prog tokens :
  Forall (fun a => String.prefix "--" a = false) tokens ->
  fechas_de (prog :: tokens) = tokens.
Proof.
  intros H. unfold fechas_de. change (drop 1 (prog :: tokens)) with tokens.
  rewrite parse_output_sin_opcion.
  - cbn [snd]. induction H as [| a l Ha Hl IH]; [done |].
    rewrite filter_cons_True by exact Ha. by rewrite IH.
  - intros Hin. rewrite Forall_forall in H. by specialize (H _ Hin).
Qed.

Section CommandFacts.
Context (py : Builtins) (sheets : Sheets).
Hypothesis Hrango : libro_en_rango sheets.

Lemma obtener_dia_en_rango fecha w :
  disk w !! EXCEL_PATH = Some sheets ->
  obtener_dia py fecha EXCEL_PATH w
  = (match buscar_hoja (sheetnames sheets) fecha with
     | Some nombre_hoja =>
       match getitem sheets nombre_hoja with
       | Ok sheet => Ok (Some (dia_de_hoja py sheet nombre_hoja))
       | Raise e => Raise e
       end
     | None => Ok None
     end,
     con_handles (handles w ++ [false]) w).
Proof.
  intros Hd. rewrite (obtener_dia_eval py fecha EXCEL_PATH w sheets Hd).
  destruct (buscar_hoja (sheetnames sheets) fecha) as [n |] eqn:E; [| done].
  destruct (buscar_hoja_Some _ _ _ E) as [Hin _].
  destruct (getitem_sheetnames sheets n Hin) as (sheet & Hg & Hs).
  rewrite Hg. by rewrite (leer_dia_en_rango py sheets n sheet Hg (Hrango _ _ Hs)).
Qed.

Lemma cargar_fechas_loop fechas (dias0 : gmap string DiaData.t) w :
  disk w !! EXCEL_PATH = Some sheets ->
  exists dias,
    for_each_io fechas
      (fun fecha (dias : gmap string DiaData.t) =>
         dia ← obtener_dia py fecha EXCEL_PATH;
         match dia with
         | Some dia => mret (<[fecha := dia]> dias)
         | None =>
           _ ← print ("  AVISO: No se encontró la hoja '" +:+ fecha +:+ "'")%string;
           mret dias
         end) dias0 w
    = (Ok dias,
       {| disk := disk w;
          handles := handles w ++ replicate (length fechas) false;
          stdout := stdout w
                    ++ (aviso <$> filter (fun f => ~ coincide sheets f) fechas);
          files := files w;
          unwritable := unwritable w |})
    /\ dom dias = dom dias0 ∪ list_to_set (filter (coincide sheets) fechas)
    /\ (forall fecha dia,
          dias !! fecha = Some dia ->
          dias0 !! fecha = Some dia
          \/ (fecha ∈ fechas
              /\ exists nombre_hoja sheet,
                   buscar_hoja (sheetnames sheets) fecha = Some nombre_hoja
                   /\ getitem sheets nombre_hoja = Ok sheet
                   /\ dia = dia_de_hoja py sheet nombre_hoja)).
Proof.
  revert dias0 w. induction fechas as [| fecha fechas IH]; intros dias0 w Hd.
  - exists dias0. split; [| split].
    + cbn. rewrite !app_nil_r. by destruct w.
    + cbn. by rewrite (right_id_L ∅ (∪)).
    + auto.
  - cbn [for_each_io].
    destruct (buscar_hoja (sheetnames sheets) fecha) as [n |] eqn:E.
    + destruct (buscar_hoja_Some _ _ _ E) as [Hin _].
      destruct (getitem_sheetnames sheets n Hin) as (sheet & Hg & _).
      assert (Hc : coincide sheets fecha)
        by (apply buscar_hoja_coincide; rewrite E; by eexists).
      destruct (IH (<[fecha := dia_de_hoja py sheet n]> dias0)
                  (con_handles (handles w ++ [false]) w) Hd)
        as (dias & Hrun & Hdom & Hval).
      exists dias.
      rewrite filter_cons, (filter_cons (coincide sheets)).
      rewrite (decide_True (P := coincide sheets fecha)) by exact Hc.
      rewrite (decide_False (P := ~ coincide sheets fecha)) by tauto.
      split; [| split].
      * rewrite io_bind, io_bind, (obtener_dia_en_rango fecha w Hd), E, Hg.
        unfold mret at 1, IO_ret at 1. rewrite Hrun. f_equal.
        unfold con_handles. cbn. by rewrite <- app_assoc.
      * rewrite Hdom, dom_insert_L. cbn.
        by rewrite (comm_L (∪) {[fecha]} (dom dias0)), <- (assoc_L (∪)).
      * intros f d Hfd. destruct (Hval f d Hfd) as [H0 | (Hf & H)].
        -- destruct (decide (fecha = f)) as [<- | Hne].
           ++ rewrite lookup_insert_eq in H0. injection H0 as <-.
              right. split; [left |]. by exists n, sheet.
           ++ rewrite lookup_insert_ne in H0 by done. by left.
        -- right. split; [by right | exact H].
    + assert (Hc : ~ coincide sheets fecha).
      { intros H. apply buscar_hoja_coincide in H. rewrite E in H. by destruct H. }
      destruct (IH dias0
                  (con_stdout
                     (stdout (con_handles (handles w ++ [false]) w)
                      ++ ["  AVISO: No se encontró la hoja '" +:+ fecha +:+ "'"])
                     (con_handles (handles w ++ [false]) w)) Hd)
        as (dias & Hrun & Hdom & Hval).
      exists dias.
      rewrite filter_cons, (filter_cons (coincide sheets)).
      rewrite (decide_False (P := coincide sheets fecha)) by exact Hc.
      rewrite (decide_True (P := ~ coincide sheets fecha)) by exact Hc.
      split; [| split].
      * rewrite io_bind, io_bind, (obtener_dia_en_rango fecha w Hd), E.
        rewrite io_bind. unfold print at 1.
        unfold mret at 1, IO_ret at 1. rewrite Hrun. f_equal.
        unfold con_handles, con_stdout. cbn. by rewrite <- !app_assoc.
      * exact Hdom.
      * intros f d Hfd. destruct (Hval f d Hfd) as [H0 | (Hf & H)]; [by left |].
        right. split; [by right | exact H].
Qed.

End CommandFacts.

(** C9, at the input where the code departs from the claim: on a workbook
    whose sheet 15-01 holds the integer 10^400 in a cell that is read, the
    dates 15-01 (which matches that sheet) and 99-99 (which matches none)
    end the command at the first date with [OverflowError] (the slip of
    C1): the status is not zero although a date matches, the second date
    is never looked up and gets no warning, and no file is written. *)
Theorem main_raises_on_huge_int (py : Builtins) :
  let r := main py ["dashboard_csv.py"; "15-01"; "99-99"] Ejemplo.mundo_malo in
  coincide Ejemplo.libro_malo "15-01"
  /\ ~ coincide Ejemplo.libro_malo "99-99"
  /\ fechas_de ["dashboard_csv.py"; "15-01"; "99-99"] = ["15-01"; "99-99"]
  /\ r.1 = Raise OverflowError
  /\ exit_status r.1 = 1
  /\ stdout r.2 = ["Leyendo Excel: " +:+ EXCEL_PATH]
  /\ handles r.2 = [true]
  /\ files r.2 = ∅.
Proof.
  intros r.
  assert (H : r = (Raise OverflowError,
                   con_handles [true]
                     (con_stdout ["Leyendo Excel: " +:+ EXCEL_PATH] Ejemplo.mundo_malo)))
    by (vm_compute; reflexivity).
  rewrite H. split; [| split].
  - exists "15-01". split; [| reflexivity]. apply list_elem_of_In. simpl. tauto.
  - intros (name & Hin & Hs). apply list_elem_of_In in Hin. simpl in Hin.
    destruct Hin as [<- | []]. discriminate Hs.
  - repeat split.
Qed.

(** On the other workbooks. Given dates, in a world that has the document
    (its integer cells in range) and where the three files of the command
    can be opened: the command looks every date up, one after the other; a
    date that matches no sheet once trimmed gets its warning and the loop
    goes on; the days collected are exactly the dates that match a sheet,
    each with the record of its sheet; the command ends with a non-zero
    status exactly when no day was collected. With one known and one
    unknown date the collection holds the known date only. *)
Theorem main_fechas (py : Builtins) (argv : list string) (w : World)
    (sheets : Sheets) :
  disk w !! EXCEL_PATH = Some sheets ->
  libro_en_rango sheets ->
  escribibles w (archivos_de (parse_output (drop 1 argv)).1) ->
  fechas_de argv <> [] ->
  exists dias w1,
    cargar_fechas py (fechas_de argv)
      (con_stdout (stdout w ++ ["Leyendo Excel: " +:+ EXCEL_PATH]) w)
    = (Ok dias, w1)
    /\ dom dias = list_to_set (filter (coincide sheets) (fechas_de argv))
    /\ (forall fecha dia,
          dias !! fecha = Some dia ->
          exists nombre_hoja sheet,
            strip nombre_hoja = strip fecha
            /\ getitem sheets nombre_hoja = Ok sheet
            /\ dia = dia_de_hoja py sheet nombre_hoja)
    /\ stdout w1
       = (stdout w ++ ["Leyendo Excel: " +:+ EXCEL_PATH]
          ++ (aviso <$> filter (fun f => ~ coincide sheets f) (fechas_de argv)))%list
    /\ handles w1
       = (handles w ++ replicate (length (fechas_de argv)) false)%list
    /\ (main py argv w).1
       = (if decide (dias = ∅) then Raise (SystemExit 1) else Ok tt)
    /\ (exit_status (main py argv w).1 <> 0 <-> dias = ∅)
    /\ (forall conocida desconocida,
          fechas_de argv = [conocida; desconocida] ->
          coincide sheets conocida -> ~ coincide sheets desconocida ->
          dom dias = {[ conocida ]}
          /\ stdout w1
             = (stdout w ++ ["Leyendo Excel: " +:+ EXCEL_PATH; aviso desconocida])%list)
    /\ (forall prog tokens,
          argv = prog :: tokens ->
          Forall (fun a => String.prefix "--" a = false) tokens ->
          fechas_de argv = tokens).
Proof.
  intros Hd Hr Hw Hne.
  set (w0 := con_stdout (stdout w ++ ["Leyendo Excel: " +:+ EXCEL_PATH]) w).
  destruct (cargar_fechas_loop py sheets Hr (fechas_de argv) ∅ w0 Hd)
    as (dias & Hrun & Hdom & Hval).
  fold (cargar_fechas py (fechas_de argv)) in Hrun.
  rewrite dom_empty_L, (left_id_L ∅ (∪)) in Hdom.
  assert (Hmain : (main py argv w).1
                  = (if decide (dias = ∅) then Raise (SystemExit 1) else Ok tt)).
  { unfold main. unfold fechas_de in Hrun, Hne.
    destruct (parse_output (drop 1 argv)) as [output_base args]. cbn [fst snd] in *.
    apply Forall_cons in Hw as [Hw1 Hw]. apply Forall_cons in Hw as [Hw2 Hw].
    apply Forall_cons in Hw as [Hw3 _].
    rewrite io_bind. unfold print at 1. fold w0.
    destruct (filter (fun a => String.prefix "--" a = false) args)
      as [| f fs] eqn:Ef; [done |].
    rewrite io_bind, Hrun.
    destruct (decide (dias = ∅)) as [He | He]; [reflexivity |].
    rewrite io_bind. unfold print at 1. rewrite io_bind.
    match goal with |- context [exportar dias output_base ?w2] =>
      destruct (exportar_ok dias output_base w2 He Hw1 Hw2 Hw3) as (w3 & Hexp & _) end.
    rewrite Hexp. reflexivity. }
  eexists dias, _. split; [exact Hrun |].
  split; [exact Hdom |].
  split.
  { intros fecha dia Hfd. destruct (Hval fecha dia Hfd) as [H0 | (_ & n & sheet & Hb & Hg & ->)].
    - by rewrite lookup_empty in H0.
    - exists n, sheet. split; [by apply buscar_hoja_Some in Hb as [_ ?] | done]. }
  split; [cbn; by rewrite <- app_assoc |].
  split; [reflexivity |].
  split; [exact Hmain |].
  split.
  { rewrite Hmain. destruct (decide (dias = ∅)); simpl; split; done. }
  split; [| intros prog tokens ->; apply fechas_de_tokens].
  intros conocida desconocida Hf Hc Hnc. rewrite Hdom. cbn [stdout]. rewrite Hf.
  rewrite !filter_cons, filter_nil.
  rewrite (decide_True (P := coincide sheets conocida)) by exact Hc.
  rewrite (decide_False (P := coincide sheets desconocida)) by exact Hnc.
  rewrite (decide_False (P := ~ coincide sheets conocida)) by tauto.
  rewrite (decide_True (P := ~ coincide sheets desconocida)) by exact Hnc.
  split; [cbn; by rewrite (right_id_L ∅ (∪)) | cbn; by rewrite <- app_assoc].
Qed.

Lemma Ejemplo_libro_en_rango : libro_en_rango Ejemplo.libro.
Proof.
  intros name sheet H. apply list_elem_of_In in H. simpl in H.
  destruct H as [[= _ <-] | [[= _ <-] | [[= _ <-] | []]]];
    auto using hoja_vacia_en_rango, Ejemplo_hoja_en_rango.
Qed.

Lemma Ejemplo_escribibles archivos : escribibles Ejemplo.mundo archivos.
Proof. apply Forall_forall. intros archivo _. exact (lookup_empty _). Qed.

Lemma main_fechas_witness :
  exit_status (main Ejemplo.py ["dashboard_csv.py"; "15-01"; "99-99"] Ejemplo.mundo).1 = 0
  /\ exists dias w1,
       cargar_fechas Ejemplo.py ["15-01"; "99-99"]
         (con_stdout [ "Leyendo Excel: " +:+ EXCEL_PATH ] Ejemplo.mundo)
       = (Ok dias, w1)
       /\ dom dias = ({[ "15-01" ]} : gset string)
       /\ stdout w1 = [ "Leyendo Excel: " +:+ EXCEL_PATH; aviso "99-99" ].
Proof.
  destruct (main_fechas Ejemplo.py ["dashboard_csv.py"; "15-01"; "99-99"]
              Ejemplo.mundo Ejemplo.libro eq_refl Ejemplo_libro_en_rango
              (Ejemplo_escribibles _) ltac:(discriminate))
    as (dias & w1 & Hrun & _ & _ & _ & _ & Hmain & _ & Hpar & _).
  destruct (Hpar "15-01" "99-99" eq_refl) as [Hdom Hout].
  { exists "15-01 ". split; [| reflexivity]. apply list_elem_of_In. simpl. tauto. }
  { intros H. apply buscar_hoja_coincide in H. by destruct H. }
  split.
  - rewrite Hmain. destruct (decide (dias = ∅)) as [-> | _]; [| reflexivity].
    rewrite dom_empty_L in Hdom. exfalso.
    assert ("15-01" ∈ (∅ : gset string)) as H by (rewrite Hdom; by apply elem_of_singleton).
    by apply not_elem_of_empty in H.
  - exists dias, w1. split; [exact Hrun |]. split; [exact Hdom | exact Hout].
Defined.

Example main_ejemplo :
  let r := main Ejemplo.py ["dashboard_csv.py"; "15-01"; "99-99"] Ejemplo.mundo in
  r.1 = Ok tt
  /\ handles r.2 = [false; false]
  /\ dom (files r.2)
     = ({[ "kpi_metros.csv"; "kpi_roc.csv"; "kpi_resumen_diario.csv" ]} : gset string)
  /\ (lines <$> files r.2 !! "kpi_metros.csv")
     = Some ((FStr <$> COLUMNAS_METROS)
             :: (_dict_to_list COLUMNAS_METROS
                   <$> dia_a_filas (dia_de_hoja Ejemplo.py Ejemplo.hoja "15-01 "))).
Proof. repeat split; vm_compute; reflexivity. Qed.

Example main_sin_coincidencias :
  let r := main Ejemplo.py ["dashboard_csv.py"; "98-98"; "99-99"] Ejemplo.mundo in
  r.1 = Raise (SystemExit 1)
  /\ exit_status r.1 = 1
  /\ files r.2 = ∅
  /\ stdout r.2 = [ "Leyendo Excel: " +:+ EXCEL_PATH; aviso "98-98"; aviso "99-99";
                    "No se encontraron datos. Verifica las fechas." ].
Proof. repeat split; vm_compute; reflexivity. Qed.

(** * Further properties of the reader and of the exporter *)

(** ** Trimming *)

(** X1. The text coercion never returns a text that starts or ends with
    white space: its result is a fixed point of [strip], of [lstrip] and
    of [rstrip], and neither its first nor its last character is white
    space; on an empty cell it is the empty text. *)
Theorem safe_str_trimmed (py : Builtins) (v : value) :
  strip (_safe_str py v) = _safe_str py v
  /\ lstrip (_safe_str py v) = _safe_str py v
  /\ rstrip (_safe_str py v) = _safe_str py v
  /\ (forall c, head (list_ascii_of_string (_safe_str py v)) = Some c ->
                isspace c = false)
  /\ (forall c, last (list_ascii_of_string (_safe_str py v)) = Some c ->
                isspace c = false)
  /\ _safe_str py VNone = "".
Proof.
  assert (H : exists s, _safe_str py v = strip s).
  { destruct v; simpl; eauto. by exists "". }
  destruct H as [s ->].
  split; [apply strip_idemp |].
  split; [apply lstrip_strip |].
  split; [apply rstrip_strip |].
  split.
  { intros c Hc. pose proof (strip_head s) as H.
    destruct (strip s); [discriminate |]. by injection Hc as <-. }
  split; [| reflexivity].
  intros c. unfold strip. apply rstrip_last.
Qed.

(** ** How many equipments a phase can hold *)

Lemma length_range a b : length (range a b) = Z.to_nat (b - a).
Proof. unfold range. apply length_seqZ. Qed.

Lemma nombre_equipo_trimmed py sheet fila :
  strip (nombre_equipo py sheet fila) = nombre_equipo py sheet fila.
Proof.
  unfold nombre_equipo, _safe_str.
  destruct (cell sheet "C" fila); first [reflexivity | apply strip_idemp].
Qed.

(** X2. A phase read from rows [fila_inicio .. fila_total - 1] holds at most
    as many equipments as there are rows (none when the range is empty);
    each of its records has a name that is trimmed, not empty and not
    ["TOTAL"]; the phase keeps its label. *)
Theorem leer_fase_acotada (py : Builtins) (sheet : Worksheet)
    (fase_label : string) (fila_inicio fila_total : Z) (fase : FaseData.t) :
  _leer_fase py sheet fase_label fila_inicio fila_total = Ok fase ->
  (length (FaseData.equipos fase) <= Z.to_nat (fila_total - fila_inicio))%nat
  /\ (fila_total <= fila_inicio -> FaseData.equipos fase = [])
  /\ Forall (fun eq =>
               EquipoData.equipo eq <> ""
               /\ EquipoData.equipo eq <> "TOTAL"
               /\ strip (EquipoData.equipo eq) = EquipoData.equipo eq)
            (FaseData.equipos fase)
  /\ FaseData.fase fase = fase_label.
Proof.
  intros H.
  pose proof (lee_Ok _ _ _ _ (lee_leer_fase py sheet fase_label fila_inicio fila_total) H)
    as ->.
  simpl. unfold equipos_de_hoja.
  split.
  { rewrite length_fmap, <- length_range. apply length_filter. }
  split.
  { intros Hle. unfold range. by rewrite seqZ_nil by lia. }
  split; [| reflexivity].
  apply Forall_fmap, Forall_forall. intros fila Hf.
  apply list_elem_of_filter in Hf as [[Hne Ht] _]. simpl.
  split; [exact Hne |]. split; [exact Ht | apply nombre_equipo_trimmed].
Qed.

Lemma leer_fase_acotada_witness :
  exists fase,
    _leer_fase Ejemplo.py Ejemplo.hoja "F09" 17 25 = Ok fase
    /\ (length (FaseData.equipos fase) <= 8)%nat.
Proof.
  eexists. split; [vm_compute; reflexivity |].
  apply (leer_fase_acotada Ejemplo.py Ejemplo.hoja "F09" 17 25 _
           ltac:(vm_compute; reflexivity)).
Defined.

Lemma length_bloque_fase dia l :
  length (bloque_fase dia l)
  = match DiaData.fases dia !! l with
    | Some fase => S (length (FaseData.equipos fase))
    | None => 0%nat
    end.
Proof.
  unfold bloque_fase. destruct (DiaData.fases dia !! l); [| reflexivity].
  rewrite length_app, length_fmap. simpl. lia.
Qed.

Lemma length_dia_a_filas dia :
  length (dia_a_filas dia)
  = S (length (bloque_fase dia "F12") + length (bloque_fase dia "F10")
       + length (bloque_fase dia "F09") + length (bloque_fase dia "F11")).
Proof.
  rewrite dia_a_filas_bloques, length_app.
  change (ORDEN_FASES ≫= bloque_fase dia)
    with (bloque_fase dia "F12" ++ bloque_fase dia "F10" ++ bloque_fase dia "F09"
          ++ bloque_fase dia "F11" ++ [])%list.
  rewrite !length_app. simpl. lia.
Qed.

Lemma fases_de_hoja_lookup py sheet :
  fases_de_hoja py sheet !! "F12" = Some (fase_de_hoja py sheet "F12" 6 9)
  /\ fases_de_hoja py sheet !! "F10" = Some (fase_de_hoja py sheet "F10" 11 15)
  /\ fases_de_hoja py sheet !! "F09" = Some (fase_de_hoja py sheet "F09" 17 25)
  /\ fases_de_hoja py sheet !! "F11" = Some (fase_de_hoja py sheet "F11" 27 31).
Proof. unfold fases_de_hoja. repeat split; by simplify_map_eq. Qed.

Lemma length_equipos_de_hoja py sheet a b :
  (length (equipos_de_hoja py sheet a b) <= Z.to_nat (b - a))%nat.
Proof.
  unfold equipos_de_hoja. rewrite length_fmap, <- length_range. apply length_filter.
Qed.

(** X3. A day read from a sheet has at most 3, 4, 8 and 4 equipments in
    F12, F10, F09 and F11; its equipment view has one row per equipment,
    four phase-total rows and one day-total row: between 5 and 24 rows. *)
Theorem leer_dia_filas (py : Builtins) (wb : Sheets) (nombre_hoja : string)
    (dia : DiaData.t) :
  leer_dia py wb nombre_hoja = Ok dia ->
  exists f12 f10 f09 f11,
    DiaData.fases dia !! "F12" = Some f12
    /\ DiaData.fases dia !! "F10" = Some f10
    /\ DiaData.fases dia !! "F09" = Some f09
    /\ DiaData.fases dia !! "F11" = Some f11
    /\ (length (FaseData.equipos f12) <= 3)%nat
    /\ (length (FaseData.equipos f10) <= 4)%nat
    /\ (length (FaseData.equipos f09) <= 8)%nat
    /\ (length (FaseData.equipos f11) <= 4)%nat
    /\ length (dia_a_filas dia)
       = (length (FaseData.equipos f12) + length (FaseData.equipos f10)
          + length (FaseData.equipos f09) + length (FaseData.equipos f11) + 5)%nat
    /\ (5 <= length (dia_a_filas dia) <= 24)%nat
    /\ length (filas_con "Tipo" "Total_Fase" (dia_a_filas dia)) = 4%nat.
Proof.
  intros H. destruct (leer_dia_Ok py _ _ _ H) as (sheet & _ & ->).
  destruct (fases_de_hoja_lookup py sheet) as (H12 & H10 & H09 & H11).
  pose proof (length_equipos_de_hoja py sheet 6 9) as L12.
  pose proof (length_equipos_de_hoja py sheet 11 15) as L10.
  pose proof (length_equipos_de_hoja py sheet 17 25) as L09.
  pose proof (length_equipos_de_hoja py sheet 27 31) as L11.
  change (Z.to_nat (9 - 6)) with 3%nat in L12.
  change (Z.to_nat (15 - 11)) with 4%nat in L10.
  change (Z.to_nat (25 - 17)) with 8%nat in L09.
  change (Z.to_nat (31 - 27)) with 4%nat in L11.
  eexists _, _, _, _. do 4 (split; [eassumption |]).
  cbn [FaseData.equipos fase_de_hoja].
  do 4 (split; [assumption |]).
  assert (Hlen : length (dia_a_filas (dia_de_hoja py sheet nombre_hoja))
    = (length (equipos_de_hoja py sheet 6 9) + length (equipos_de_hoja py sheet 11 15)
       + length (equipos_de_hoja py sheet 17 25)
       + length (equipos_de_hoja py sheet 27 31) + 5)%nat).
  { rewrite length_dia_a_filas, !length_bloque_fase.
    cbn [DiaData.fases dia_de_hoja]. rewrite H12, H10, H09, H11.
    cbn [FaseData.equipos fase_de_hoja]. lia. }
  split; [exact Hlen |]. split; [lia |].
  rewrite dia_a_filas_bloques.
  change (ORDEN_FASES ≫= bloque_fase (dia_de_hoja py sheet nombre_hoja))
    with (bloque_fase (dia_de_hoja py sheet nombre_hoja) "F12"
          ++ bloque_fase (dia_de_hoja py sheet nombre_hoja) "F10"
          ++ bloque_fase (dia_de_hoja py sheet nombre_hoja) "F09"
          ++ bloque_fase (dia_de_hoja py sheet nombre_hoja) "F11" ++ [])%list.
  unfold filas_con, bloque_fase. cbn [DiaData.fases dia_de_hoja].
  rewrite H12, H10, H09, H11. rewrite !filter_app.
  assert (Heq : forall fecha l (eqs : list EquipoData.t),
            filter (fun fila : Fila => fila_get fila "Tipo" (FStr "") = FStr "Total_Fase")
                   (fila_equipo fecha l <$> eqs) = []).
  { intros fecha l eqs. induction eqs as [| eq eqs IH]; [reflexivity |].
    rewrite fmap_cons, filter_cons_False by discriminate. exact IH. }
  rewrite !Heq. reflexivity.
Qed.

Lemma leer_dia_filas_witness :
  leer_dia Ejemplo.py Ejemplo.libro "15-01 "
  = Ok (dia_de_hoja Ejemplo.py Ejemplo.hoja "15-01 ")
  /\ (5 <= length (dia_a_filas (dia_de_hoja Ejemplo.py Ejemplo.hoja "15-01 ")) <= 24)%nat.
Proof.
  pose proof (leer_dia_en_rango Ejemplo.py Ejemplo.libro "15-01 " Ejemplo.hoja
                eq_refl Ejemplo_hoja_en_rango) as E.
  split; [exact E |].
  destruct (leer_dia_filas Ejemplo.py Ejemplo.libro "15-01 " _ E)
    as (f12 & f10 & f09 & f11 & _ & _ & _ & _ & _ & _ & _ & _ & _ & H & _).
  exact H.
Defined.

(** ** The cells that matter *)

Lemma for_each_ext {A S} (xs : list A) (f g : A -> S -> outcome S) (s : S) :
  (forall x s, x ∈ xs -> f x s = g x s) -> for_each xs f s = for_each xs g s.
Proof.
  revert s. induction xs as [| x xs IH]; intros s H; [reflexivity |].
  simpl. rewrite (H x s) by left.
  destruct (g x s) as [s' | e]; [| reflexivity].
  simpl. apply IH. intros y t Hy. apply H. by right.
Qed.

(** The rows of the ROC block, once the dict lookups are resolved. *)
Lemma leer_metros_roc_filas py sheet :
  _leer_metros_roc py sheet
  = (fase_9 ← _safe_float py (cell sheet "F" 38);
     fase_10 ← _safe_float py (cell sheet "F" 39);
     fase_11 ← _safe_float py (cell sheet "F" 40);
     fase_12 ← _safe_float py (cell sheet "F" 41);
     plan_diario ← _safe_float py (cell sheet "C" 42);
     turno_a ← _safe_float py (cell sheet "D" 42);
     turno_b ← _safe_float py (cell sheet "E" 42);
     total ← _safe_float py (cell sheet "F" 42);
     Ok {|
       MetrosRocData.fase_9 := fase_9;
       MetrosRocData.fase_10 := fase_10;
       MetrosRocData.fase_11 := fase_11;
       MetrosRocData.fase_12 := fase_12;
       MetrosRocData.plan_diario := plan_diario;
       MetrosRocData.turno_a := turno_a;
       MetrosRocData.turno_b := turno_b;
       MetrosRocData.total := total;
     |}).
Proof. reflexivity. Qed.

Section Frame.
Context (py : Builtins) (s1 s2 : Worksheet).

Lemma leer_equipo_ext fila :
  coinciden_en (celdas_fila COLUMNAS_EQUIPO fila) s1 s2 ->
  _leer_equipo py s1 fila = _leer_equipo py s2 fila.
Proof.
  intros H. unfold _leer_equipo.
  assert (Hc : forall col, col ∈ COLUMNAS_EQUIPO -> cell s1 col fila = cell s2 col fila).
  { intros col Hcol. apply H. unfold celdas_fila. apply list_elem_of_fmap. eauto. }
  rewrite (Hc "C"), (Hc "D"), (Hc "E"), (Hc "F"), (Hc "G"), (Hc "H"), (Hc "I"),
    (Hc "K"), (Hc "M"), (Hc "N")
    by (apply list_elem_of_In; simpl; tauto).
  reflexivity.
Qed.

Lemma leer_fase_ext fase_label fila_inicio fila_total :
  coinciden_en (range fila_inicio fila_total ≫= celdas_fila COLUMNAS_EQUIPO) s1 s2 ->
  coinciden_en (celdas_fila COLUMNAS_TOTAL fila_total) s1 s2 ->
  _leer_fase py s1 fase_label fila_inicio fila_total
  = _leer_fase py s2 fase_label fila_inicio fila_total.
Proof.
  intros He Ht. unfold _leer_fase.
  assert (Hc : forall col, col ∈ COLUMNAS_TOTAL ->
                           cell s1 col fila_total = cell s2 col fila_total).
  { intros col Hcol. apply Ht. unfold celdas_fila. apply list_elem_of_fmap. eauto. }
  rewrite (Hc "D"), (Hc "E"), (Hc "F"), (Hc "G"), (Hc "H"), (Hc "I"), (Hc "K")
    by (apply list_elem_of_In; simpl; tauto).
  f_equal. apply for_each_ext. intros fila equipos Hf.
  rewrite leer_equipo_ext; [reflexivity |].
  intros col fila' Hin. apply He. apply list_elem_of_bind. eauto.
Qed.

Lemma leer_dia_ext wb1 wb2 nombre_hoja :
  getitem wb1 nombre_hoja = Ok s1 ->
  getitem wb2 nombre_hoja = Ok s2 ->
  coinciden_en celdas_leidas s1 s2 ->
  leer_dia py wb1 nombre_hoja = leer_dia py wb2 nombre_hoja.
Proof.
  intros H1 H2 H. unfold leer_dia. rewrite H1, H2, !bind_Ok.
  assert (Hfases : forall l a b, (l, a, b) ∈ SECCIONES_FASES ->
            _leer_fase py s1 l a b = _leer_fase py s2 l a b).
  { intros l a b Hl. apply leer_fase_ext.
    - intros col fila Hin. apply H. unfold celdas_leidas.
      apply elem_of_app. left. apply list_elem_of_bind. exists (l, a, b).
      split; [| exact Hl]. apply elem_of_app. by left.
    - intros col fila Hin. apply H. unfold celdas_leidas.
      apply elem_of_app. left. apply list_elem_of_bind. exists (l, a, b).
      split; [| exact Hl]. apply elem_of_app. by right. }
  assert (Hc : forall col fila,
            (col, fila) ∈ (celdas_fila COLUMNAS_TOTAL FILA_TOTAL_METROS
                           ++ [ ("F", 38); ("F", 39); ("F", 40); ("F", 41);
                                ("C", 42); ("D", 42); ("E", 42); ("F", 42) ])%list ->
            cell s1 col fila = cell s2 col fila).
  { intros col fila Hin. apply H. unfold celdas_leidas. apply elem_of_app. by right. }
  unfold FILA_TOTAL_METROS. rewrite !leer_metros_roc_filas.
  rewrite (Hc "D" 34), (Hc "E" 34), (Hc "F" 34), (Hc "G" 34), (Hc "H" 34),
    (Hc "I" 34), (Hc "K" 34), (Hc "F" 38), (Hc "F" 39), (Hc "F" 40), (Hc "F" 41),
    (Hc "C" 42), (Hc "D" 42), (Hc "E" 42), (Hc "F" 42)
    by (apply list_elem_of_In; simpl; tauto).
  f_equal. apply for_each_ext. intros [[l a] b] fases Hl.
  by rewrite Hfases.
Qed.

End Frame.

Lemma cell_insert_ne (sheet : gmap (string * Z) value) col fila v col' fila' :
  (col, fila) <> (col', fila') ->
  cell (<[(col, fila) := v]> sheet) col' fila' = cell sheet col' fila'.
Proof.
  intros Hne. unfold cell. f_equal.
  exact (lookup_insert_ne (M := gmap (string * Z)) sheet _ _ v Hne).
Qed.

(** X4. What [leer_dia] returns depends only on the 233 cells of the fixed
    layout: two sheets that agree on them are read to the same outcome, and
    writing any value into a cell outside the layout (column J or L, a
    spacer row, a row below 42) changes nothing. *)
Theorem leer_dia_celdas (py : Builtins) (nombre_hoja : string) (s1 s2 : Worksheet) :
  length celdas_leidas = 233%nat
  /\ (coinciden_en celdas_leidas s1 s2 ->
      leer_dia py [(nombre_hoja, s1)] nombre_hoja
      = leer_dia py [(nombre_hoja, s2)] nombre_hoja)
  /\ (forall col fila v,
        (col, fila) ∉ celdas_leidas ->
        leer_dia py [(nombre_hoja, <[(col, fila) := v]> s1)] nombre_hoja
        = leer_dia py [(nombre_hoja, s1)] nombre_hoja)
  /\ (forall fila, (("J", fila) ∉ celdas_leidas) /\ (("L", fila) ∉ celdas_leidas))
  /\ (forall col fila,
        (col, fila) ∈ celdas_leidas ->
        6 <= fila <= 42 /\ fila <> 10 /\ fila <> 16 /\ fila <> 26
        /\ fila <> 32 /\ fila <> 33 /\ fila <> 35 /\ fila <> 36 /\ fila <> 37).
Proof.
  assert (Hget : forall s : Worksheet, getitem [(nombre_hoja, s)] nombre_hoja = Ok s).
  { intros s. simpl. by rewrite String.eqb_refl. }
  split; [vm_compute; reflexivity |].
  split; [intros H; by apply (leer_dia_ext py s1 s2) |].
  split.
  { intros col fila v Hout.
    apply (leer_dia_ext py (<[(col, fila) := v]> s1) s1); [apply Hget .. |].
    intros col' fila' Hin. apply cell_insert_ne. congruence. }
  split.
  { intros fila. split; intros Hin; apply list_elem_of_In in Hin;
      vm_compute in Hin; repeat (destruct Hin as [Hin | Hin]; [discriminate |]);
      exact Hin. }
  intros col fila Hin. apply list_elem_of_In in Hin. vm_compute in Hin.
  repeat (destruct Hin as [Hin | Hin]; [injection Hin as _ <-; lia |]).
  destruct Hin.
Qed.

(** ** A sheet that is not there *)

Lemma getitem_sin_hoja sheets nombre_hoja :
  nombre_hoja ∉ sheetnames sheets ->
  getitem sheets nombre_hoja = Raise (KeyError nombre_hoja).
Proof.
  unfold sheetnames. induction sheets as [| [n sh] sheets IH]; intros H; [reflexivity |].
  simpl. destruct (String.eqb_spec n nombre_hoja) as [-> | Hne].
  - exfalso. apply H. simpl. left.
  - apply IH. intros Hin. apply H. simpl. by right.
Qed.

(** X5. [leer_dia] looks the sheet up by its exact name: on a name that no
    sheet has (were it only for a trailing blank) it raises [KeyError] with
    that name; the date of a day it returns is the trimmed name asked for. *)
Theorem leer_dia_nombre (py : Builtins) (wb : Sheets) (nombre_hoja : string) :
  (nombre_hoja ∉ sheetnames wb ->
   leer_dia py wb nombre_hoja = Raise (KeyError nombre_hoja))
  /\ (forall dia,
        leer_dia py wb nombre_hoja = Ok dia ->
        nombre_hoja ∈ sheetnames wb
        /\ DiaData.fecha dia = strip nombre_hoja
        /\ strip (DiaData.fecha dia) = DiaData.fecha dia).
Proof.
  split.
  - intros H. unfold leer_dia. by rewrite (getitem_sin_hoja wb nombre_hoja H).
  - intros dia H. destruct (leer_dia_Ok py _ _ _ H) as (sheet & Hg & ->).
    split.
    + destruct (decide (nombre_hoja ∈ sheetnames wb)) as [Hin | Hout]; [exact Hin |].
      rewrite (getitem_sin_hoja wb nombre_hoja Hout) in Hg. discriminate.
    + split; [reflexivity | apply strip_idemp].
Qed.

Example leer_dia_nombre_sin_blanco :
  leer_dia Ejemplo.py Ejemplo.libro "15-01" = Raise (KeyError "15-01").
Proof. reflexivity. Qed.

(** ** The whole workbook *)

Section BulkFacts.
Context (py : Builtins) (sheets : Sheets).
Hypothesis Hrango : libro_en_rango sheets.

Lemma leer_dia_libro_en_rango nombre :
  nombre ∈ sheetnames sheets ->
  exists sheet,
    getitem sheets nombre = Ok sheet
    /\ leer_dia py sheets nombre = Ok (dia_de_hoja py sheet nombre).
Proof.
  intros Hin. destruct (getitem_sheetnames sheets nombre Hin) as (sheet & Hg & Hs).
  exists sheet. split; [exact Hg |].
  apply leer_dia_en_rango; [exact Hg | by eapply Hrango].
Qed.

Lemma cargar_loop hojas (dias0 : gmap string DiaData.t) :
  (forall n, n ∈ hojas -> n ∈ sheetnames sheets) ->
  exists dias,
    for_each hojas
      (fun nombre (dias : gmap string DiaData.t) =>
         dia ← leer_dia py sheets nombre;
         Ok (<[strip nombre := dia]> dias)) dias0 = Ok dias
    /\ dom dias = dom dias0 ∪ list_to_set (strip <$> hojas)
    /\ (forall k dia,
          dias !! k = Some dia ->
          dias0 !! k = Some dia
          \/ exists n sheet,
               n ∈ hojas /\ strip n = k /\ getitem sheets n = Ok sheet
               /\ dia = dia_de_hoja py sheet n)
    /\ (forall pre n post sheet,
          hojas = (pre ++ n :: post)%list ->
          (forall m, m ∈ post -> strip m <> strip n) ->
          getitem sheets n = Ok sheet ->
          dias !! strip n = Some (dia_de_hoja py sheet n)).
Proof.
  revert dias0. induction hojas as [| nombre hojas IH]; intros dias0 Hin.
  - exists dias0. split; [reflexivity |]. split.
    { simpl. by rewrite (right_id_L ∅ (∪)). }
    split; [auto |].
    intros pre n post sheet H. by destruct pre.
  - destruct (leer_dia_libro_en_rango nombre) as (sheet & Hg & Hleer); [apply Hin; left |].
    destruct (IH (<[strip nombre := dia_de_hoja py sheet nombre]> dias0))
      as (dias & Hrun & Hdom & Hval & Hlast).
    { intros n Hn. apply Hin. by right. }
    exists dias. split; [| split; [| split]].
    + cbn [for_each]. by rewrite Hleer, !bind_Ok.
    + rewrite Hdom, dom_insert_L. simpl.
      by rewrite (comm_L (∪) {[strip nombre]} (dom dias0)), <- (assoc_L (∪)).
    + intros k dia Hk. destruct (Hval k dia Hk) as [H0 | (n & sh & Hn & Hs & Hgn & ->)].
      * destruct (decide (strip nombre = k)) as [<- | Hne].
        -- rewrite lookup_insert_eq in H0. injection H0 as <-.
           right. exists nombre, sheet. split; [left | done].
        -- rewrite lookup_insert_ne in H0 by done. by left.
      * right. exists n, sh. split; [by right | done].
    + intros pre n post sh Heq Hpost Hgn.
      destruct pre as [| p pre]; simpl in Heq; injection Heq as -> ->.
      * assert (sh = sheet) as -> by congruence.
        destruct (dias !! strip n) as [dia |] eqn:E.
        -- destruct (Hval _ _ E) as [H0 | (m & sh & Hm & Hs & _)].
           ++ by rewrite lookup_insert_eq in H0.
           ++ exfalso. by apply (Hpost m Hm).
        -- exfalso. apply not_elem_of_dom in E. apply E. rewrite Hdom, dom_insert_L.
           apply elem_of_union. left. apply elem_of_union. left.
           by apply elem_of_singleton.
      * by apply (Hlast pre n post sh).
Qed.

End BulkFacts.

Lemma size_list_to_set_le (l : list string) :
  (size (list_to_set l : gset string) <= length l)%nat.
Proof.
  induction l as [| x l IH].
  - by rewrite list_to_set_nil, size_empty.
  - rewrite list_to_set_cons, size_union_alt, size_singleton. cbn [length].
    pose proof (subseteq_size (list_to_set l ∖ {[x]} : gset string) (list_to_set l)
                  ltac:(apply subseteq_difference_l; reflexivity)).
    lia.
Qed.

Lemma hojas_de_fecha_sheetnames sheets n :
  n ∈ hojas_de_fecha sheets -> n ∈ sheetnames sheets /\ strip n ∉ HOJAS_EXCLUIDAS.
Proof. unfold hojas_de_fecha. rewrite list_elem_of_filter. tauto. Qed.

(** X6. Loading the whole workbook (its integer cells in range) returns,
    with the handle closed: the trimmed names of the sheets that are not
    excluded, in the order of the workbook; their count; and the days under
    exactly those names. No key is ["Datos"] or ["Patios"]; the day under
    a key has that key as its date and is the whole record of a sheet
    whose trimmed name is the key - the last such sheet, when several
    names differ only by blanks, so there can be fewer days than sheets
    counted. *)
Theorem cargar_excel_spec (py : Builtins) (ruta : string) (w : World)
    (sheets : Sheets) :
  disk w !! ruta = Some sheets ->
  libro_en_rango sheets ->
  exists r,
    cargar_excel py ruta w = (Ok r, con_handles (handles w ++ [false]) w)
    /\ hojas_fecha r = strip <$> hojas_de_fecha sheets
    /\ total_hojas r = length (hojas_de_fecha sheets)
    /\ dom (dias r) = list_to_set (hojas_fecha r)
    /\ ("Datos" ∉ dom (dias r)) /\ ("Patios" ∉ dom (dias r))
    /\ (size (dias r) <= total_hojas r)%nat
    /\ (forall k dia,
          dias r !! k = Some dia ->
          DiaData.fecha dia = k
          /\ exists n sheet,
               n ∈ hojas_de_fecha sheets /\ strip n = k
               /\ getitem sheets n = Ok sheet
               /\ dia = dia_de_hoja py sheet n)
    /\ (forall pre n post sheet,
          hojas_de_fecha sheets = (pre ++ n :: post)%list ->
          (forall m, m ∈ post -> strip m <> strip n) ->
          getitem sheets n = Ok sheet ->
          dias r !! strip n = Some (dia_de_hoja py sheet n)).
Proof.
  intros Hd Hr.
  destruct (cargar_loop py sheets Hr (hojas_de_fecha sheets) ∅)
    as (ds & Hrun & Hdom & Hval & Hlast).
  { intros n Hn. by apply hojas_de_fecha_sheetnames in Hn as [? _]. }
  rewrite dom_empty_L, (left_id_L ∅ (∪)) in Hdom.
  pose proof (cargar_excel_eval py ruta w sheets Hd) as E. cbv zeta in E.
  fold (hojas_de_fecha sheets) in E. rewrite Hrun in E.
  eexists. split; [exact E |]. cbn [dias hojas_fecha total_hojas].
  split; [reflexivity |]. split; [reflexivity |]. split; [exact Hdom |].
  assert (Hex : forall k, k ∈ dom ds -> k ∉ HOJAS_EXCLUIDAS).
  { intros k Hk. rewrite Hdom in Hk. apply elem_of_list_to_set in Hk.
    apply list_elem_of_fmap in Hk as (n & -> & Hn).
    by apply hojas_de_fecha_sheetnames in Hn as [_ ?]. }
  split.
  { intros H. apply (Hex _ H). unfold HOJAS_EXCLUIDAS.
    apply elem_of_union. left. by apply elem_of_singleton. }
  split.
  { intros H. apply (Hex _ H). unfold HOJAS_EXCLUIDAS.
    apply elem_of_union. right. by apply elem_of_singleton. }
  split.
  { rewrite <- size_dom, Hdom, <- (length_fmap strip). apply size_list_to_set_le. }
  split; [| exact Hlast].
  intros k dia Hk. destruct (Hval k dia Hk) as [H0 | (n & sh & Hn & Hs & Hg & ->)].
  - by rewrite lookup_empty in H0.
  - split; [exact Hs |]. by exists n, sh.
Qed.

(** ** No document *)

Lemma cargar_excel_sin_documento py ruta w :
  disk w !! ruta = None ->
  cargar_excel py ruta w = (Raise (FileNotFoundError ruta), w).
Proof.
  intros Hd. unfold cargar_excel. rewrite io_bind. unfold load_workbook.
  by rewrite Hd.
Qed.

(** X7. Without the document nothing is read: both loaders raise
    [FileNotFoundError] and leave the world as it was (no handle is opened);
    the command, with or without dates, prints its first line and ends
    with that exception, so with a non-zero status and no file written. *)
Theorem sin_documento (py : Builtins) (w : World) (fecha ruta : string)
    (argv : list string) :
  (disk w !! ruta = None ->
   cargar_excel py ruta w = (Raise (FileNotFoundError ruta), w)
   /\ obtener_dia py fecha ruta w = (Raise (FileNotFoundError ruta), w))
  /\ (disk w !! EXCEL_PATH = None ->
      main py argv w
      = (Raise (FileNotFoundError EXCEL_PATH),
         con_stdout (stdout w ++ ["Leyendo Excel: " +:+ EXCEL_PATH]) w)
      /\ exit_status (main py argv w).1 = 1
      /\ files (main py argv w).2 = files w).
Proof.
  split.
  - intros Hd. split;
      [by apply cargar_excel_sin_documento | by apply obtener_dia_sin_documento].
  - intros Hd.
    assert (Hmain : main py argv w
                    = (Raise (FileNotFoundError EXCEL_PATH),
                       con_stdout (stdout w ++ ["Leyendo Excel: " +:+ EXCEL_PATH]) w)).
    { unfold main. destruct (parse_output (drop 1 argv)) as [output_base args].
      rewrite io_bind. unfold print at 1.
      destruct (filter (fun a => String.prefix "--" a = false) args) as [| f fs].
      - rewrite io_bind, io_bind, cargar_excel_sin_documento by exact Hd. reflexivity.
      - rewrite io_bind. unfold cargar_fechas. cbn [for_each_io].
        rewrite io_bind, io_bind, obtener_dia_sin_documento by exact Hd. reflexivity. }
    rewrite Hmain. repeat split.
Qed.

(** ** The [--output] option *)

Lemma index_first (pre : list string) x rest :
  x ∉ pre -> index (pre ++ x :: rest) x = length pre.
Proof.
  induction pre as [| p pre IH]; intros H; simpl.
  - by rewrite String.eqb_refl.
  - destruct (String.eqb_spec p x) as [-> | Hne].
    + exfalso. apply H. left.
    + rewrite IH; [reflexivity |]. intros Hin. apply H. by right.
Qed.

Lemma primera_aparicion (x : string) (args : list string) :
  x ∈ args -> exists pre post, args = (pre ++ x :: post)%list /\ x ∉ pre.
Proof.
  induction args as [| a args IH]; intros H; [by apply elem_of_nil in H |].
  destruct (decide (a = x)) as [-> | Hne].
  - exists [], args. split; [reflexivity | apply not_elem_of_nil].
  - apply elem_of_cons in H as [-> | H]; [done |].
    destruct (IH H) as (pre & post & -> & Hpre).
    exists (a :: pre), post. split; [reflexivity |].
    intros Hin. apply elem_of_cons in Hin as [-> | Hin]; [done | by apply Hpre].
Qed.

(** X8. The option is taken at its first occurrence only: without it the
    base name is ["kpi"] and the arguments are kept; followed by a value,
    that value (whatever it is) is the base name and the two are removed
    from the arguments, the rest staying in order; as the last argument it
    is dropped and the base name stays ["kpi"]. Every argument list is in
    one of these three cases, and no argument is ever added. *)
Theorem parse_output_spec (args : list string) :
  ("--output" ∉ args -> parse_output args = ("kpi", args))
  /\ (forall pre v post,
        args = (pre ++ "--output" :: v :: post)%list -> "--output" ∉ pre ->
        parse_output args = (v, (pre ++ post)%list))
  /\ (forall pre,
        args = (pre ++ ["--output"])%list -> "--output" ∉ pre ->
        parse_output args = ("kpi", pre))
  /\ ("--output" ∉ args
      \/ (exists pre v post,
            args = (pre ++ "--output" :: v :: post)%list /\ "--output" ∉ pre)
      \/ (exists pre, args = (pre ++ ["--output"])%list /\ "--output" ∉ pre))
  /\ (parse_output args).2 `sublist_of` args.
Proof.
  assert (H1 : "--output" ∉ args -> parse_output args = ("kpi", args))
    by apply parse_output_sin_opcion.
  assert (H2 : forall pre v post,
             args = (pre ++ "--output" :: v :: post)%list -> "--output" ∉ pre ->
             parse_output args = (v, (pre ++ post)%list)).
  { intros pre v post -> Hpre. unfold parse_output.
    rewrite bool_decide_eq_true_2
      by (apply elem_of_app; right; left).
    rewrite index_first by exact Hpre.
    rewrite lookup_app_r by lia.
    replace (length pre + 1 - length pre)%nat with 1%nat by lia. cbn [lookup list_lookup].
    rewrite take_app_length.
    rewrite drop_app_add'; [reflexivity | reflexivity]. }
  assert (H3 : forall pre,
             args = (pre ++ ["--output"])%list -> "--output" ∉ pre ->
             parse_output args = ("kpi", pre)).
  { intros pre -> Hpre. unfold parse_output.
    rewrite bool_decide_eq_true_2
      by (apply elem_of_app; right; left).
    rewrite index_first by exact Hpre.
    rewrite lookup_ge_None_2 by (rewrite length_app; simpl; lia).
    by rewrite take_app_length. }
  assert (H4 : "--output" ∉ args
      \/ (exists pre v post,
            args = (pre ++ "--output" :: v :: post)%list /\ "--output" ∉ pre)
      \/ (exists pre, args = (pre ++ ["--output"])%list /\ "--output" ∉ pre)).
  { destruct (decide ("--output" ∈ args)) as [Hin | Hout]; [| by left].
    right. destruct (primera_aparicion _ _ Hin) as (pre & post & -> & Hpre).
    destruct post as [| v post]; [right | left]; eauto 6. }
  split; [exact H1 |]. split; [exact H2 |]. split; [exact H3 |]. split; [exact H4 |].
  destruct H4 as [Hout | [(pre & v & post & Heq & Hpre) | (pre & Heq & Hpre)]].
  - by rewrite H1.
  - rewrite (H2 _ _ _ Heq Hpre), Heq. cbn [snd].
    apply sublist_app; [reflexivity |]. by do 2 apply sublist_cons.
  - rewrite (H3 _ Heq Hpre), Heq. cbn [snd]. apply sublist_inserts_r. reflexivity.
Qed.

Example parse_output_dos_veces :
  parse_output ["15-01"; "--output"; "a"; "--output"; "b"]
  = ("a", ["15-01"; "--output"; "b"])
  /\ fechas_de ["dashboard_csv.py"; "15-01"; "--output"; "a"; "--output"; "b"]
     = ["15-01"; "b"].
Proof. split; reflexivity. Qed.

(** ** The three files *)

Lemma append_assoc (a b c : string) : (a +:+ b) +:+ c = a +:+ (b +:+ c).
Proof.
  induction a as [| x a IH]; [reflexivity |].
  change (String x ((a +:+ b) +:+ c) = String x (a +:+ (b +:+ c))). by f_equal.
Qed.

Lemma append_inj (a b c : string) : a +:+ b = a +:+ c -> b = c.
Proof.
  induction a as [| x a IH]; [exact (fun H => H) |].
  change (String x (a +:+ b) = String x (a +:+ c) -> b = c).
  intros [= H]. by apply IH.
Qed.

(** The names of the three files differ, whatever the base name. *)
Lemma nombres_distintos (base : string) :
  (base +:+ "_resumen_diario") +:+ ".csv" <> (base +:+ "_metros") +:+ ".csv"
  /\ (base +:+ "_roc") +:+ ".csv" <> (base +:+ "_metros") +:+ ".csv"
  /\ (base +:+ "_resumen_diario") +:+ ".csv" <> (base +:+ "_roc") +:+ ".csv".
Proof.
  rewrite !append_assoc.
  repeat split; intros H; apply append_inj in H; discriminate.
Qed.

(** The three exports in sequence, with a day or more: each opens its
    file, writes it and reports it; the first file that cannot be opened
    ends the sequence with the exception of [open]. *)
Lemma exportar_eval dias output_base w :
  dias <> ∅ ->
  exists fm fr fs,
    todas_filas_metros dias = Ok fm
    /\ todas_filas_roc dias = Ok fr
    /\ filas_resumen dias = Ok fs
    /\ let m := (output_base +:+ "_metros") +:+ ".csv" in
       let r := (output_base +:+ "_roc") +:+ ".csv" in
       let s := (output_base +:+ "_resumen_diario") +:+ ".csv" in
       let w1 :=
         con_stdout
           (stdout w ++ ["  Metros exportados: " +:+ m +:+ " ("
                         +:+ pretty (length fm) +:+ " filas)"])
           (con_files (<[m := archivo_csv COLUMNAS_METROS fm]> (files w)) w) in
       let w2 :=
         con_stdout
           (stdout w1 ++ ["  ROC exportados:   " +:+ r +:+ " ("
                          +:+ pretty (length fr) +:+ " filas)"])
           (con_files (<[r := archivo_csv COLUMNAS_ROC fr]> (files w1)) w1) in
       let w3 :=
         con_stdout
           (stdout w2 ++ ["  Resumen diario:   " +:+ s +:+ " ("
                          +:+ pretty (length fs) +:+ " filas)"])
           (con_files (<[s := archivo_csv COLUMNAS_RESUMEN fs]> (files w2)) w2) in
       exportar dias output_base w
       = match unwritable w !! m with
         | Some err => (Raise (open_exn err m), w)
         | None =>
           match unwritable w !! r with
           | Some err => (Raise (open_exn err r), w1)
           | None =>
             match unwritable w !! s with
             | Some err => (Raise (open_exn err s), w2)
             | None => (Ok [m; r; s], w3)
             end
           end
         end.
Proof.
  intros Hne.
  destruct (todas_filas_metros_spec dias) as (dm & _ & Hfm).
  destruct (todas_filas_roc_spec dias) as (dr & _ & Hfr).
  destruct (filas_resumen_spec dias) as (ds & _ & Hfs).
  eexists _, _, _. split; [exact Hfm |]. split; [exact Hfr |]. split; [exact Hfs |].
  cbv zeta. unfold exportar. rewrite io_bind.
  destruct (unwritable w !! ((output_base +:+ "_metros") +:+ ".csv"))
    as [err |] eqn:Hm.
  { by rewrite (exportar_metros_csv_bloqueado dias _ w err Hne Hm). }
  destruct (exportar_metros_csv_ok dias (output_base +:+ "_metros") w Hne Hm)
    as (fm & Hfm' & H1).
  rewrite Hfm in Hfm'. injection Hfm' as <-.
  rewrite H1. cbv beta iota. rewrite io_bind.
  destruct (unwritable w !! ((output_base +:+ "_roc") +:+ ".csv"))
    as [err |] eqn:Hr.
  { match goal with |- context [exportar_roc_csv _ _ ?w1] =>
      by rewrite (exportar_roc_csv_bloqueado dias _ w1 err Hne Hr) end. }
  match goal with |- context [exportar_roc_csv _ _ ?w1] =>
    destruct (exportar_roc_csv_ok dias (output_base +:+ "_roc") w1 Hne Hr)
      as (fr & Hfr' & H2) end.
  rewrite Hfr in Hfr'. injection Hfr' as <-.
  rewrite H2. cbv beta iota. rewrite io_bind.
  destruct (unwritable w !! ((output_base +:+ "_resumen_diario") +:+ ".csv"))
    as [err |] eqn:Hs.
  { match goal with |- context [exportar_resumen_diario_csv _ _ ?w2] =>
      by rewrite (exportar_resumen_diario_csv_bloqueado dias _ w2 err Hne Hs) end. }
  match goal with |- context [exportar_resumen_diario_csv _ _ ?w2] =>
    destruct (exportar_resumen_diario_csv_ok dias
                (output_base +:+ "_resumen_diario") w2 Hne Hs)
      as (fs & Hfs' & H3) end.
  rewrite Hfs in Hfs'. injection Hfs' as <-.
  rewrite H3. reflexivity.
Qed.

Lemma escribibles_archivos_de w output_base :
  escribibles w (archivos_de output_base)
  <-> unwritable w !! ((output_base +:+ "_metros") +:+ ".csv") = None
      /\ unwritable w !! ((output_base +:+ "_roc") +:+ ".csv") = None
      /\ unwritable w !! ((output_base +:+ "_resumen_diario") +:+ ".csv") = None.
Proof.
  unfold escribibles, archivos_de. rewrite !Forall_cons, Forall_nil. tauto.
Qed.

Lemma insert_tres_veces {A} (k1 k2 k3 : string) (a b c : A) (m : gmap string A) :
  <[k3 := c]> (<[k2 := b]> (<[k1 := a]> (<[k3 := c]> (<[k2 := b]> (<[k1 := a]> m)))))
  = <[k3 := c]> (<[k2 := b]> (<[k1 := a]> m)).
Proof.
  apply map_eq. intros k. rewrite !lookup_insert.
  repeat case_decide; reflexivity.
Qed.


(** X9. The three exports raise nothing of their own, whatever the days
    hold: no key is missing when a day is looked up and no row has a key
    outside its columns. Their only exception is the one [open] raises on
    the first of their three files that cannot be opened, which happens
    only with a day to export and leaves that file, every file other than
    the three, the documents and the handles as they were. When there is
    no day, or the three files can be opened, they return: they have
    written exactly the three files (none for no day), named from the base
    name, and run again on the same days they leave the files as they
    are. *)
Theorem exportar_spec (dias : gmap string DiaData.t) (output_base : string)
    (w : World) :
  (dias = ∅ \/ escribibles w (archivos_de output_base) ->
   exists archivos w1 w2,
     exportar dias output_base w = (Ok archivos, w1)
     /\ exportar dias output_base w1 = (Ok archivos, w2)
     /\ archivos = (if decide (dias = ∅) then [] else archivos_de output_base)
     /\ dom (files w1) = dom (files w) ∪ list_to_set archivos
     /\ files w2 = files w1
     /\ (forall otro, otro ∉ archivos -> files w1 !! otro = files w !! otro)
     /\ disk w1 = disk w /\ handles w1 = handles w)
  /\ (forall e w1,
        exportar dias output_base w = (Raise e, w1) ->
        dias <> ∅
        /\ (exists archivo err,
              archivo ∈ archivos_de output_base
              /\ unwritable w !! archivo = Some err
              /\ e = open_exn err archivo
              /\ files w1 !! archivo = files w !! archivo)
        /\ (forall otro, otro ∉ archivos_de output_base ->
                         files w1 !! otro = files w !! otro)
        /\ disk w1 = disk w /\ handles w1 = handles w)
  /\ (dias <> ∅ -> ~ escribibles w (archivos_de output_base) ->
      exists e w1, exportar dias output_base w = (Raise e, w1)).
Proof.
  destruct (decide (dias = ∅)) as [-> | Hne].
  { split; [| split].
    - intros _. eexists [], _, _. rewrite !exportar_vacio.
      split; [reflexivity |]. split; [reflexivity |]. split; [reflexivity |].
      cbn. rewrite (right_id_L ∅ (∪)). repeat split; reflexivity.
    - intros e w1 H. rewrite exportar_vacio in H. discriminate.
    - done. }
  destruct (exportar_eval dias output_base w Hne)
    as (fm & fr & fs & Hfm & Hfr & Hfs & H1). cbv zeta in H1.
  destruct (nombres_distintos output_base) as (Hsm & Hrm & Hsr).
  pose proof (escribibles_archivos_de w output_base) as Hesc.
  unfold archivos_de in *.
  destruct (unwritable w !! ((output_base +:+ "_metros") +:+ ".csv"))
    as [em |] eqn:Hm.
  { split; [| split].
    - intros [? | He]; [done |]. apply Hesc in He as (He & _). discriminate.
    - intros e w1 H. rewrite H1 in H. injection H as <- <-.
      split; [exact Hne |]. split; [| by repeat split].
      eexists _, em. split; [left |]. by repeat split.
    - intros _ _. by eexists _, _. }
  destruct (unwritable w !! ((output_base +:+ "_roc") +:+ ".csv"))
    as [er |] eqn:Hr.
  { split; [| split].
    - intros [? | He]; [done |]. apply Hesc in He as (_ & He & _). discriminate.
    - intros e w1 H. rewrite H1 in H. injection H as <- <-.
      split; [exact Hne |]. cbn [files disk handles con_stdout con_files].
      split; [| split; [| by split]].
      + eexists _, er. split; [right; left |]. split; [exact Hr |].
        split; [reflexivity |]. by rewrite lookup_insert_ne by (by apply not_eq_sym).
      + intros otro Hout. rewrite !elem_of_cons, elem_of_nil in Hout.
        rewrite lookup_insert_ne; [reflexivity | intros <-; tauto].
    - intros _ _. by eexists _, _. }
  destruct (unwritable w !! ((output_base +:+ "_resumen_diario") +:+ ".csv"))
    as [es |] eqn:Hs.
  { split; [| split].
    - intros [? | He]; [done |]. apply Hesc in He as (_ & _ & He). discriminate.
    - intros e w1 H. rewrite H1 in H. injection H as <- <-.
      split; [exact Hne |]. cbn [files disk handles con_stdout con_files].
      split; [| split; [| by split]].
      + eexists _, es. split; [right; right; left |]. split; [exact Hs |].
        split; [reflexivity |]. by rewrite !lookup_insert_ne.
      + intros otro Hout. rewrite !elem_of_cons, elem_of_nil in Hout.
        rewrite !lookup_insert_ne; [reflexivity | intros <-; tauto ..].
    - intros _ _. by eexists _, _. }
  split; [| split].
  - intros _.
    match type of H1 with _ = (_, ?w1) =>
      destruct (exportar_eval dias output_base w1 Hne)
        as (fm' & fr' & fs' & Hfm' & Hfr' & Hfs' & H2) end.
    cbv zeta in H2. cbn [unwritable con_stdout con_files] in H2.
    rewrite Hm, Hr, Hs in H2.
    assert (fm' = fm) as -> by congruence.
    assert (fr' = fr) as -> by congruence.
    assert (fs' = fs) as -> by congruence.
    eexists _, _, _. split; [exact H1 |]. split; [exact H2 |].
    split; [reflexivity |]. cbn [files disk handles con_stdout con_files].
    split.
    { rewrite !dom_insert_L. apply set_eq. intros x.
      rewrite !list_to_set_cons, list_to_set_nil.
      rewrite !elem_of_union, !elem_of_singleton, elem_of_empty. tauto. }
    split; [apply insert_tres_veces |].
    split; [| split; reflexivity].
    intros otro Hout. rewrite !elem_of_cons, elem_of_nil in Hout.
    rewrite !lookup_insert_ne; [reflexivity | intros <-; tauto ..].
  - intros e w1 H. rewrite H1 in H. discriminate.
  - intros _ Hno. exfalso. apply Hno, Hesc. by repeat split.
Qed.

Lemma exportar_spec_witness :
  exists archivos w1,
    exportar {[ "15-01" := dia_de_hoja Ejemplo.py Ejemplo.hoja "15-01 " ]} "kpi"
      Ejemplo.mundo = (Ok archivos, w1)
    /\ archivos = [ "kpi_metros.csv"; "kpi_roc.csv"; "kpi_resumen_diario.csv" ].
Proof.
  destruct (exportar_spec {[ "15-01" := dia_de_hoja Ejemplo.py Ejemplo.hoja "15-01 " ]}
              "kpi" Ejemplo.mundo) as [H _].
  destruct H as (archivos & w1 & w2 & H1 & _ & Ha & _).
  { right. apply Ejemplo_escribibles. }
  exists archivos, w1. split; [exact H1 |].
  rewrite Ha. rewrite decide_False; [reflexivity |].
  apply insert_non_empty.
Defined.

(** ** The ROC view *)


Lemma Forall2_length_keys (dias : gmap string DiaData.t) ds :
  Forall2 (fun k dia => dias !! k = Some dia) (sorted_keys dias) ds ->
  length ds = size dias.
Proof.
  intros H. apply Forall2_length in H. by rewrite <- H, length_sorted_keys.
Qed.


(** ** The daily summary *)

Lemma agregar_fase_alt dia fila fase_label :
  agregar_fase dia fila fase_label
  = fila_set
      (fila_set
         (fila_set fila (fase_label +:+ "_Total")
            (FNum (from_option FaseData.total Float.zero
                     (DiaData.fases dia !! fase_label))))
         (fase_label +:+ "_Plan")
         (FNum (from_option FaseData.plan Float.zero
                  (DiaData.fases dia !! fase_label))))
      (fase_label +:+ "_Cump_%")
      (FNum (from_option (fun f => porcentaje (FaseData.cumplimiento_diario f))
               Float.zero (DiaData.fases dia !! fase_label))).
Proof.
  unfold agregar_fase. by destruct (DiaData.fases dia !! fase_label).
Qed.

(** X11. The daily summary has one row per day, in ascending key order.
    Whatever phases a day has, its row has the same twenty keys in the same
    order, without repeats, so the header taken from the first row fits
    every row; the three columns of a phase hold its total, its plan and
    its compliance as a percentage, or 0.0 three times when the day lacks
    the phase. *)
Theorem vista_resumen (dias : gmap string DiaData.t) :
  (exists ds,
     Forall2 (fun fecha dia => dias !! fecha = Some dia) (sorted_keys dias) ds
     /\ filas_resumen dias = Ok (fila_resumen <$> ds)
     /\ length (fila_resumen <$> ds) = size dias)
  /\ NoDup COLUMNAS_RESUMEN
  /\ length COLUMNAS_RESUMEN = 20%nat
  /\ (forall dia,
        (fila_resumen dia).*1 = COLUMNAS_RESUMEN
        /\ forall fase_label,
             fase_label ∈ ORDEN_FASES_RESUMEN ->
             fila_get (fila_resumen dia) (fase_label +:+ "_Total") (FStr "")
             = FNum (from_option FaseData.total Float.zero
                       (DiaData.fases dia !! fase_label))
             /\ fila_get (fila_resumen dia) (fase_label +:+ "_Plan") (FStr "")
                = FNum (from_option FaseData.plan Float.zero
                          (DiaData.fases dia !! fase_label))
             /\ fila_get (fila_resumen dia) (fase_label +:+ "_Cump_%") (FStr "")
                = FNum (from_option (fun f => porcentaje (FaseData.cumplimiento_diario f))
                          Float.zero (DiaData.fases dia !! fase_label))).
Proof.
  split.
  { destruct (filas_resumen_spec dias) as (ds & Hds & H).
    exists ds. split; [exact Hds |]. split; [exact H |].
    by rewrite length_fmap, (Forall2_length_keys dias ds Hds). }
  split.
  { apply NoDup_ListNoDup. unfold COLUMNAS_RESUMEN.
    repeat (constructor; [simpl; intros H;
      repeat (destruct H as [H | H]; [discriminate |]); exact H |]).
    constructor. }
  split; [reflexivity |].
  intros dia. split; [apply claves_fila_resumen |].
  intros l Hl. unfold ORDEN_FASES_RESUMEN in Hl.
  rewrite !elem_of_cons, elem_of_nil in Hl.
  unfold fila_resumen, ORDEN_FASES_RESUMEN. cbn [foldl].
  rewrite !agregar_fase_alt.
  destruct Hl as [-> | [-> | [-> | [-> | []]]]]; repeat split; reflexivity.
Qed.

(** ** The command, given no date *)

Lemma cargar_excel_en_rango (py : Builtins) (sheets : Sheets) :
  libro_en_rango sheets ->
  forall w, disk w !! EXCEL_PATH = Some sheets ->
  exists data,
    cargar_excel py EXCEL_PATH w = (Ok data, con_handles (handles w ++ [false]) w)
    /\ hojas_fecha data = strip <$> hojas_de_fecha sheets
    /\ total_hojas data = length (hojas_de_fecha sheets)
    /\ dom (dias data) = list_to_set (hojas_fecha data).
Proof.
  intros Hr w Hd.
  destruct (cargar_loop py sheets Hr (hojas_de_fecha sheets) ∅)
    as (ds & Hrun & Hdom & _).
  { intros n Hn. by apply hojas_de_fecha_sheetnames in Hn as [? _]. }
  rewrite dom_empty_L, (left_id_L ∅ (∪)) in Hdom.
  pose proof (cargar_excel_eval py EXCEL_PATH w sheets Hd) as E. cbv zeta in E.
  fold (hojas_de_fecha sheets) in E. rewrite Hrun in E.
  eexists. split; [exact E |]. by repeat split.
Qed.

Lemma dias_vacio_iff (py : Builtins) (sheets : Sheets) (r : Carga) :
  dom (dias r) = list_to_set (strip <$> hojas_de_fecha sheets) ->
  dias r = ∅ <-> hojas_de_fecha sheets = [].
Proof.
  intros Hdom. split.
  - intros He. rewrite He, dom_empty_L in Hdom.
    destruct (hojas_de_fecha sheets) as [| n l]; [reflexivity |].
    exfalso. assert (strip n ∈ (∅ : gset string)) as H; [| by apply not_elem_of_empty in H].
    rewrite Hdom. rewrite fmap_cons, list_to_set_cons.
    apply elem_of_union. left. by apply elem_of_singleton.
  - intros He. rewrite He in Hdom. apply dom_empty_iff_L. exact Hdom.
Qed.

(** X12. Given no date, the command loads the whole workbook (its integer
    cells in range) through one handle, which it closes. When no sheet is
    left after the exclusions it reports 0 sheets, writes no file and ends
    with status 1. Otherwise, when its three files can be opened, it
    returns normally after writing them, named from the base name of the
    [--output] option, the equipment view holding the rows of all the days
    loaded; when one of them cannot be opened it ends with the exception
    of [open] on that file and status 1. *)
Theorem main_sin_fechas (py : Builtins) (argv : list string) (w : World)
    (sheets : Sheets) :
  disk w !! EXCEL_PATH = Some sheets ->
  libro_en_rango sheets ->
  fechas_de argv = [] ->
  let base := (parse_output (drop 1 argv)).1 in
  let r := main py argv w in
  handles r.2 = (handles w ++ [false])%list
  /\ disk r.2 = disk w
  /\ (hojas_de_fecha sheets = [] ->
      r.1 = Raise (SystemExit 1)
      /\ exit_status r.1 = 1
      /\ files r.2 = files w
      /\ stdout r.2
         = (stdout w ++ [ "Leyendo Excel: " +:+ EXCEL_PATH;
                          "Hojas encontradas: 0";
                          "No se encontraron datos. Verifica las fechas." ])%list)
  /\ (hojas_de_fecha sheets <> [] ->
      escribibles w (archivos_de base) ->
      r.1 = Ok tt
      /\ exit_status r.1 = 0
      /\ dom (files r.2)
         = dom (files w) ∪ {[ (base +:+ "_metros") +:+ ".csv";
                              (base +:+ "_roc") +:+ ".csv";
                              (base +:+ "_resumen_diario") +:+ ".csv" ]}
      /\ exists data filas,
           (cargar_excel py EXCEL_PATH
              (con_stdout (stdout w ++ ["Leyendo Excel: " +:+ EXCEL_PATH]) w)).1
           = Ok data
           /\ todas_filas_metros (dias data) = Ok filas
           /\ files r.2 !! ((base +:+ "_metros") +:+ ".csv")
              = Some (archivo_csv COLUMNAS_METROS filas))
  /\ (hojas_de_fecha sheets <> [] ->
      ~ escribibles w (archivos_de base) ->
      exists archivo err,
        archivo ∈ archivos_de base
        /\ unwritable w !! archivo = Some err
        /\ r.1 = Raise (open_exn err archivo)
        /\ exit_status r.1 = 1
        /\ files r.2 !! archivo = files w !! archivo).
Proof.
  intros Hd Hr Hf base r.
  set (w0 := con_stdout (stdout w ++ ["Leyendo Excel: " +:+ EXCEL_PATH]) w).
  destruct (cargar_excel_en_rango py sheets Hr w0 Hd)
    as (data & Hrun & Hh & Ht & Hdom).
  rewrite Hh in Hdom. pose proof (dias_vacio_iff py sheets data Hdom) as Hiff.
  assert (Hmain : r = (main py argv w)) by reflexivity.
  unfold main in Hmain. unfold fechas_de in Hf. subst base.
  destruct (parse_output (drop 1 argv)) as [output_base args]. cbn [fst snd] in *.
  rewrite Hf in Hmain.
  rewrite io_bind in Hmain. unfold print at 1 in Hmain. fold w0 in Hmain.
  rewrite io_bind, io_bind, Hrun in Hmain. cbv beta iota in Hmain.
  rewrite io_bind in Hmain. unfold print at 1 in Hmain.
  unfold mret at 1, IO_ret at 1 in Hmain. cbn [dias] in Hmain. rewrite Ht in Hmain.
  destruct (decide (dias data = ∅)) as [He | Hne].
  { rewrite io_bind in Hmain. unfold print at 1, raise, lift in Hmain.
    rewrite Hmain. cbn.
    split; [reflexivity |]. split; [reflexivity |]. split; [| split].
    - intros Hnil. rewrite Hnil. cbn. rewrite <- !app_assoc. repeat split.
    - intros Hnn. exfalso. by apply Hnn, Hiff.
    - intros Hnn. exfalso. by apply Hnn, Hiff. }
  rewrite io_bind in Hmain. unfold print at 1 in Hmain. rewrite io_bind in Hmain.
  match type of Hmain with context [exportar (dias data) output_base ?w2] =>
    destruct (exportar_eval (dias data) output_base w2 Hne)
      as (fm & fr & fs & Hfm & _ & _ & Hexp) end.
  cbv zeta in Hexp. cbn [unwritable con_stdout con_handles con_files w0] in Hexp.
  destruct (nombres_distintos output_base) as (Hsm & Hrm & Hsr).
  pose proof (escribibles_archivos_de w output_base) as Hesc.
  unfold archivos_de.
  destruct (unwritable w !! ((output_base +:+ "_metros") +:+ ".csv"))
    as [em |] eqn:Hm;
    [| destruct (unwritable w !! ((output_base +:+ "_roc") +:+ ".csv"))
         as [er |] eqn:Hro;
       [| destruct (unwritable w !! ((output_base +:+ "_resumen_diario") +:+ ".csv"))
            as [es |] eqn:Hs]];
    rewrite Hexp in Hmain; cbv beta iota in Hmain.
  - rewrite Hmain. cbn [fst snd handles disk con_stdout con_handles con_files w0].
    split; [reflexivity |]. split; [reflexivity |]. split; [| split].
    + intros Hnil. exfalso. by apply Hne, Hiff.
    + intros _ Hw. apply Hesc in Hw as (Hw & _). discriminate.
    + intros _ _. eexists _, em. split; [left |]. split; [exact Hm |].
      split; [reflexivity |]. split; [by destruct em | reflexivity].
  - rewrite Hmain. cbn [fst snd handles disk files con_stdout con_handles con_files w0].
    split; [reflexivity |]. split; [reflexivity |]. split; [| split].
    + intros Hnil. exfalso. by apply Hne, Hiff.
    + intros _ Hw. apply Hesc in Hw as (_ & Hw & _). discriminate.
    + intros _ _. eexists _, er. split; [right; left |]. split; [exact Hro |].
      split; [reflexivity |]. split; [by destruct er |].
      by rewrite lookup_insert_ne by (by apply not_eq_sym).
  - rewrite Hmain. cbn [fst snd handles disk files con_stdout con_handles con_files w0].
    split; [reflexivity |]. split; [reflexivity |]. split; [| split].
    + intros Hnil. exfalso. by apply Hne, Hiff.
    + intros _ Hw. apply Hesc in Hw as (_ & _ & Hw). discriminate.
    + intros _ _. eexists _, es. split; [right; right; left |]. split; [exact Hs |].
      split; [reflexivity |]. split; [by destruct es |].
      by rewrite !lookup_insert_ne.
  - rewrite io_bind in Hmain. unfold print at 1 in Hmain.
    rewrite io_bind in Hmain. unfold print at 1 in Hmain.
    unfold print in Hmain. rewrite Hmain.
    cbn [fst snd handles disk files con_stdout con_handles con_files w0].
    split; [reflexivity |]. split; [reflexivity |]. split; [| split].
    + intros Hnil. exfalso. by apply Hne, Hiff.
    + intros _ _. split; [reflexivity |]. split; [reflexivity |]. split.
      * rewrite !dom_insert_L. apply set_eq. intros x.
        rewrite !elem_of_union, !elem_of_singleton. tauto.
      * exists data, fm. rewrite Hrun. split; [reflexivity |]. split; [exact Hfm |].
        rewrite lookup_insert_ne by exact Hsm.
        rewrite lookup_insert_ne by exact Hrm.
        by rewrite lookup_insert_eq.
    + intros _ Hno. exfalso. apply Hno, Hesc. by repeat split.
Qed.

Lemma Ejemplo_hojas_de_fecha : hojas_de_fecha Ejemplo.libro = ["15-01 "].
Proof. reflexivity. Qed.

Lemma cargar_excel_spec_witness :
  exists r,
    (cargar_excel Ejemplo.py EXCEL_PATH Ejemplo.mundo).1 = Ok r
    /\ hojas_fecha r = ["15-01"]
    /\ dom (dias r) = ({[ "15-01" ]} : gset string)
    /\ dias r !! "15-01" = Some (dia_de_hoja Ejemplo.py Ejemplo.hoja "15-01 ").
Proof.
  destruct (cargar_excel_spec Ejemplo.py EXCEL_PATH Ejemplo.mundo Ejemplo.libro
              eq_refl Ejemplo_libro_en_rango)
    as (r & Hrun & Hh & _ & Hdom & _ & _ & _ & _ & Hlast).
  exists r. rewrite Hrun. split; [reflexivity |].
  rewrite Ejemplo_hojas_de_fecha in Hh. split; [exact Hh |].
  split.
  - rewrite Hdom, Hh. cbn [list_to_set foldr]. exact (right_id_L ∅ (∪) _).
  - apply (Hlast [] "15-01 " [] Ejemplo.hoja).
    + exact Ejemplo_hojas_de_fecha.
    + intros m Hm. apply elem_of_nil in Hm. destruct Hm.
    + reflexivity.
Defined.

Lemma main_sin_fechas_witness :
  (main Ejemplo.py ["dashboard_csv.py"; "--output"; "enero"] Ejemplo.mundo).1 = Ok tt
  /\ handles (main Ejemplo.py ["dashboard_csv.py"; "--output"; "enero"]
                Ejemplo.mundo).2 = [false]
  /\ dom (files (main Ejemplo.py ["dashboard_csv.py"; "--output"; "enero"]
                   Ejemplo.mundo).2)
     = ({[ "enero_metros.csv"; "enero_roc.csv"; "enero_resumen_diario.csv" ]}
        : gset string).
Proof.
  destruct (main_sin_fechas Ejemplo.py ["dashboard_csv.py"; "--output"; "enero"]
              Ejemplo.mundo Ejemplo.libro eq_refl Ejemplo_libro_en_rango eq_refl)
    as (Hh & _ & _ & Hok & _).
  destruct Hok as (Hr & _ & Hdom & _).
  { rewrite Ejemplo_hojas_de_fecha. discriminate. }
  { apply Ejemplo_escribibles. }
  split; [exact Hr |]. split; [exact Hh |].
  rewrite Hdom. change (files Ejemplo.mundo) with (∅ : gmap string CsvFile).
  rewrite dom_empty_L. exact (left_id_L (∅ : gset string) (∪) _).
Defined.

(** * Properties of the printed tables and of the script *)

Lemma con_stdout_nil w : con_stdout (stdout w ++ []) w = w.
Proof. rewrite app_nil_r. by destruct w. Qed.

Lemma imprime_print s : imprime (print s) [s].
Proof. intros w. reflexivity. Qed.

Lemma imprime_ret : imprime (mret tt) [].
Proof. intros w. unfold mret, IO_ret. by rewrite con_stdout_nil. Qed.

Lemma imprime_bind (m : IO unit) (k : unit -> IO unit) l1 l2 :
  imprime m l1 -> (forall u, imprime (k u) l2) -> imprime (m ≫= k) (l1 ++ l2).
Proof.
  intros H1 H2 w. rewrite io_bind, H1, H2. unfold con_stdout. cbn.
  by rewrite (assoc_L (++)).
Qed.

Lemma imprime_for_each {A} (xs : list A) (body : A -> unit -> IO unit)
    (lineas : A -> list string) :
  (forall x u, imprime (body x u) (lineas x)) ->
  forall u, imprime (for_each_io xs body u) (xs ≫= lineas).
Proof.
  intros Hb. induction xs as [| x xs IH]; intros u.
  - destruct u. apply imprime_ret.
  - cbn [for_each_io]. change ((x :: xs) ≫= lineas) with (lineas x ++ (xs ≫= lineas))%list.
    apply imprime_bind; [apply Hb | apply IH].
Qed.

Lemma fmap_bind_list {A B C} (f : B -> C) (g : A -> list B) (l : list A) :
  f <$> (l ≫= g) = l ≫= (fun x => f <$> g x).
Proof.
  induction l as [| x l IH]; [reflexivity |].
  change ((x :: l) ≫= g) with (g x ++ (l ≫= g))%list.
  rewrite fmap_app, IH. reflexivity.
Qed.

Lemma imprime_stdout (m : IO unit) lineas w :
  imprime m lineas ->
  (m w).1 = Ok tt /\ disk (m w).2 = disk w /\ handles (m w).2 = handles w
  /\ files (m w).2 = files w /\ stdout (m w).2 = (stdout w ++ lineas)%list.
Proof. intros H. rewrite H. repeat split. Qed.

Lemma equipos_presentados_filas dia :
  filas_con "Tipo" "Equipo" (dia_a_filas dia)
  = (fun p => fila_equipo (DiaData.fecha dia) p.1 p.2) <$> equipos_presentados dia.
Proof.
  rewrite dia_a_filas_bloques. unfold filas_con, equipos_presentados.
  rewrite filter_app.
  change (filter _ [fila_total_dia dia]) with (@nil Fila).
  rewrite app_nil_r.
  induction ORDEN_FASES as [| l ls IH]; [reflexivity |].
  change ((l :: ls) ≫= bloque_fase dia)
    with (bloque_fase dia l ++ (ls ≫= bloque_fase dia))%list.
  rewrite filter_app, IH.
  match goal with
  | |- _ = _ <$> ((l :: ls) ≫= ?f) =>
    change ((l :: ls) ≫= f) with (f l ++ (ls ≫= f))%list
  end.
  rewrite fmap_app. f_equal.
  unfold bloque_fase. destruct (DiaData.fases dia !! l) as [fase |]; [| reflexivity].
  rewrite filter_app.
  change (filter _ [fila_total_fase (DiaData.fecha dia) l fase]) with (@nil Fila).
  rewrite app_nil_r, <- list_fmap_compose.
  induction (FaseData.equipos fase) as [| eq eqs IHe]; [reflexivity |].
  cbn [fmap list_fmap]. rewrite filter_cons_True by reflexivity.
  f_equal. exact IHe.
Qed.

Lemma length_equipos_presentados dia :
  length (equipos_presentados dia)
  = length (filas_con "Tipo" "Equipo" (dia_a_filas dia)).
Proof. by rewrite equipos_presentados_filas, length_fmap. Qed.

Lemma imprimir_dia_plano_imprime (fmt : Formato) (dia : DiaData.t) :
  exists cabecera pie,
    length cabecera = 5%nat /\ length pie = 2%nat
    /\ imprime (imprimir_dia_plano fmt dia)
         (cabecera
          ++ ((fun p => linea_equipo_plano fmt (DiaData.fecha dia) p.1 p.2)
                <$> equipos_presentados dia)
          ++ pie).
Proof.
  assert (exists c1 c2 c3 c4 c5 p1 p2,
    imprime (imprimir_dia_plano fmt dia)
      ([c1] ++ [c2] ++ [c3] ++ [c4] ++ [c5]
       ++ ((fun p => linea_equipo_plano fmt (DiaData.fecha dia) p.1 p.2)
             <$> equipos_presentados dia)
       ++ [p1] ++ [p2])%list) as (c1 & c2 & c3 & c4 & c5 & p1 & p2 & Himp).
  { do 7 eexists. unfold imprimir_dia_plano.
    repeat (apply imprime_bind; [apply imprime_print | intros _]).
    apply imprime_bind; [| intros _; apply imprime_bind;
                             [apply imprime_print | intros _; apply imprime_print]].
    unfold equipos_presentados. rewrite fmap_bind_list.
    apply imprime_for_each. intros l u.
    destruct (DiaData.fases dia !! l) as [fase |]; [| destruct u; apply imprime_ret].
    rewrite <- list_fmap_compose.
    assert (forall eqs : list EquipoData.t,
      ((fun p : string * EquipoData.t =>
          linea_equipo_plano fmt (DiaData.fecha dia) p.1 p.2) ∘ pair l) <$> eqs
      = eqs ≫= (fun eq => [linea_equipo_plano fmt (DiaData.fecha dia) l eq])) as ->.
    { induction eqs as [| eq eqs IH]; [reflexivity |]. cbn. by f_equal. }
    apply imprime_for_each. intros eq u'. apply imprime_print. }
  exists [c1; c2; c3; c4; c5], [p1; p2].
  split; [reflexivity |]. split; [reflexivity |]. exact Himp.
Qed.

(** X13. The flat table of a day never fails and only prints. Counting
    one line per call of [print] (the first starts with a line feed): five
    lines of heading, one line per equipment of the phases F12, F10, F09
    and F11 in that order, and two closing lines. Its equipment lines are,
    in number and in order, the equipment rows of the export of the same
    day; a day read from a sheet has at most 19 of them, so between 7 and
    26 lines. *)
Theorem imprimir_dia_plano_spec (fmt : Formato) (dia : DiaData.t) (w : World) :
  exists cabecera pie,
    length cabecera = 5%nat /\ length pie = 2%nat
    /\ imprimir_dia_plano fmt dia w
       = (Ok tt,
          con_stdout
            (stdout w ++ cabecera
             ++ ((fun p => linea_equipo_plano fmt (DiaData.fecha dia) p.1 p.2)
                   <$> equipos_presentados dia)
             ++ pie) w)
    /\ filas_con "Tipo" "Equipo" (dia_a_filas dia)
       = (fun p => fila_equipo (DiaData.fecha dia) p.1 p.2) <$> equipos_presentados dia
    /\ (forall py sheet nombre_hoja,
          dia = dia_de_hoja py sheet nombre_hoja ->
          (length (equipos_presentados dia) <= 19)%nat).
Proof.
  destruct (imprimir_dia_plano_imprime fmt dia) as (cabecera & pie & Hc & Hp & Himp).
  exists cabecera, pie. split; [exact Hc |]. split; [exact Hp |]. split; [| split].
  - apply Himp.
  - apply equipos_presentados_filas.
  - intros py sheet n ->. unfold equipos_presentados.
    cbn [DiaData.fases dia_de_hoja].
    destruct (fases_de_hoja_lookup py sheet) as (H12 & H10 & H09 & H11).
    change (ORDEN_FASES ≫= ?f) with (f "F12" ++ f "F10" ++ f "F09" ++ f "F11" ++ [])%list.
    cbv beta. rewrite H12, H10, H09, H11.
    rewrite !length_app, !length_fmap. cbn [FaseData.equipos fase_de_hoja length].
    pose proof (length_equipos_de_hoja py sheet 6 9).
    pose proof (length_equipos_de_hoja py sheet 11 15).
    pose proof (length_equipos_de_hoja py sheet 17 25).
    pose proof (length_equipos_de_hoja py sheet 27 31).
    lia.
Qed.

Lemma enumerate_resto (fmt : Formato) (l : string) (eqs : list EquipoData.t)
    (start : nat) :
  (0 < start)%nat ->
  zip (seq start (length eqs)) eqs
    ≫= (fun p => lineas_equipo fmt (if Nat.eqb p.1 0 then l else "") p.2)
  = eqs ≫= lineas_equipo fmt "".
Proof.
  revert start. induction eqs as [| eq eqs IH]; intros start Hs; [reflexivity |].
  cbn [length seq zip zip_with].
  change ((?x :: ?xs) ≫= ?f) with (f x ++ (xs ≫= f))%list.
  cbv beta. rewrite (IH (S start)) by lia.
  destruct start; [lia | reflexivity].
Qed.

Lemma imprime_seccion (fmt : Formato) (dia : DiaData.t) (l : string) :
  imprime
    (match DiaData.fases dia !! l with
     | None => mret tt
     | Some fase =>
       _ ← for_each_io (enumerate (FaseData.equipos fase))
             (fun '(i, eq) _ =>
                let fase_col := if Nat.eqb i 0 then l else "" in
                _ ← print (linea_equipo fmt fase_col eq);
                if str_truthy (EquipoData.estado_ta eq)
                   || str_truthy (EquipoData.estado_tb eq)
                then print (linea_estados eq)
                else mret tt) tt;
       _ ← match FaseData.equipos fase with
           | [] => print (ljust 6 l +:+ " " +:+ ljust 8 "(sin equipos)")
           | _ :: _ => mret tt
           end;
       _ ← print (linea_total_fase fmt fase);
       print ""
     end)
    (seccion_fase fmt dia l).
Proof.
  unfold seccion_fase.
  destruct (DiaData.fases dia !! l) as [fase |]; [| apply imprime_ret].
  assert (forall eq fase_col,
    imprime (_ ← print (linea_equipo fmt fase_col eq);
             if str_truthy (EquipoData.estado_ta eq)
                || str_truthy (EquipoData.estado_tb eq)
             then print (linea_estados eq)
             else mret tt)
            (lineas_equipo fmt fase_col eq)) as Heq.
  { intros eq col. unfold lineas_equipo, con_estado.
    change (?x :: ?xs) with ([x] ++ xs)%list.
    apply imprime_bind; [apply imprime_print | intros _].
    destruct (_ || _); [apply imprime_print | apply imprime_ret]. }
  assert (imprime
    (for_each_io (enumerate (FaseData.equipos fase))
       (fun '(i, eq) _ =>
          let fase_col := if Nat.eqb i 0 then l else "" in
          _ ← print (linea_equipo fmt fase_col eq);
          if str_truthy (EquipoData.estado_ta eq)
             || str_truthy (EquipoData.estado_tb eq)
          then print (linea_estados eq)
          else mret tt) tt)
    (enumerate (FaseData.equipos fase)
       ≫= (fun p => lineas_equipo fmt (if Nat.eqb p.1 0 then l else "") p.2)))
    as Hloop.
  { apply imprime_for_each. intros [i eq] u'. apply Heq. }
  unfold enumerate in *.
  destruct (FaseData.equipos fase) as [| eq rest].
  - change ([ljust 6 l +:+ " (sin equipos)"] ++ [linea_total_fase fmt fase; ""])%list
      with ([] ++ [ljust 6 l +:+ " " +:+ ljust 8 "(sin equipos)"]
            ++ [linea_total_fase fmt fase] ++ [""])%list.
    apply imprime_bind; [exact Hloop | intros _].
    repeat (apply imprime_bind; [apply imprime_print | intros _]).
    apply imprime_print.
  - cbn [length seq zip zip_with] in Hloop.
    change ((?x :: ?xs) ≫= ?f) with (f x ++ (xs ≫= f))%list in Hloop.
    cbn [fst snd Nat.eqb] in Hloop. rewrite enumerate_resto in Hloop by lia.
    change [linea_total_fase fmt fase; ""]
      with ([] ++ [linea_total_fase fmt fase] ++ [""])%list.
    apply imprime_bind; [exact Hloop | intros _].
    apply imprime_bind; [apply imprime_ret | intros _].
    apply imprime_bind; [apply imprime_print | intros _].
    apply imprime_print.
Qed.

Lemma imprimir_dia_imprime (fmt : Formato) (dia : DiaData.t) :
  exists cabecera pie,
    length cabecera = 5%nat /\ length pie = 9%nat
    /\ imprime (imprimir_dia fmt dia)
         (cabecera ++ (ORDEN_FASES ≫= seccion_fase fmt dia) ++ pie).
Proof.
  assert (exists c1 c2 c3 c4 c5 p1 p2 p3 p4 p5 p6 p7 p8 p9,
    imprime (imprimir_dia fmt dia)
      ([c1] ++ [c2] ++ [c3] ++ [c4] ++ [c5]
       ++ (ORDEN_FASES ≫= seccion_fase fmt dia)
       ++ [p1] ++ [p2] ++ [p3] ++ [p4] ++ [p5] ++ [p6] ++ [p7] ++ [p8] ++ [p9])%list)
    as (c1 & c2 & c3 & c4 & c5 & p1 & p2 & p3 & p4 & p5 & p6 & p7 & p8 & p9 & Himp).
  { do 14 eexists. unfold imprimir_dia.
    repeat (apply imprime_bind; [apply imprime_print | intros _]).
    apply imprime_bind.
    - apply imprime_for_each. intros l u. apply imprime_seccion.
    - intros _. cbv zeta.
      repeat (apply imprime_bind; [apply imprime_print | intros _]).
      apply imprime_print. }
  exists [c1; c2; c3; c4; c5], [p1; p2; p3; p4; p5; p6; p7; p8; p9].
  split; [reflexivity |]. split; [reflexivity |]. exact Himp.
Qed.

Lemma length_lineas_equipos (fmt : Formato) (col : string)
    (eqs : list EquipoData.t) :
  length (eqs ≫= lineas_equipo fmt col)
  = (length eqs + length (filter (fun eq => con_estado eq = true) eqs))%nat.
Proof.
  induction eqs as [| eq eqs IH]; [reflexivity |].
  change ((eq :: eqs) ≫= ?f) with (f eq ++ (eqs ≫= f))%list.
  rewrite length_app, IH. unfold lineas_equipo.
  destruct (con_estado eq) eqn:E.
  - rewrite filter_cons_True by exact E. simpl. lia.
  - rewrite filter_cons_False by (rewrite E; discriminate). simpl. lia.
Qed.

Lemma length_seccion_fase (fmt : Formato) (dia : DiaData.t) (l : string)
    (fase : FaseData.t) :
  DiaData.fases dia !! l = Some fase ->
  length (seccion_fase fmt dia l)
  = (Nat.max 1 (length (FaseData.equipos fase))
     + length (filter (fun eq => con_estado eq = true) (FaseData.equipos fase))
     + 2)%nat.
Proof.
  intros H. unfold seccion_fase. rewrite H.
  destruct (FaseData.equipos fase) as [| eq rest]; [reflexivity |].
  rewrite !length_app, length_lineas_equipos. unfold lineas_equipo.
  destruct (con_estado eq) eqn:E.
  - rewrite filter_cons_True by exact E. simpl. lia.
  - rewrite filter_cons_False by (rewrite E; discriminate). simpl. lia.
Qed.

Lemma seccion_fase_acotada (fmt : Formato) (dia : DiaData.t) (l : string)
    (fase : FaseData.t) (n : nat) :
  DiaData.fases dia !! l = Some fase ->
  (length (FaseData.equipos fase) <= n)%nat -> (1 <= n)%nat ->
  (3 <= length (seccion_fase fmt dia l) <= 2 * n + 2)%nat.
Proof.
  intros H Hn Hn1. rewrite (length_seccion_fase fmt dia l fase H).
  pose proof (length_filter (fun eq => con_estado eq = true) (FaseData.equipos fase)).
  lia.
Qed.

(** X14. The detailed table of a day never fails and only prints. Counting
    one line per call of [print]: five lines of heading, the sections of
    the phases F12, F10, F09 and F11 in that order, and nine closing lines
    (the day total and the ROC figures).
    The section of a phase has one line per equipment, the label of the
    phase on the first of them only, one more line after each equipment
    with a state noted in some shift, the line [(sin equipos)] when the
    phase has no equipment, then the phase total and an empty line. A day
    read from a sheet prints between 26 and 60 lines. *)
Theorem imprimir_dia_spec (fmt : Formato) (dia : DiaData.t) (w : World) :
  exists cabecera pie,
    length cabecera = 5%nat /\ length pie = 9%nat
    /\ imprimir_dia fmt dia w
       = (Ok tt,
          con_stdout
            (stdout w ++ cabecera ++ (ORDEN_FASES ≫= seccion_fase fmt dia) ++ pie) w)
    /\ (forall l, DiaData.fases dia !! l = None -> seccion_fase fmt dia l = [])
    /\ (forall l fase,
          DiaData.fases dia !! l = Some fase ->
          length (seccion_fase fmt dia l)
          = (Nat.max 1 (length (FaseData.equipos fase))
             + length (filter (fun eq => con_estado eq = true) (FaseData.equipos fase))
             + 2)%nat
          /\ last (seccion_fase fmt dia l) = Some ""
          /\ (FaseData.equipos fase = [] ->
              seccion_fase fmt dia l
              = [ljust 6 l +:+ " (sin equipos)"; linea_total_fase fmt fase; ""])
          /\ (forall eq rest,
                FaseData.equipos fase = eq :: rest ->
                seccion_fase fmt dia l
                = (linea_equipo fmt l eq
                   :: (if con_estado eq then [linea_estados eq] else [])
                   ++ (rest ≫= lineas_equipo fmt "")
                   ++ [linea_total_fase fmt fase; ""])%list))
    /\ (forall py sheet nombre_hoja,
          dia = dia_de_hoja py sheet nombre_hoja ->
          (26 <= length (cabecera ++ (ORDEN_FASES ≫= seccion_fase fmt dia) ++ pie)
           <= 60)%nat).
Proof.
  destruct (imprimir_dia_imprime fmt dia) as (cabecera & pie & Hc & Hp & Himp).
  exists cabecera, pie. split; [exact Hc |]. split; [exact Hp |].
  split; [apply Himp |]. split; [| split].
  - intros l H. unfold seccion_fase. by rewrite H.
  - intros l fase H. split; [by apply length_seccion_fase |].
    unfold seccion_fase. rewrite H. split; [| split].
    + rewrite last_app. reflexivity.
    + by intros ->.
    + intros eq rest ->. unfold lineas_equipo.
      by rewrite <- (assoc_L (++)).
  - intros py sheet n ->. rewrite !length_app, Hc, Hp.
    destruct (fases_de_hoja_lookup py sheet) as (H12 & H10 & H09 & H11).
    change (ORDEN_FASES ≫= ?f) with (f "F12" ++ f "F10" ++ f "F09" ++ f "F11" ++ [])%list.
    rewrite !length_app. cbn [length].
    pose proof (seccion_fase_acotada fmt (dia_de_hoja py sheet n) "F12" _ 3 H12
                  (length_equipos_de_hoja py sheet 6 9) ltac:(lia)).
    pose proof (seccion_fase_acotada fmt (dia_de_hoja py sheet n) "F10" _ 4 H10
                  (length_equipos_de_hoja py sheet 11 15) ltac:(lia)).
    pose proof (seccion_fase_acotada fmt (dia_de_hoja py sheet n) "F09" _ 8 H09
                  (length_equipos_de_hoja py sheet 17 25) ltac:(lia)).
    pose proof (seccion_fase_acotada fmt (dia_de_hoja py sheet n) "F11" _ 4 H11
                  (length_equipos_de_hoja py sheet 27 31) ltac:(lia)).
    lia.
Qed.

(** ** The script of the reader *)

Lemma tras_leer_con_handles w :
  con_handles (handles w ++ [false]) w = tras_leer 1 [] w.
Proof. unfold tras_leer, con_handles. by rewrite app_nil_r. Qed.

Lemma tras_leer_con_stdout lineas w :
  con_stdout (stdout w ++ lineas) w = tras_leer 0 lineas w.
Proof. unfold tras_leer, con_stdout. by rewrite app_nil_r. Qed.

Lemma tras_leer_tras_leer k1 k2 l1 l2 w :
  tras_leer k2 l2 (tras_leer k1 l1 w) = tras_leer (k1 + k2) (l1 ++ l2) w.
Proof.
  unfold tras_leer. cbn. by rewrite replicate_add, !(assoc_L (++)).
Qed.

Section ScriptFacts.
Context (fmt : Formato) (py : Builtins) (sheets : Sheets).
Hypothesis Hrango : libro_en_rango sheets.

Lemma corre_imprime (m : IO unit) lineas :
  imprime m lineas -> corre sheets m 0 lineas tt.
Proof. intros H w _. by rewrite H, tras_leer_con_stdout. Qed.

Lemma corre_ret {A} (a : A) : corre sheets (mret a) 0 [] a.
Proof.
  intros w _. unfold mret, IO_ret, tras_leer. rewrite !app_nil_r. by destruct w.
Qed.

Lemma corre_bind {A B} (m : IO A) (f : A -> IO B) k1 k2 l1 l2 a b :
  corre sheets m k1 l1 a -> corre sheets (f a) k2 l2 b ->
  corre sheets (m ≫= f) (k1 + k2) (l1 ++ l2) b.
Proof.
  intros H1 H2 w Hd. rewrite io_bind, (H1 w Hd), H2 by exact Hd.
  by rewrite tras_leer_tras_leer.
Qed.

Lemma corre_obtener_dia fecha :
  match buscar_hoja (sheetnames sheets) fecha with
  | None => corre sheets (obtener_dia py fecha EXCEL_PATH) 1 [] None
  | Some n =>
    exists sheet,
      getitem sheets n = Ok sheet
      /\ corre sheets (obtener_dia py fecha EXCEL_PATH) 1 []
           (Some (dia_de_hoja py sheet n))
  end.
Proof.
  destruct (buscar_hoja (sheetnames sheets) fecha) as [n |] eqn:E.
  - destruct (buscar_hoja_Some _ _ _ E) as [Hin _].
    destruct (getitem_sheetnames sheets n Hin) as (sheet & Hg & _).
    exists sheet. split; [exact Hg |]. intros w Hd.
    rewrite (obtener_dia_en_rango py sheets Hrango fecha w Hd), E, Hg.
    by rewrite tras_leer_con_handles.
  - intros w Hd.
    rewrite (obtener_dia_en_rango py sheets Hrango fecha w Hd), E.
    by rewrite tras_leer_con_handles.
Qed.

Lemma imprime_hojas (names : list string) (u : unit) :
  imprime
    (for_each_io names
       (fun name _ =>
          if decide (strip name ∉ HOJAS_EXCLUIDAS)
          then print ("  - " +:+ strip name)
          else mret tt) u)
    ((fun name => "  - " +:+ strip name)
       <$> filter (fun name => strip name ∉ HOJAS_EXCLUIDAS) names).
Proof.
  assert (forall ns : list string,
    (fun name => "  - " +:+ strip name)
      <$> filter (fun name => strip name ∉ HOJAS_EXCLUIDAS) ns
    = ns ≫= (fun name => if decide (strip name ∉ HOJAS_EXCLUIDAS)
                          then ["  - " +:+ strip name] else [])) as ->.
  { induction ns as [| n ns IH]; [reflexivity |].
    change ((n :: ns) ≫= ?f) with (f n ++ (ns ≫= f))%list. rewrite <- IH.
    unfold filter at 1. cbn [list_filter].
    destruct (decide (strip n ∉ HOJAS_EXCLUIDAS)); reflexivity. }
  apply imprime_for_each. intros name u'.
  destruct (decide (strip name ∉ HOJAS_EXCLUIDAS));
    [apply imprime_print | destruct u'; apply imprime_ret].
Qed.

Lemma corre_listar_hojas :
  corre sheets listar_hojas 1
    ("Hojas disponibles:"
     :: ((fun name => "  - " +:+ strip name) <$> hojas_de_fecha sheets)) tt.
Proof.
  intros w Hd. unfold listar_hojas.
  rewrite io_bind. unfold print at 1. rewrite io_bind.
  unfold load_workbook. cbn [disk con_stdout]. rewrite Hd. cbn [wb_sheets].
  rewrite io_bind, (imprime_hojas (sheetnames sheets) tt).
  unfold close, con_handles, con_stdout, tras_leer. cbn.
  rewrite insert_last_false, <- (assoc_L (++)). reflexivity.
Qed.

Lemma corre_fecha (plano : bool) fecha :
  exists salida,
    corre sheets
      (dia ← obtener_dia py fecha EXCEL_PATH;
       match dia with
       | Some dia =>
         if plano then imprimir_dia_plano fmt dia else imprimir_dia fmt dia
       | None =>
         _ ← print ("No se encontró la hoja '" +:+ fecha +:+ "' en el Excel.");
         listar_hojas
       end)
      (if decide (coincide sheets fecha) then 1 else 2) salida tt
    /\ salida_fecha fmt py sheets plano fecha salida.
Proof.
  unfold salida_fecha. pose proof (corre_obtener_dia fecha) as Ho.
  pose proof (buscar_hoja_coincide sheets fecha) as Hc.
  destruct (buscar_hoja (sheetnames sheets) fecha) as [n |] eqn:E.
  - destruct Ho as (sheet & Hg & Ho).
    destruct (decide (coincide sheets fecha)) as [_ | Hn];
      [| exfalso; apply Hn, Hc; by eexists].
    assert (exists salida,
      imprime (if plano
               then imprimir_dia_plano fmt (dia_de_hoja py sheet n)
               else imprimir_dia fmt (dia_de_hoja py sheet n)) salida)
      as (salida & Hs).
    { destruct plano.
      - destruct (imprimir_dia_plano_imprime fmt (dia_de_hoja py sheet n))
          as (c & p & _ & _ & H). eexists. exact H.
      - destruct (imprimir_dia_imprime fmt (dia_de_hoja py sheet n))
          as (c & p & _ & _ & H). eexists. exact H. }
    exists salida. split; [| by exists sheet].
    apply (corre_bind _ _ 1 0 [] salida _ _ Ho). by apply corre_imprime.
  - destruct (decide (coincide sheets fecha)) as [Hy | _];
      [apply Hc in Hy; by destruct Hy |].
    exists (lineas_sin_hoja sheets fecha). split; [| reflexivity].
    apply (corre_bind _ _ 1 1 [] _ _ _ Ho).
    apply (corre_bind _ _ 0 1 [_] _ tt).
    + apply corre_imprime, imprime_print.
    + apply corre_listar_hojas.
Qed.

Lemma corre_fechas (plano : bool) (fechas : list string) :
  exists salidas,
    Forall2 (salida_fecha fmt py sheets plano) fechas salidas
    /\ corre sheets
         (for_each_io fechas
            (fun fecha _ =>
               dia ← obtener_dia py fecha EXCEL_PATH;
               match dia with
               | Some dia =>
                 if plano then imprimir_dia_plano fmt dia else imprimir_dia fmt dia
               | None =>
                 _ ← print ("No se encontró la hoja '" +:+ fecha +:+ "' en el Excel.");
                 listar_hojas
               end) tt)
         (length fechas
          + length (filter (fun fecha => ~ coincide sheets fecha) fechas))
         (concat salidas) tt.
Proof.
  induction fechas as [| fecha fechas (salidas & HF & IH)].
  - exists []. split; [constructor | apply corre_ret].
  - destruct (corre_fecha plano fecha) as (salida & Hc & Hs).
    exists (salida :: salidas). split; [by constructor |].
    cbn [for_each_io concat].
    replace (length (fecha :: fechas)
             + length (filter (fun fecha => ~ coincide sheets fecha) (fecha :: fechas)))%nat
      with ((if decide (coincide sheets fecha) then 1 else 2)
            + (length fechas
               + length (filter (fun fecha => ~ coincide sheets fecha) fechas)))%nat.
    + exact (corre_bind _ _ _ _ _ _ tt tt Hc IH).
    + destruct (decide (coincide sheets fecha)) as [Hy | Hn].
      * rewrite filter_cons_False by tauto. simpl. lia.
      * rewrite filter_cons_True by exact Hn. simpl. lia.
Qed.

Lemma corre_cargar_excel :
  exists data,
    corre sheets (cargar_excel py EXCEL_PATH) 1 [] data
    /\ hojas_fecha data = strip <$> hojas_de_fecha sheets
    /\ total_hojas data = length (hojas_de_fecha sheets)
    /\ dom (dias data) = list_to_set (hojas_fecha data).
Proof.
  destruct (cargar_loop py sheets Hrango (hojas_de_fecha sheets) ∅)
    as (ds & Hrun & Hdom & _).
  { intros n Hn. by apply hojas_de_fecha_sheetnames in Hn as [? _]. }
  rewrite dom_empty_L, (left_id_L ∅ (∪)) in Hdom.
  exists {| dias := ds; hojas_fecha := strip <$> hojas_de_fecha sheets;
            total_hojas := length (hojas_de_fecha sheets) |}.
  split; [| by repeat split].
  intros w Hd.
  pose proof (cargar_excel_eval py EXCEL_PATH w sheets Hd) as E. cbv zeta in E.
  fold (hojas_de_fecha sheets) in E. rewrite Hrun in E.
  by rewrite E, tras_leer_con_handles.
Qed.

Lemma imprime_ultimas (ds : gmap string DiaData.t) (ultimas : list string) :
  (forall fecha, fecha ∈ ultimas -> is_Some (ds !! fecha)) ->
  exists salidas,
    Forall2 (fun fecha salida =>
               exists dia, ds !! fecha = Some dia
                           /\ imprime (imprimir_dia fmt dia) salida)
            ultimas salidas
    /\ imprime (for_each_io ultimas
                  (fun fecha _ =>
                     dia ← lift (dias_getitem ds fecha);
                     imprimir_dia fmt dia) tt)
               (concat salidas).
Proof.
  induction ultimas as [| fecha ultimas IH]; intros Hin.
  - exists []. split; [constructor | apply imprime_ret].
  - destruct IH as (salidas & HF & IH).
    { intros f Hf. apply Hin. by right. }
    destruct (Hin fecha) as [dia Hdia]; [by left |].
    destruct (imprimir_dia_imprime fmt dia) as (c & p & _ & _ & Hi).
    eexists (_ :: salidas). split.
    + constructor; [| exact HF]. exists dia. split; [exact Hdia | exact Hi].
    + cbn [for_each_io concat]. apply imprime_bind; [| intros []; exact IH].
      intros w. rewrite io_bind. unfold lift, dias_getitem. rewrite Hdia.
      apply Hi.
Qed.

End ScriptFacts.

(** X15. With the document in place and the integer cells of its sheets in
    range, the script of the reader returns normally, writes no file and
    leaves every workbook it opened closed. Given dates, it prints for
    each, in order, the table of the first sheet whose trimmed name is the
    trimmed date (the flat one under [--plano]) or else a note and the
    list of the sheets that are not excluded; it opens the document once
    per date and once more per date without a sheet. Given none, it loads
    the workbook once, reports the count and the first ten names, and
    prints the detailed table of the last three names at most, each of
    which is a key of the days loaded. *)
Theorem leer_excel_main_spec (fmt : Formato) (py : Builtins)
    (argv : list string) (w : World) (sheets : Sheets) :
  disk w !! EXCEL_PATH = Some sheets ->
  libro_en_rango sheets ->
  let fechas := fechas_script argv in
  let plano := bool_decide ("--plano" ∈ drop 1 argv) in
  (fechas <> [] ->
   exists salidas,
     Forall2 (salida_fecha fmt py sheets plano) fechas salidas
     /\ leer_excel_main fmt py argv w
        = (Ok tt,
           tras_leer
             (length fechas
              + length (filter (fun fecha => ~ coincide sheets fecha) fechas))
             (concat salidas) w))
  /\ (fechas = [] ->
      exists data salidas,
        (cargar_excel py EXCEL_PATH w).1 = Ok data
        /\ hojas_fecha data = strip <$> hojas_de_fecha sheets
        /\ Forall2 (fun fecha salida =>
                      exists dia, dias data !! fecha = Some dia
                                  /\ imprime (imprimir_dia fmt dia) salida)
                   (drop (length (hojas_fecha data) - 3) (hojas_fecha data))
                   salidas
        /\ length salidas = Nat.min 3 (length (hojas_de_fecha sheets))
        /\ leer_excel_main fmt py argv w
           = (Ok tt,
              tras_leer 1
                ([ "Cargando todas las hojas...";
                   "Total hojas procesadas: "
                   +:+ pretty (length (hojas_de_fecha sheets));
                   "Fechas disponibles: "
                   +:+ join ", " (take 10 (hojas_fecha data))
                   +:+ "... (y más)" ]
                 ++ concat salidas) w)).
Proof.
  intros Hd Hr fechas plano. subst fechas plano. unfold fechas_script.
  unfold leer_excel_main. cbv zeta.
  destruct (filter (fun a => String.prefix "--" a = false) (drop 1 argv))
    as [| fecha fechas] eqn:E.
  - split; [done |]. intros _.
    destruct (corre_cargar_excel py sheets Hr) as (data & Hc & Hh & Ht & Hdom).
    destruct (imprime_ultimas fmt (dias data)
                (drop (length (hojas_fecha data) - 3) (hojas_fecha data)))
      as (salidas & HF & Hi).
    { intros f Hf. apply elem_of_dom. rewrite Hdom. apply elem_of_list_to_set.
      apply list_elem_of_lookup in Hf as [i Hf]. rewrite lookup_drop in Hf.
      by eapply list_elem_of_lookup_2. }
    exists data, salidas.
    split; [by rewrite (Hc w Hd) |]. split; [exact Hh |]. split; [exact HF |].
    split.
    { rewrite <- (Forall2_length _ _ _ HF), length_drop, Hh, length_fmap. lia. }
    rewrite <- Ht.
    refine (corre_bind sheets _ _ 0 1 [_] _ tt tt _ _ w Hd);
      [apply corre_imprime, imprime_print |].
    refine (corre_bind sheets _ _ 1 0 [] _ data tt Hc _).
    refine (corre_bind sheets _ _ 0 0 [_] _ tt tt _ _);
      [apply corre_imprime, imprime_print |].
    refine (corre_bind sheets _ _ 0 0 [_] _ tt tt _ _);
      [apply corre_imprime, imprime_print |].
    apply corre_imprime, Hi.
  - split; [| done]. intros _.
    destruct (corre_fechas fmt py sheets Hr
                (bool_decide ("--plano" ∈ drop 1 argv)) (fecha :: fechas))
      as (salidas & HF & Hc).
    exists salidas. split; [exact HF |]. exact (Hc w Hd).
Qed.

Lemma leer_excel_main_spec_witness :
  leer_excel_main formato_ejemplo Ejemplo.py ["leer_excel.py"; "99-99"; "--plano"]
    Ejemplo.mundo
  = (Ok tt,
     tras_leer 2
       [ "No se encontró la hoja '99-99' en el Excel.";
         "Hojas disponibles:"; "  - 15-01" ] Ejemplo.mundo)
  /\ exists lineas,
       leer_excel_main formato_ejemplo Ejemplo.py ["leer_excel.py"] Ejemplo.mundo
       = (Ok tt, tras_leer 1 lineas Ejemplo.mundo).
Proof.
  split.
  - destruct (leer_excel_main_spec formato_ejemplo Ejemplo.py
                ["leer_excel.py"; "99-99"; "--plano"] Ejemplo.mundo Ejemplo.libro
                eq_refl Ejemplo_libro_en_rango) as [Hf _].
    destruct Hf as (salidas & HF & Hrun); [discriminate |].
    rewrite Hrun.
    apply Forall2_cons_inv_l in HF as (salida & rest & Hs & HF & ->).
    apply Forall2_nil_inv_l in HF as ->.
    unfold salida_fecha in Hs.
    change (buscar_hoja (sheetnames Ejemplo.libro) "99-99") with (@None string) in Hs.
    rewrite Hs. reflexivity.
  - destruct (leer_excel_main_spec formato_ejemplo Ejemplo.py
                ["leer_excel.py"] Ejemplo.mundo Ejemplo.libro
                eq_refl Ejemplo_libro_en_rango) as [_ Hv].
    destruct (Hv eq_refl) as (data & salidas & _ & _ & _ & _ & Hrun).
    eexists. exact Hrun.
Defined.

(** X16. Without the document the script of the reader ends with
    [FileNotFoundError]: at once when dates are given, after its first
    line when none is. Nothing else is printed and no handle is opened. *)
Theorem leer_excel_main_sin_documento (fmt : Formato) (py : Builtins)
    (argv : list string) (w : World) :
  disk w !! EXCEL_PATH = None ->
  leer_excel_main fmt py argv w
  = (Raise (FileNotFoundError EXCEL_PATH),
     if decide (fechas_script argv = [])
     then con_stdout (stdout w ++ ["Cargando todas las hojas..."]) w
     else w).
Proof.
  intros Hd. unfold leer_excel_main, fechas_script. cbv zeta.
  destruct (filter (fun a => String.prefix "--" a = false) (drop 1 argv))
    as [| fecha fechas].
  - rewrite decide_True by reflexivity.
    rewrite io_bind. unfold print at 1. rewrite io_bind.
    by rewrite cargar_excel_sin_documento.
  - rewrite decide_False by discriminate.
    cbn [for_each_io]. rewrite io_bind, io_bind.
    by rewrite obtener_dia_sin_documento.
Qed.

Lemma leer_excel_main_sin_documento_witness :
  (leer_excel_main formato_ejemplo Ejemplo.py ["leer_excel.py"; "15-01"]
     {| disk := ∅; handles := []; stdout := []; files := ∅; unwritable := ∅ |}).1
  = Raise (FileNotFoundError EXCEL_PATH).
Proof.
  by rewrite (leer_excel_main_sin_documento formato_ejemplo Ejemplo.py
                ["leer_excel.py"; "15-01"]
                {| disk := ∅; handles := []; stdout := []; files := ∅; unwritable := ∅ |}
                (lookup_empty _)).
Defined.

(** ** The two accessors on the same workbook *)

Lemma buscar_hoja_primera names fecha n :
  buscar_hoja names fecha = Some n ->
  exists pre post,
    names = (pre ++ n :: post)%list
    /\ forall m, m ∈ pre -> strip m <> strip fecha.
Proof.
  induction names as [| a names IH]; simpl; [done |].
  destruct (String.eqb_spec (strip a) (strip fecha)) as [He | He].
  - intros [= <-]. exists [], names. split; [reflexivity |].
    intros m Hm. by apply elem_of_nil in Hm.
  - intros H. destruct (IH H) as (pre & post & -> & Hpre).
    exists (a :: pre), post. split; [reflexivity |].
    intros m Hm. apply elem_of_cons in Hm as [-> | Hm]; [exact He | by apply Hpre].
Qed.

Lemma ultima_aparicion (k : string) (names : list string) :
  (exists n, n ∈ names /\ strip n = k) ->
  exists pre n post,
    names = (pre ++ n :: post)%list /\ strip n = k
    /\ forall m, m ∈ post -> strip m <> k.
Proof.
  induction names as [| a names IH]; intros (n & Hin & Hn);
    [by apply elem_of_nil in Hin |].
  destruct (decide (Exists (fun m => strip m = k) names)) as [Hex | Hno].
  - apply Exists_exists in Hex as (m & Hm & Hk).
    destruct IH as (pre & u & post & -> & Hu & Hpost); [by exists m |].
    by exists (a :: pre), u, post.
  - assert (forall m, m ∈ names -> strip m <> k) as Hall.
    { intros m Hm Hk. apply Hno, Exists_exists. by exists m. }
    apply elem_of_cons in Hin as [-> | Hin]; [| by destruct (Hall n Hin)].
    by exists [], a, names.
Qed.

(** X17. For a date that matches some sheet and is not excluded, both
    accessors find a day (the integer cells of the workbook in range), of
    sheets whose trimmed name is the trimmed date: the single-day accessor
    reads the first such sheet of the workbook, the bulk loader keeps the
    last one under that key. They return the same day when only one sheet
    name matches. *)
Theorem obtener_dia_y_cargar_excel (py : Builtins) (ruta fecha : string)
    (w : World) (sheets : Sheets) :
  disk w !! ruta = Some sheets ->
  libro_en_rango sheets ->
  coincide sheets fecha ->
  strip fecha ∉ HOJAS_EXCLUIDAS ->
  exists primera ultima s1 s2 data,
    (obtener_dia py fecha ruta w).1 = Ok (Some (dia_de_hoja py s1 primera))
    /\ (cargar_excel py ruta w).1 = Ok data
    /\ dias data !! strip fecha = Some (dia_de_hoja py s2 ultima)
    /\ getitem sheets primera = Ok s1 /\ getitem sheets ultima = Ok s2
    /\ strip primera = strip fecha /\ strip ultima = strip fecha
    /\ (exists pre post,
          sheetnames sheets = (pre ++ primera :: post)%list
          /\ forall m, m ∈ pre -> strip m <> strip fecha)
    /\ (exists pre post,
          sheetnames sheets = (pre ++ ultima :: post)%list
          /\ forall m, m ∈ post -> strip m <> strip fecha)
    /\ ((forall m, m ∈ sheetnames sheets -> strip m = strip fecha -> m = primera) ->
        dias data !! strip fecha = Some (dia_de_hoja py s1 primera)).
Proof.
  intros Hd Hr Hc Hex.
  destruct (proj1 (buscar_hoja_coincide sheets fecha) Hc) as [n1 E].
  destruct (buscar_hoja_Some _ _ _ E) as [Hin1 Hs1].
  destruct (buscar_hoja_primera _ _ _ E) as (pre1 & post1 & Hsplit1 & Hpre1).
  destruct (leer_dia_libro_en_rango py sheets Hr n1 Hin1) as (s1 & Hg1 & Hl1).
  destruct (ultima_aparicion (strip fecha) (sheetnames sheets) Hc)
    as (pre2 & n2 & post2 & Hsplit2 & Hs2 & Hpost2).
  assert (n2 ∈ sheetnames sheets) as Hin2.
  { rewrite Hsplit2. apply elem_of_app. right. by left. }
  destruct (getitem_sheetnames sheets n2 Hin2) as (s2 & Hg2 & _).
  destruct (cargar_loop py sheets Hr (hojas_de_fecha sheets) ∅)
    as (ds & Hrun & _ & _ & Hlast).
  { intros n Hn. by apply hojas_de_fecha_sheetnames in Hn as [? _]. }
  pose proof (cargar_excel_eval py ruta w sheets Hd) as Ec. cbv zeta in Ec.
  fold (hojas_de_fecha sheets) in Ec. rewrite Hrun in Ec.
  assert (ds !! strip fecha = Some (dia_de_hoja py s2 n2)) as Hds.
  { rewrite <- Hs2.
    apply (Hlast (filter (fun name => strip name ∉ HOJAS_EXCLUIDAS) pre2) n2
                 (filter (fun name => strip name ∉ HOJAS_EXCLUIDAS) post2) s2).
    - unfold hojas_de_fecha. rewrite Hsplit2, filter_app.
      rewrite filter_cons_True by (by rewrite Hs2). reflexivity.
    - intros m Hm. apply list_elem_of_filter in Hm as [_ Hm].
      rewrite Hs2. by apply Hpost2.
    - exact Hg2. }
  exists n1, n2, s1, s2,
    {| dias := ds; hojas_fecha := strip <$> hojas_de_fecha sheets;
       total_hojas := length (hojas_de_fecha sheets) |}.
  split.
  { by rewrite (obtener_dia_eval py fecha ruta w sheets Hd), E, Hl1. }
  split; [by rewrite Ec |]. split; [exact Hds |].
  split; [exact Hg1 |]. split; [exact Hg2 |].
  split; [exact Hs1 |]. split; [exact Hs2 |].
  split; [by exists pre1, post1 |]. split; [by exists pre2, post2 |].
  intros Huniq. cbn [dias]. rewrite Hds.
  assert (n2 = n1) as -> by (by apply Huniq).
  rewrite Hg1 in Hg2. by injection Hg2 as ->.
Qed.

Lemma obtener_dia_y_cargar_excel_witness :
  exists data dia,
    (cargar_excel Ejemplo.py EXCEL_PATH Ejemplo.mundo).1 = Ok data
    /\ (obtener_dia Ejemplo.py "15-01" EXCEL_PATH Ejemplo.mundo).1 = Ok (Some dia)
    /\ is_Some (dias data !! "15-01").
Proof.
  destruct (obtener_dia_y_cargar_excel Ejemplo.py EXCEL_PATH "15-01"
              Ejemplo.mundo Ejemplo.libro eq_refl Ejemplo_libro_en_rango)
    as (n1 & n2 & s1 & s2 & data & Ho & Hc & Hds & _).
  - exists "15-01 ". split; [| reflexivity]. apply list_elem_of_In. simpl. tauto.
  - unfold HOJAS_EXCLUIDAS. intros H.
    apply elem_of_union in H as [H | H]; apply elem_of_singleton in H;
      discriminate H.
  - exists data, (dia_de_hoja Ejemplo.py s1 n1).
    split; [exact Hc |]. split; [exact Ho |]. eexists. exact Hds.
Defined.
